(* ===== verification/_CoqProject ===== *)
-Q . S2P
Prelude.v
Common.v
TokenGenerator.v
WaitGroup.v
Model.v
Collaborators.v
PipelinerunManager.v
PipelinerunController.v
ClusterUpgrade.v
TemplateSchema.v
Config.v
HttpApi.v
MemberDao.v
TemplateController.v
