(* ===== verification/Prelude.v ===== *)
(** * A verification development of the horizon deployment control plane

    This library models, in Rocq, the Go sources of horizon under src/ and
    proves the properties that make its components correct.  The files, in
    the order of _CoqProject:

    - [Prelude.v] (this file): the [result] type, the state/error/trace
      monad [ST], the goroutine fan-out [go_all], shared lemmas, tactics
      and the [horizon] hint databases.
    - [Common.v] (src/core/common/cluster.go): every constant of the
      file (query parameter names, label keys, cluster statuses, the
      Tekton event-id label).
    - [TokenGenerator.v] (src/pkg/token/generator/generator_types.go):
      [CodeGenerateInfo] and the three generator interfaces, as type
      classes.  The file has no code, so there is nothing to prove.
    - [WaitGroup.v]: Go's [sync.WaitGroup] and a round of goroutines
      joined by one ([wg.Add(n)], [go] statements whose bodies end in a
      deferred [wg.Done()], [wg.Wait()]).  It is a step relation [fstep]
      over the scheduler's choices, with its invariant and progress
      lemmas.
    - [Model.v]: the model structs (pipeline runs, clusters, releases,
      logs, diffs) and the error taxonomy.  The model packages are not under
      src/; their fields are the ones the code reads.
    - [Collaborators.v]: the Go interfaces the controllers call (cluster,
      application, environment and release managers, Tekton, the log
      archive, the code host, the GitOps repository, GitLab) as records of
      operations, and the [Call] vocabulary of the traces.
    - [PipelinerunManager.v] (src/pkg/pipelinerun/manager/manager.go): the
      [Manager] and [DAO] interfaces, [New] (every method delegates to the
      DAO), an in-memory DAO that implements the persistence contract of the
      specification, and the state machine of the writes ([mstep], reached
      by [rtc]).  manager.go only delegates, so the file states no claim
      of its own: its invariant [keyed] and the lemma on the latest run
      serve the composition theorem of PipelinerunController.v.
    - [PipelinerunController.v] (src/core/controller/pipelinerun/controller.go):
      the [Controller] interface, [NewController] (which returns the
      struct as the interface, [as_Controller]), [GetPrLog],
      [GetClusterLatestLog], [getPrLog] and [GetDiff] with its two halves.
    - [ClusterUpgrade.v] (src/core/controller/cluster/controller_operation_v2.go):
      [UpgradeToV2], and an in-memory world that runs the migration scenario
      of the specification.
    - [TemplateSchema.v] (src/pkg/templaterelease/schema/schema.go):
      [GetTemplateSchema] with its two rounds of four goroutines.  The
      rounds are also the WaitGroup rounds [wgReadFile_start] and
      [wgUnmarshal_start] of WaitGroup.v.
    - [Config.v] (src/core/config/config.go): [LoadConfig] and the expansion
      of comma-separated mapper keys ([expandMapper]).
    - [HttpApi.v] (src/core/http/api/v1/clustertag/apis.go and
      .../templateschematag/apis.go): the two [API] structs, [NewAPI] and
      the four gin handlers, with Go's [strconv.ParseUint(s, 10, 0)] at 64
      bits.
    - [MemberDao.v] (src/pkg/member/dao/dao.go): the [DAO] interface,
      [New] and the eight methods of the member DAO, [UpdateByID]'s
      transaction included.
    - [TemplateController.v] (src/core/controller/template/controller.go):
      the template controller, its [Controller] interface and
      [NewController], proved against the [Getter] interface that
      [schemaGetter] (the model of schema.go) implements.

    ** How the code is modelled

    A collaborator the Go code reaches through an interface is a record of
    operations over an abstract world [W]: reads are [W -> result A error],
    writes also return the new world.  A method is a computation of the
    monad [ST W C error].  It threads a [sys] (the world, and the trace of
    the calls made so far, each call a constructor of a [Call] type).  It
    stops at the first error and keeps the effects already made, as Go's
    early [return] does; only gorm's [Transaction] ([MemberDao.v]) rolls
    the world back.  A nil interface field is [None], and calling through
    it is [ErrPanic].  Goroutines that each write their own variables, joined
    by a [WaitGroup], are [go_all] over a schedule: any permutation of the
    goroutine numbers is a possible order.  Go's [range] over a map takes
    the iteration order as an argument, any permutation of the entries.
    Integers the code parses are [Z] at 64 bits, with the wrap-around of
    [uint64] written out.  Library code the sources only call
    ([json.Unmarshal], [yaml.Unmarshal], the texts of [Error()], the SQL
    of pkg/common, the conversions of the template API) is a section
    parameter.

    ** What the theorems show

    - Ordering and atomicity of the migration ([ClusterUpgrade.v]): the
      database row is written last, only after the values-file commit
      succeeded; the refusal of an unlisted template and the successful run
      have exact traces.  A finding has a theorem: a nil target release
      is committed and then panics.
    - Log resolution ([PipelinerunController.v]): the live and archived
      paths are exclusive, and each has an exact result; non-builddeploy
      runs get no log; the latest log of a cluster is the log of its
      latest builddeploy run, and a cluster with none has no log; the
      archived log ignores the run.
    - Composition (PipelinerunController.v, section [Composition]): a
      controller whose [prMgr] is [New] over the in-memory store, in any
      world reached by writes through the manager from a store keyed by
      identity, answers [GetClusterLatestLog] with the log of the
      cluster's stored builddeploy run of greatest identity, and with "no
      builddeploy pipelinerun" when there is none.
    - The diff: each half is present exactly under its guard and carries
      the right fields; there are no partial diffs; [NewController] panics.
    - Concurrency ([TemplateSchema.v]): the schemas do not depend on the
      goroutine schedule; the first error in slot order wins; a missing
      release is a 404 before any read.  Liveness: in both rounds,
      [wg.Wait()] is always eventually released, and only after the four
      goroutines have run, with no deadlock and no panic.  The slots are
      then the ones the model computes for some schedule, so the schedule
      argument covers every execution.  The template controller
      ([TemplateController.v]) passes the getter's 404 to its caller
      unchanged, through the [Getter] interface.
    - Configuration ([Config.v]): the keys are expanded correctly when
      they are disjoint; when two keys list the same environment, each of
      their values wins under some order of the map's range.
    - HTTP ([HttpApi.v]): [ParseUint] accepts exactly the decimal strings
      below 2^64.  The handlers call their controller with that value and
      otherwise answer 400; errors are classified by their cause.  Bounds:
      every id in the four handlers' traces is the path's value and lies
      in [0, 2^64 - 1]; a larger id is never wrapped around.
    - The member DAO ([MemberDao.v]): without a database in the context
      every method fails at once and runs nothing; a not-found update
      rolls back; a successful update changes only the role and the
      grantor; a failed [Save] is still reported as a success (a finding).

    ** Bounds and fuel

    No definition has fuel: every recursion is structural, on a string, a
    list or a schedule.  [ParseUint] uses Go's constants: [cutoff] =
    maxUint64/10 + 1 and [maxVal] = 2^64 - 1 for [IntSize] = 64, the word
    size of the platforms the server is built for.  The schedules of the
    schema getter are permutations of [0; 1; 2; 3], its four goroutines.

    ** Not modelled

    - The wlog timing of each method: it never changes a result.
    - The package-level wiring ([Gtr], [Ctl], [Mgr] values): global
      initialisation.  The constructors take these values as arguments.
    - The Tekton triggers constants that [TektonTriggersEventIDKey]
      concatenates belong to a library; they are parameters.
    - kube_test.go, which tests a package that is not among the sources.
      The fixture of schema_test.go is modelled ([TemplateSchema.SchemaTest]),
      and its two cases are witnesses.
    - The bodies of code that is not under src/: the DAO SQL,
      [mergeDefaultBranchIntoGitOps], [toSchemas].  Where the code calls
      them, they are modelled from the specification or are parameters. *)

From stdpp Require Import base list option strings list_numbers sets.
From Stdlib Require Import String.

Declare Scope horizon_scope.
Delimit Scope horizon_scope with hz.
Open Scope horizon_scope.

Create HintDb horizon.
Create Rewrite HintDb horizon.

(** ** Results: Go's [(value, err)] pair, with exactly one of the two set *)

Inductive result (A E : Type) : Type :=
| Ok (a : A)
| Error (e : E).
Arguments Ok {A E} a.
Arguments Error {A E} e.

Definition is_ok {A E} (r : result A E) : bool :=
  match r with Ok _ => true | Error _ => false end.

(** ** The state, error and trace monad *)

Record sys (W C : Type) := mk_sys { world : W; trace : list C }.
Arguments mk_sys {W C} world trace.
Arguments world {W C} _.
Arguments trace {W C} _.

Definition ST (W C E A : Type) : Type := sys W C -> result A E * sys W C.

Definition st_ret {W C E A} (a : A) : ST W C E A := fun s => (Ok a, s).

Definition st_bind {W C E A B} (m : ST W C E A) (k : A -> ST W C E B) : ST W C E B :=
  fun s =>
    match m s with
    | (Ok a, s') => k a s'
    | (Error e, s') => (Error e, s')
    end.

#[export] Instance ST_ret W C E : MRet (ST W C E) := fun A a => st_ret a.
#[export] Instance ST_bind W C E : MBind (ST W C E) := fun A B k m => st_bind m k.

(** [return nil, err] *)
Definition throw {W C E A} (e : E) : ST W C E A := fun s => (Error e, s).

(** A call to a collaborator that may change the world; the call is appended
    to the trace whatever its outcome. *)
Definition invoke {W C E A} (c : C) (f : W -> result A E * W) : ST W C E A :=
  fun s => let '(r, w') := f (world s) in (r, mk_sys w' (trace s ++ [c])).

(** A call that only reads the world. *)
Definition query {W C E A} (c : C) (f : W -> result A E) : ST W C E A :=
  invoke c (fun w => (f w, w)).

(** [if err != nil { return nil, wrap(err) }]: rewrap the error of a call. *)
Definition wrap_err {W C E A} (g : E -> E) (m : ST W C E A) : ST W C E A :=
  fun s => match m s with
           | (Ok a, s') => (Ok a, s')
           | (Error e, s') => (Error (g e), s')
           end.

(** Run from a world with an empty trace. *)
Definition run {W C E A} (m : ST W C E A) (w : W) : result A E * sys W C :=
  m (mk_sys w []).

(** ** Go strings *)

(** [strings.HasPrefix(s, prefix)] *)
Definition HasPrefix (s prefix : string) : bool := String.prefix prefix s.

(** [s != ""] *)
Definition nonempty (s : string) : bool := negb (String.eqb s "").

(** ** Lemmas on the monad *)

Section Monad.
Context {W C E : Type}.

Lemma bind_unfold {A B} (m : ST W C E A) (k : A -> ST W C E B) s :
  (x ← m; k x) s =
    match m s with (Ok a, s') => k a s' | (Error e, s') => (Error e, s') end.
Proof. reflexivity. Qed.

Lemma bind_Ok {A B} (m : ST W C E A) (k : A -> ST W C E B) s a s' :
  m s = (Ok a, s') -> (x ← m; k x) s = k a s'.
Proof. intros H. rewrite bind_unfold, H. reflexivity. Qed.

Lemma bind_Error {A B} (m : ST W C E A) (k : A -> ST W C E B) s e s' :
  m s = (Error e, s') -> (x ← m; k x) s = (Error e, s').
Proof. intros H. rewrite bind_unfold, H. reflexivity. Qed.

(** Inversion of a bind: either the first computation succeeded and the
    continuation produced the outcome, or it failed and its error is the
    outcome. *)
Lemma bind_inv {A B} (m : ST W C E A) (k : A -> ST W C E B) s r s'' :
  (x ← m; k x) s = (r, s'') ->
  (exists a s', m s = (Ok a, s') /\ k a s' = (r, s'')) \/
  (exists e, m s = (Error e, s'') /\ r = Error e).
Proof.
  rewrite bind_unfold. destruct (m s) as [[a|e] s'] eqn:Hm; intros H.
  - left. eauto.
  - right. injection H as <- <-. eauto.
Qed.

Lemma ret_unfold {A} (a : A) s : (mret a : ST W C E A) s = (Ok a, s).
Proof. reflexivity. Qed.

Lemma invoke_unfold {A} (c : C) (f : W -> result A E * W) s :
  invoke c f s = ((f (world s)).1, mk_sys (f (world s)).2 (trace s ++ [c])).
Proof. unfold invoke. destruct (f (world s)). reflexivity. Qed.

Lemma query_unfold {A} (c : C) (f : W -> result A E) s :
  query c f s = (f (world s), mk_sys (world s) (trace s ++ [c])).
Proof. reflexivity. Qed.

Lemma wrap_err_unfold {A} g (m : ST W C E A) s :
  wrap_err g m s =
    match m s with (Ok a, s') => (Ok a, s') | (Error e, s') => (Error (g e), s') end.
Proof. reflexivity. Qed.

(** A computation only appends to the trace. *)
Definition appends {A} (m : ST W C E A) : Prop :=
  forall s r s', m s = (r, s') -> exists t, trace s' = trace s ++ t.

Lemma appends_ret {A} (a : A) : appends (mret a).
Proof. intros s r s' H. injection H as _ <-. exists []. by rewrite app_nil_r. Qed.

Lemma appends_throw {A} (e : E) : appends (throw (A:=A) e).
Proof. intros s r s' H. injection H as _ <-. exists []. by rewrite app_nil_r. Qed.

Lemma appends_invoke {A} c (f : W -> result A E * W) : appends (invoke c f).
Proof. intros s r s' H. rewrite invoke_unfold in H. injection H as _ <-. eauto. Qed.

Lemma appends_query {A} c (f : W -> result A E) : appends (query c f).
Proof. apply appends_invoke. Qed.

Lemma appends_wrap_err {A} g (m : ST W C E A) : appends m -> appends (wrap_err g m).
Proof.
  intros Hm s r s' H. rewrite wrap_err_unfold in H.
  destruct (m s) as [[a|e] s0] eqn:E0; injection H as _ <-; eauto.
Qed.

Lemma appends_bind {A B} (m : ST W C E A) (k : A -> ST W C E B) :
  appends m -> (forall a, appends (k a)) -> appends (x ← m; k x).
Proof.
  intros Hm Hk s r s' H. apply bind_inv in H as [(a & s1 & H1 & H2)|(e & H1 & _)].
  - destruct (Hm _ _ _ H1) as [t1 Ht1]. destruct (Hk a _ _ _ H2) as [t2 Ht2].
    exists (t1 ++ t2). by rewrite Ht2, Ht1, app_assoc.
  - eauto.
Qed.
End Monad.

(** A list whose last two elements are [x] and [y] ends with them; the
    hypothesis computes on a concrete trace. *)
Lemma ends_with_two {A} (l : list A) x y :
  drop (List.length l - 2) l = [x; y] -> exists t, l = t ++ [x; y].
Proof.
  intros H. exists (take (List.length l - 2) l). rewrite <- H. by rewrite take_drop.
Qed.

#[export] Hint Resolve appends_ret appends_throw appends_invoke appends_query
  appends_wrap_err appends_bind : horizon.
#[export] Hint Rewrite @bind_unfold @ret_unfold @invoke_unfold @query_unfold
  @wrap_err_unfold : horizon.

(** Unfold the monad in a goal or hypothesis, leaving the collaborators'
    results as [match]es. *)
Ltac st_red_in H :=
  cbv beta iota zeta delta [mbind mret ST_bind ST_ret st_bind st_ret wrap_err query invoke
                            throw run world trace] in H.
Ltac st_red :=
  cbv beta iota zeta delta [mbind mret ST_bind ST_ret st_bind st_ret wrap_err query invoke
                            throw run world trace].

(** Case on every collaborator result and test of a reduced run in [H]. *)
Ltac st_split H :=
  repeat (match type of H with
    | context [if ?b then _ else _] => let E := fresh "Eb" in destruct b eqn:E
    | context [match ?f ?a with Some _ => _ | None => _ end] =>
        let E := fresh "Eopt" in destruct (f a) eqn:E
    | context [match ?x with Some _ => _ | None => _ end] => is_var x; destruct x
    | context [match ?f ?a with Ok _ => _ | Error _ => _ end] =>
        let E := fresh "Ecall" in destruct (f a) eqn:E
    | context [match ?x with Ok _ => _ | Error _ => _ end] => is_var x; destruct x
    | context [match ?f ?a with pair _ _ => _ end] =>
        let E := fresh "Epair" in destruct (f a) as [? ?] eqn:E
    end; cbn beta iota zeta in H).

(** The same case analysis on the goal. *)
Ltac st_split_goal :=
  repeat (match goal with
    | |- context [if ?b then _ else _] => let E := fresh "Eb" in destruct b eqn:E
    | |- context [match ?f ?a with Some _ => _ | None => _ end] =>
        let E := fresh "Eopt" in destruct (f a) eqn:E
    | |- context [match ?x with Some _ => _ | None => _ end] => is_var x; destruct x
    | |- context [match ?f ?a with Ok _ => _ | Error _ => _ end] =>
        let E := fresh "Ecall" in destruct (f a) eqn:E
    | |- context [match ?x with Ok _ => _ | Error _ => _ end] => is_var x; destruct x
    | |- context [match ?f ?a with pair _ _ => _ end] =>
        let E := fresh "Epair" in destruct (f a) as [? ?] eqn:E
    end; cbn beta iota zeta delta [fst snd]).

(** Rewrite a reduced goal with the hypotheses that fix the collaborators'
    results, reducing after each step. *)
Ltac st_rewrite :=
  repeat (match goal with
          | H : ?x = _ |- context [?x] => progress rewrite H
          end; cbn).

(** Decompose a hypothesis [(x ← m; k x) s = (r, s')] produced by a model. *)
Ltac st_inv H :=
  let a := fresh "a" in let s1 := fresh "s" in let e := fresh "e" in
  let H1 := fresh "Hm" in let H2 := fresh "Hk" in
  apply bind_inv in H as [(a & s1 & H1 & H2)|(e & H1 & ?)].

(** Discharge a hypothesis of a theorem at a concrete input: by evaluating
    the definitions, or by a permutation or an arithmetic fact. *)
Ltac wit_hyp :=
  solve [ assumption | vm_compute; reflexivity | apply surjective_pairing
        | vm_compute; discriminate | vm_compute; congruence
        | intros; vm_compute; reflexivity | cbn; solve_Permutation | lia ].

(** Step a goal [m s = _] through the recorded calls of a model. *)
Ltac st_step :=
  repeat (autorewrite with horizon; cbn [fst snd world trace]).

(** ** Goroutines that each own one slot

    [go_all g sched slots] runs the goroutines numbered in [sched], in that
    order; goroutine [i] only rewrites slot [i] (with [g i]).  The Go
    scheduler may run them in any order: a schedule is any permutation of
    the goroutine numbers. *)
Definition go_all {A} (g : nat -> A -> A) (sched : list nat) (slots : list A) : list A :=
  foldl (fun acc i => alter (g i) i acc) slots sched.

Lemma go_all_lookup {A} (g : nat -> A -> A) sched (slots : list A) j :
  NoDup sched ->
  go_all g sched slots !! j = if bool_decide (j ∈ sched) then g j <$> slots !! j else slots !! j.
Proof.
  revert slots. induction sched as [|i sched IH]; intros slots Hnd; [done|].
  apply NoDup_cons in Hnd as [Hi Hnd]. cbn [go_all foldl]. unfold go_all in IH.
  rewrite IH by done. rewrite list_lookup_alter.
  destruct (decide (i = j)) as [->|Hne]; repeat case_bool_decide; set_solver.
Qed.

(** The slots do not depend on the order the goroutines ran in. *)
Lemma go_all_perm {A} (g : nat -> A -> A) sched1 sched2 (slots : list A) :
  NoDup sched1 -> sched1 ≡ₚ sched2 -> go_all g sched1 slots = go_all g sched2 slots.
Proof.
  intros Hnd Hp. apply list_eq. intros j.
  rewrite !go_all_lookup by (try rewrite <- Hp; done).
  by rewrite (bool_decide_ext (j ∈ sched1) (j ∈ sched2)) by (by rewrite Hp).
Qed.

(** Once every goroutine [0 .. n-1] has run, slot [j] holds [g j] of its
    initial value. *)
Lemma go_all_complete {A} (g : nat -> A -> A) sched (slots : list A) j :
  sched ≡ₚ seq 0 (List.length slots) -> go_all g sched slots !! j = g j <$> slots !! j.
Proof.
  intros Hp. rewrite go_all_lookup by (rewrite Hp; apply NoDup_seq).
  case_bool_decide as Hin; [done|].
  destruct (slots !! j) eqn:E; [|done]. exfalso. apply Hin. rewrite Hp, elem_of_seq.
  apply lookup_lt_Some in E. lia.
Qed.

