(* ===== verification/Common.v ===== *)
(** * The cluster constants of package common (src/core/common/cluster.go)

    The names of the query parameters of the cluster endpoints, the two
    Kubernetes label keys, the cluster statuses and the label key of the
    Tekton trigger's event id.  Each Go constant is a [string] definition
    of the same name.  [ClusterQueryKeys] and [ClusterStatuses] list the
    constants of the first and third [const] blocks in source order.  The
    file holds the constants only; the controllers that read them use
    their values.  [TektonTriggersEventIDKey]
    concatenates two constants of the Tekton triggers library, which are
    parameters here. *)

From stdpp Require Import base list strings.
From Stdlib Require Import String.
From S2P Require Import Prelude.

Local Open Scope string_scope.

(** ** Query parameters (lines 19-50) *)
Definition ClusterQueryEnvironment : string := "environment".
Definition ClusterQueryName : string := "filter".
Definition ClusterQueryByUser : string := "userID".
Definition ClusterQueryByTemplate : string := "template".
Definition ClusterQueryByRelease : string := "templateRelease".
Definition ClusterQueryByRegion : string := "region".
Definition ClusterQueryTagSelector : string := "tagSelector".
Definition ClusterQueryScope : string := "scope".
Definition ClusterQueryMergePatch : string := "mergePatch".
Definition ClusterQueryInheritConfig : string := "inheritConfig".
Definition ClusterQueryTargetBranch : string := "targetBranch".
Definition ClusterQueryTargetCommit : string := "targetCommit".
Definition ClusterQueryTargetTag : string := "targetTag".
Definition ClusterQueryContainerName : string := "containerName".
Definition ClusterQueryPodName : string := "podName".
Definition ClusterQueryTailLines : string := "tailLines".
Definition ClusterQueryStart : string := "start".
Definition ClusterQueryEnd : string := "end".
Definition ClusterQueryExtraOwner : string := "extraOwner".
Definition ClusterQueryHard : string := "hard".
(** [ClusterQueryIsFavorite] selects the current user's favorite clusters;
    [ClusterQueryWithFavorite] adds the favorite field to the answer. *)
Definition ClusterQueryIsFavorite : string := "isFavorite".
Definition ClusterQueryWithFavorite : string := "withFavorite".
Definition ClusterQueryAction : string := "action".
Definition ClusterQueryByGVK : string := "gvk".
Definition ClusterQueryResourceName : string := "resourceName".

(** The constants of the block, in source order. *)
Definition ClusterQueryKeys : list string :=
  [ClusterQueryEnvironment; ClusterQueryName; ClusterQueryByUser; ClusterQueryByTemplate;
   ClusterQueryByRelease; ClusterQueryByRegion; ClusterQueryTagSelector; ClusterQueryScope;
   ClusterQueryMergePatch; ClusterQueryInheritConfig; ClusterQueryTargetBranch;
   ClusterQueryTargetCommit; ClusterQueryTargetTag; ClusterQueryContainerName;
   ClusterQueryPodName; ClusterQueryTailLines; ClusterQueryStart; ClusterQueryEnd;
   ClusterQueryExtraOwner; ClusterQueryHard; ClusterQueryIsFavorite; ClusterQueryWithFavorite;
   ClusterQueryAction; ClusterQueryByGVK; ClusterQueryResourceName].

(** ** Label keys (lines 52-55) *)
Definition ClusterClusterLabelKey : string := "cloudnative.music.netease.com/cluster".
Definition ClusterRestartTimeKey : string := "cloudnative.music.netease.com/user-restart-time".

(** ** Cluster statuses (lines 57-64) *)
Definition ClusterStatusEmpty : string := "".
Definition ClusterStatusFreeing : string := "Freeing".
Definition ClusterStatusFreed : string := "Freed".
Definition ClusterStatusDeleting : string := "Deleting".
Definition ClusterStatusCreating : string := "Creating".

Definition ClusterStatuses : list string :=
  [ClusterStatusEmpty; ClusterStatusFreeing; ClusterStatusFreed; ClusterStatusDeleting;
   ClusterStatusCreating].

(** ** The Tekton trigger's event id label (lines 66-68) *)
Section Triggers.
(** [triggers.GroupName] and [triggers.EventIDLabelKey] of
    github.com/tektoncd/triggers/pkg/apis/triggers/v1alpha1. *)
Context (GroupName EventIDLabelKey : string).

Definition TektonTriggersEventIDKey : string := GroupName ++ EventIDLabelKey.
End Triggers.
