(* ===== verification/TokenGenerator.v ===== *)
(** * The token code generators (src/pkg/token/generator/generator_types.go)

    The file declares the argument of code generation, [CodeGenerateInfo]
    (a token and the HTTP request it is issued for), and three interfaces,
    each with one method [Generate(info *CodeGenerateInfo) string].  The
    token model and [http.Request] come from packages that are not among
    the sources; they are parameters.  An interface is a type class over
    the implementing type [G].  The pointer argument is an [option], and
    [None] is Go's nil.  The implementations live in other files of the
    package that are not among the sources, so the file has no theorem of
    its own.  The three method sets are identical, so any Go type
    that implements one of the interfaces implements all three. *)

From stdpp Require Import base strings.
From Stdlib Require Import String.
From S2P Require Import Prelude.

Section Generators.
(** [models.Token] and [http.Request] *)
Context (Token Request : Type).

(** [CodeGenerateInfo] (lines 23-26) *)
Record CodeGenerateInfo : Type := mk_CodeGenerateInfo {
  CodeGenerateInfo_Token : Token;
  CodeGenerateInfo_Request : option Request
}.

(** [AuthorizationCodeGenerator] (lines 28-30) *)
Class AuthorizationCodeGenerator (G : Type) : Type :=
  AuthorizationCode_Generate : G -> option CodeGenerateInfo -> string.

(** [AccessTokenCodeGenerator] (lines 32-34) *)
Class AccessTokenCodeGenerator (G : Type) : Type :=
  AccessToken_Generate : G -> option CodeGenerateInfo -> string.

(** [RefreshTokenCodeGenerator] (lines 36-38) *)
Class RefreshTokenCodeGenerator (G : Type) : Type :=
  RefreshToken_Generate : G -> option CodeGenerateInfo -> string.

End Generators.
