(* ===== verification/WaitGroup.v ===== *)
(** * sync.WaitGroup and the goroutines it joins

    schema.go starts each of its two rounds the same way: [wg.Add(4)],
    four [go f(...)] statements whose bodies end in a deferred
    [wg.Done()], then [wg.Wait()] in the calling goroutine.  This file
    gives that pattern an operational semantics.  [WaitGroup] is the
    library's counter: [Add] panics when the counter goes negative, and
    [Wait] returns once it is zero.  A [fanout] state is the counter, the
    goroutines not yet run and the slots they write, or [Panicked].  A
    step [fstep] runs any pending goroutine: it writes its slot and then
    calls [Done].  The scheduler picks the goroutine, so the relation is
    non-deterministic.

    The lemmas prove the following for a round whose [Add] matches the
    number of goroutines:
    - [Wait] returns exactly when every goroutine has finished: never
      early, and with no deadlock and no panic;
    - the slots are then [go_all] of the order the goroutines ran in,
      which is some permutation of them.
    This is what the schedule argument of the model of schema.go ranges
    over. *)

From stdpp Require Import base list relations.
From Stdlib Require Import ZArith.
From S2P Require Import Prelude.

Local Open Scope Z_scope.

(** ** The counter (Go's sync.WaitGroup) *)
Module WaitGroup.
Record t : Type := mk { counter : Z }.

Definition zero : t := mk 0.

(** [wg.Add(delta)]: [None] is the panic "sync: negative WaitGroup
    counter". *)
Definition Add (wg : t) (delta : Z) : option t :=
  let c := counter wg + delta in
  if c <? 0 then None else Some (mk c).

(** [wg.Done()] is [wg.Add(-1)]. *)
Definition Done (wg : t) : option t := Add wg (-1).

(** [wg.Wait()] returns when the counter is zero. *)
Definition Wait_returns (wg : t) : bool := counter wg =? 0.
End WaitGroup.

(** ** A round of goroutines joined by a WaitGroup *)
Section FanOut.
Context {A : Type}.

Inductive fanout : Type :=
| Running (wg : WaitGroup.t) (pending : list nat) (slots : list A)
| Panicked.

(** [wg.Add(n)] followed by [go f(i)] for each [i] of [goroutines]. *)
Definition start (n : Z) (goroutines : list nat) (slots : list A) : fanout :=
  match WaitGroup.Add WaitGroup.zero n with
  | Some wg => Running wg goroutines slots
  | None => Panicked
  end.

(** [wg.Wait()]: the slots when the calling goroutine is released. *)
Definition Wait (st : fanout) : option (list A) :=
  match st with
  | Running wg _ slots => if WaitGroup.Wait_returns wg then Some slots else None
  | Panicked => None
  end.

Context (g : nat -> A -> A).

(** The body of goroutine [i]: it writes slot [i], then its deferred
    [wg.Done()] runs. *)
Definition run_goroutine (wg : WaitGroup.t) (i : nat) (rest : list nat) (slots : list A) : fanout :=
  let slots := alter (g i) i slots in
  match WaitGroup.Done wg with
  | Some wg => Running wg rest slots
  | None => Panicked
  end.

(** The scheduler runs any pending goroutine. *)
Inductive fstep : fanout -> fanout -> Prop :=
| fstep_go wg pre i post slots :
    fstep (Running wg (pre ++ i :: post) slots) (run_goroutine wg i (pre ++ post) slots).
End FanOut.
Arguments fanout : clear implicits.

(** ** Every step runs one pending goroutine *)
Section FanOutProofs.
Context {A : Type} (g : nat -> A -> A).
Implicit Types (st : fanout A).

Definition fanout_size st : nat :=
  match st with Running _ pending _ => List.length pending | Panicked => 0%nat end.

Lemma fstep_size st st' : fstep g st st' -> (fanout_size st' < fanout_size st)%nat.
Proof.
  destruct 1. unfold run_goroutine. destruct (WaitGroup.Done wg); cbn;
    rewrite ?length_app; cbn; lia.
Qed.

(** ** The invariant: the counter counts the pending goroutines *)

(** From the initial slots [slots0] and the goroutines [all]: the counter
    equals the number of pending goroutines, and the slots are those of
    the goroutines already run, in the order they ran. *)
Definition fanout_inv (slots0 : list A) (all : list nat) st : Prop :=
  match st with
  | Running wg pending slots =>
      WaitGroup.counter wg = Z.of_nat (List.length pending) /\
      exists done, done ++ pending ≡ₚ all /\ slots = go_all g done slots0
  | Panicked => False
  end.

Lemma fanout_inv_start slots0 all :
  fanout_inv slots0 all (start (Z.of_nat (List.length all)) all slots0).
Proof.
  unfold start, WaitGroup.Add. cbn.
  rewrite (proj2 (Z.ltb_ge _ _)) by lia. cbn. split; [lia|]. by exists [].
Qed.

Lemma fanout_inv_step slots0 all st st' :
  fanout_inv slots0 all st -> fstep g st st' -> fanout_inv slots0 all st'.
Proof.
  intros Hinv Hst. destruct Hst as [wg pre i post slots].
  destruct Hinv as [Hc (done & Hp & ->)]. rewrite length_app in Hc; cbn in Hc.
  unfold run_goroutine, WaitGroup.Done, WaitGroup.Add.
  rewrite (proj2 (Z.ltb_ge _ _)) by lia. cbn. split.
  - rewrite length_app. lia.
  - exists (done ++ [i]). split.
    + rewrite <- Hp. solve_Permutation.
    + unfold go_all. by rewrite foldl_app.
Qed.

Lemma fanout_inv_rtc slots0 all st st' :
  fanout_inv slots0 all st -> rtc (fstep g) st st' -> fanout_inv slots0 all st'.
Proof. intros Hinv Hrtc. induction Hrtc; eauto using fanout_inv_step. Qed.

(** From an invariant state, running the pending goroutines one after the
    other releases [Wait]. *)
Lemma fanout_inv_progress slots0 all st :
  fanout_inv slots0 all st -> exists slots, rtc (fstep g) st (Running (WaitGroup.mk 0) [] slots).
Proof.
  induction st as [st IH] using (induction_ltof1 _ fanout_size).
  destruct st as [[c] pending slots|]; [|done]. intros Hinv.
  destruct pending as [|i rest].
  - destruct Hinv as [Hc _]. cbn in Hc. subst c. eexists. apply rtc_refl.
  - assert (Hst : fstep g (Running (WaitGroup.mk c) ([] ++ i :: rest) slots)
                    (run_goroutine g (WaitGroup.mk c) i ([] ++ rest) slots)) by constructor.
    destruct (IH _ (fstep_size _ _ Hst) (fanout_inv_step _ _ _ _ Hinv Hst)) as [sl Hsl].
    exists sl. eapply rtc_l; [exact Hst|exact Hsl].
Qed.

(** In an invariant state, [Wait] returns only once no goroutine is
    pending, and the slots are then those of a run of all of them. *)
Lemma fanout_inv_Wait slots0 all st slots :
  fanout_inv slots0 all st -> Wait st = Some slots ->
  (forall st', ~ fstep g st st') /\
  exists sched, sched ≡ₚ all /\ slots = go_all g sched slots0.
Proof.
  destruct st as [[c] pending sl|]; [|done]. intros [Hc (done & Hp & ->)] HW.
  unfold Wait, WaitGroup.Wait_returns in HW. cbn in Hc, HW.
  destruct (Z.eqb_spec c 0) as [->|]; [|done]. injection HW as <-.
  destruct pending as [|i rest]; [|cbn in Hc; lia]. split.
  - intros st' Hst. inversion Hst as [wg' pre i' post sl' Heq]. destruct pre; discriminate.
  - exists done. by rewrite app_nil_r in Hp.
Qed.

(** The round as a whole: from [wg.Add(n)] with [n] the number of
    goroutines, every reachable state can still release [Wait]; when
    [Wait] returns, nothing is left to run, and the slots are [go_all] of
    a permutation of the goroutines. *)
Lemma fanout_Wait_released slots0 all st :
  rtc (fstep g) (start (Z.of_nat (List.length all)) all slots0) st ->
  (exists slots, rtc (fstep g) st (Running (WaitGroup.mk 0) [] slots)) /\
  (forall slots, Wait st = Some slots ->
     (forall st', ~ fstep g st st') /\
     exists sched, sched ≡ₚ all /\ slots = go_all g sched slots0).
Proof.
  intros Hrtc. pose proof (fanout_inv_rtc _ _ _ _ (fanout_inv_start slots0 all) Hrtc) as Hinv.
  split; [by eapply fanout_inv_progress|]. intros slots. by apply fanout_inv_Wait.
Qed.
End FanOutProofs.
