(* ===== verification/Model.v ===== *)
(** * Data model shared by the components

    The Go structs the controllers read and write: pipeline runs, clusters,
    applications, environment regions, template releases, the GitOps
    template descriptor, logs and diffs, and the errors the controllers
    return.  Each struct is a record in a Module of its Go name, so that a
    field reads as in Go ([pr.(Pipelinerun.ClusterID)] for [pr.ClusterID]).
    The model packages are not among the sources under src/: their fields
    are the ones the controllers use, and the enumerations follow the
    specification. *)

From stdpp Require Import base list strings.
From Stdlib Require Import String.
From S2P Require Import Prelude.

(** [prmodels.PipelineStatus] *)
Inductive PipelineStatus : Type :=
| StatusCreated
| StatusPending
| StatusRunning
| StatusOK
| StatusFailed
| StatusCancelled.

#[export] Instance PipelineStatus_eq_dec : EqDecision PipelineStatus.
Proof. solve_decision. Defined.

(** ** Errors

    The values a controller returns in its [error] slot.  [ErrOp op e] is
    [errors.E(op, e)], the wrapper that adds the operation name;
    [ErrHTTP] is [errors.E(op, status, code, msg)]; [ErrParamInvalid msg] is
    [perror.Wrapf(herror.ErrParamInvalid, msg)]; [ErrMsg] is a
    [fmt.Errorf] value; [ErrNotFound] and [ErrBackend] are the failures of
    the collaborators (a missing record, a transport error);
    [ErrInvalidTransition] is the store's refusal of a status regression;
    [ErrPanic] is a Go runtime panic. *)
Inductive error : Type :=
| ErrNotFound (entity : string)
| ErrBackend (msg : string)
| ErrMsg (msg : string)
| ErrParamInvalid (msg : string)
| ErrHTTP (status : nat) (code : string) (msg : string)
| ErrOp (op : string) (cause : error)
| ErrInvalidTransition (from to : PipelineStatus)
| ErrPanic (msg : string).

#[export] Instance error_eq_dec : EqDecision error.
Proof. solve_decision. Defined.

(** The panic of a method called through a [nil] interface value. *)
Definition ErrNilDeref : error := ErrPanic "invalid memory address or nil pointer dereference".

(** The innermost cause of a chain of [errors.E] wrappers ([perror.Cause]). *)
Fixpoint Cause (e : error) : error :=
  match e with
  | ErrOp _ e' => Cause e'
  | _ => e
  end.

(** ** Pipeline runs *)

(** [prmodels.Action*]: the action of a run is a Go string. *)
Definition ActionBuildDeploy : string := "builddeploy".
Definition ActionDeploy : string := "deploy".
Definition ActionRestart : string := "restart".
Definition ActionRollback : string := "rollback".

Module Pipelinerun.
Record t : Type := mk {
  ID : nat;
  ClusterID : nat;
  Action : string;
  Status : PipelineStatus;
  GitURL : string;
  GitBranch : string;
  GitCommit : string;
  LastConfigCommit : string;
  ConfigCommit : string;
  (** the archived object of the run; [""] while the Tekton run exists *)
  PrObject : string;
  CIEventID : string;
  CreatedAt : nat
}.

(** Field updates: [pr.Status = st] and the like. *)
Definition with_identity (pr : t) (id createdAt : nat) : t :=
  mk id (ClusterID pr) (Action pr) (Status pr) (GitURL pr) (GitBranch pr) (GitCommit pr)
     (LastConfigCommit pr) (ConfigCommit pr) (PrObject pr) (CIEventID pr) createdAt.
Definition with_Status (pr : t) (st : PipelineStatus) : t :=
  mk (ID pr) (ClusterID pr) (Action pr) st (GitURL pr) (GitBranch pr) (GitCommit pr)
     (LastConfigCommit pr) (ConfigCommit pr) (PrObject pr) (CIEventID pr) (CreatedAt pr).
Definition with_ConfigCommit (pr : t) (commit : string) : t :=
  mk (ID pr) (ClusterID pr) (Action pr) (Status pr) (GitURL pr) (GitBranch pr) (GitCommit pr)
     (LastConfigCommit pr) commit (PrObject pr) (CIEventID pr) (CreatedAt pr).
Definition with_CIEventID (pr : t) (ev : string) : t :=
  mk (ID pr) (ClusterID pr) (Action pr) (Status pr) (GitURL pr) (GitBranch pr) (GitCommit pr)
     (LastConfigCommit pr) (ConfigCommit pr) (PrObject pr) ev (CreatedAt pr).
End Pipelinerun.

(** ** Clusters, applications, environments, templates *)

Module Cluster.
Record t : Type := mk {
  ID : nat;
  Name : string;
  ApplicationID : nat;
  EnvironmentRegionID : nat;
  Template : string;
  TemplateRelease : string
}.

(** [cluster.Template = tpl; cluster.TemplateRelease = rel] *)
Definition set_template (c : t) (tpl rel : string) : t :=
  mk (ID c) (Name c) (ApplicationID c) (EnvironmentRegionID c) tpl rel.
End Cluster.

Module Application.
Record t : Type := mk { ID : nat; Name : string }.
End Application.

Module EnvironmentRegion.
Record t : Type := mk { ID : nat; EnvironmentName : string; RegionName : string }.
End EnvironmentRegion.

Module TemplateRelease.
Record t : Type := mk {
  TemplateName : string;
  Name : string;
  GitlabName : string;
  GitlabProject : string
}.
End TemplateRelease.

(** [gitrepo.ClusterTemplate]: the template a cluster's GitOps repository
    declares. *)
Module ClusterTemplate.
Record t : Type := mk { Name : string; Release : string }.
End ClusterTemplate.

#[export] Instance ClusterTemplate_eq_dec : EqDecision ClusterTemplate.t.
Proof. solve_decision. Defined.

(** [code.Commit] as returned by the code host. *)
Module Commit.
Record t : Type := mk { ID : string; Message : string }.
End Commit.

(** ** Values returned by the pipeline-run controller *)

(** A Go channel, by its identity. *)
Definition Chan : Type := nat.

(** [pipelinerun.Log]: live channels or archived bytes; a Go [nil] channel is
    [None], a [nil] slice is [[]]. *)
Module Log.
Record t : Type := mk {
  LogChannel : option Chan;
  ErrChannel : option Chan;
  LogBytes : list Init.Byte.byte
}.
End Log.

Module CodeInfo.
Record t : Type := mk {
  Branch : string;
  CommitID : string;
  CommitMsg : string;
  Link : string
}.
End CodeInfo.

Module ConfigDiff.
Record t : Type := mk { From : string; To : string; Diff : string }.
End ConfigDiff.

(** [GetDiffResponse]: a [nil] pointer half is [None]. *)
Module GetDiffResponse.
Record t : Type := mk {
  CodeInfo : option CodeInfo.t;
  ConfigDiff : option ConfigDiff.t
}.
End GetDiffResponse.

(** [if err != nil { return nil, errors.E(op, err) }] *)
Definition withOp {W C A} (op : string) (m : ST W C error A) : ST W C error A :=
  wrap_err (ErrOp op) m.
