(* ===== verification/Collaborators.v ===== *)
(** * Interfaces of the collaborators

    The Go interfaces the controllers call and whose implementation is not
    among the sources: the cluster, application, environment and
    template-release managers, the Tekton factory and its clients, the code
    host's commit getter, the GitOps repository of a cluster and the GitLab
    factory.  Each is a record of operations over an abstract world [W] (a
    Module per interface, the fields named as the Go methods); reads return
    [result A error], writes also return the new world.  A Go pointer result
    that may be [nil] with a [nil] error is an [option].

    [Call] is the vocabulary of the traces: one constructor per collaborator
    method, with the arguments the code passes. *)

From stdpp Require Import base list strings gmap.
From Stdlib Require Import String.
From S2P Require Import Prelude Model.

Module ClusterManager.
Record t (W : Type) : Type := mk {
  GetByID : W -> nat -> result Cluster.t error;
  UpdateByID : W -> nat -> Cluster.t -> result Cluster.t error * W
}.
Arguments GetByID {W} _. Arguments UpdateByID {W} _.
End ClusterManager.

Module ApplicationManager.
Record t (W : Type) : Type := mk {
  GetByID : W -> nat -> result Application.t error
}.
Arguments GetByID {W} _.
End ApplicationManager.

Module EnvironmentManager.
Record t (W : Type) : Type := mk {
  GetEnvironmentRegionByID : W -> nat -> result EnvironmentRegion.t error
}.
Arguments GetEnvironmentRegionByID {W} _.
End EnvironmentManager.

Module TemplateReleaseManager.
Record t (W : Type) : Type := mk {
  (** [nil, nil] when the release does not exist *)
  GetByTemplateNameAndRelease : W -> string -> string -> result (option TemplateRelease.t) error
}.
Arguments GetByTemplateNameAndRelease {W} _.
End TemplateReleaseManager.

(** [tekton.Interface]: a client bound to one environment. *)
Module Tekton.
Record t (W : Type) : Type := mk {
  (** opens a live log session: the log channel and the error channel *)
  GetPipelineRunLogByID : W -> string -> nat -> nat -> result (Chan * Chan) error * W
}.
Arguments GetPipelineRunLogByID {W} _.
End Tekton.

(** [collector.Interface]: the archive of the logs of finished runs. *)
Module TektonCollector.
Record t (W : Type) : Type := mk {
  GetLatestPipelineRunLog : W -> string -> string -> result (list Init.Byte.byte) error
}.
Arguments GetLatestPipelineRunLog {W} _.
End TektonCollector.

(** [factory.Factory]: the Tekton client and collector of an environment. *)
Module TektonFactory.
Record t (W : Type) : Type := mk {
  GetTekton : W -> string -> result (Tekton.t W) error;
  GetTektonCollector : W -> string -> result (TektonCollector.t W) error
}.
Arguments GetTekton {W} _. Arguments GetTektonCollector {W} _.
End TektonFactory.

Module CommitGetter.
Record t (W : Type) : Type := mk {
  GetCommit : W -> string -> string -> result Commit.t error
}.
Arguments GetCommit {W} _.
End CommitGetter.

(** The descriptor that guides the rewriting of values files. *)
Definition BuildConfig : Type := string.

(** [gitrepo.UpgradeValuesParam]; [TargetRelease] is a Go pointer. *)
Module UpgradeValuesParam.
Record t : Type := mk {
  Application : string;
  Cluster : string;
  Template : ClusterTemplate.t;
  TargetRelease : option TemplateRelease.t;
  BuildConfig : BuildConfig
}.
End UpgradeValuesParam.

(** [gitrepo.ClusterGitRepo], the methods the controllers use. *)
Module ClusterGitRepo.
Record t (W : Type) : Type := mk {
  GetClusterTemplate : W -> string -> string -> result ClusterTemplate.t error;
  (** [CompareConfig(app, cluster, from, to)]: the unified diff text *)
  CompareConfig : W -> string -> string -> string -> string -> result string error;
  (** [MergeBranch(app, cluster, source, target)]: the merge commit *)
  MergeBranch : W -> string -> string -> string -> string -> result string error * W;
  (** rewrites the values files and commits them: the new commit id *)
  UpgradeValuesFiles : W -> UpgradeValuesParam.t -> result string error * W
}.
Arguments GetClusterTemplate {W} _. Arguments CompareConfig {W} _.
Arguments MergeBranch {W} _. Arguments UpgradeValuesFiles {W} _.
End ClusterGitRepo.

(** [gitlab.Interface] of one GitLab instance. *)
Module GitlabLib.
Record t (W : Type) : Type := mk {
  (** [GetFile(project, ref, path)] *)
  GetFile : W -> string -> string -> string -> result (list Init.Byte.byte) error
}.
Arguments GetFile {W} _.
End GitlabLib.

Module GitlabFactory.
Record t (W : Type) : Type := mk {
  GetByName : W -> string -> result (GitlabLib.t W) error
}.
Arguments GetByName {W} _.
End GitlabFactory.

(** ** The calls recorded in a trace *)
Inductive Call : Type :=
| CPrGetByID (prID : nat)
| CPrGetLatestByClusterIDAndActions (clusterID : nat) (actions : list string)
| CClusterGetByID (clusterID : nat)
| CClusterUpdateByID (clusterID : nat) (cluster : Cluster.t)
| CApplicationGetByID (applicationID : nat)
| CGetEnvironmentRegionByID (erID : nat)
| CGetTekton (environment : string)
| CGetTektonCollector (environment : string)
| CGetPipelineRunLogByID (cluster : string) (clusterID prID : nat)
| CGetLatestPipelineRunLog (application cluster : string)
| CGetCommit (gitURL commit : string)
| CCompareConfig (application cluster from to : string)
| CGetClusterTemplate (application cluster : string)
| CGetByTemplateNameAndRelease (template release : string)
| CMergeBranch (application cluster source target : string)
| CUpgradeValuesFiles (param : UpgradeValuesParam.t)
| CGitlabGetByName (name : string)
| CGetFile (project ref path : string).
