(* ===== verification/PipelinerunManager.v ===== *)
(** * The pipeline-run manager (src/pkg/pipelinerun/manager/manager.go)

    [Manager] is the Go interface of the persistence gateway of pipeline
    runs, a record of its fourteen methods over a world [W]; [DAO] is the
    interface of the data-access object it wraps, and [New] is the Go
    constructor: every method of the manager calls the DAO method of the
    same name with the same arguments.

    The DAO's SQL is not among the sources: [MemDAO] is an in-memory DAO
    that implements the persistence contract of the specification.  Since
    manager.go only delegates, properties of the stored runs would be
    properties of that specification model and not of the code, so this
    file states none as a claim.  It provides what the composition in
    PipelinerunController.v needs:
    - the writes of the manager interface, as the steps of a relation
      [mstep];
    - the invariant that every run stays at the key of its identity
      ([keyed], [reachable_keyed]);
    - the meaning of the "latest" lookups ([latest_of_cluster_actions]). *)

From stdpp Require Import base list strings gmap.
From Stdlib Require Import String.
From S2P Require Import Prelude Model.

(** [q.Query]: the page of a listing. *)
Module Query.
Record t : Type := mk { PageNumber : nat; PageSize : nat }.
End Query.

(** [models.Result]: the restore result of a run. *)
Module PrResult.
Record t : Type := mk { Result : string; Message : string }.
End PrResult.

Module DAO.
Record t (W : Type) : Type := mk {
  Create : W -> Pipelinerun.t -> result Pipelinerun.t error * W;
  GetByID : W -> nat -> result Pipelinerun.t error;
  GetByCIEventID : W -> string -> result Pipelinerun.t error;
  GetByClusterID : W -> nat -> bool -> Query.t -> result (nat * list Pipelinerun.t) error;
  GetFirstCanRollbackPipelinerun : W -> nat -> result (option Pipelinerun.t) error;
  DeleteByID : W -> nat -> result unit error * W;
  DeleteByClusterID : W -> nat -> result unit error * W;
  UpdateConfigCommitByID : W -> nat -> string -> result unit error * W;
  GetLatestByClusterIDAndActions : W -> nat -> list string -> result (option Pipelinerun.t) error;
  GetLatestByClusterIDAndActionAndStatus :
    W -> nat -> string -> PipelineStatus -> result (option Pipelinerun.t) error;
  GetLatestSuccessByClusterID : W -> nat -> result (option Pipelinerun.t) error;
  UpdateStatusByID : W -> nat -> PipelineStatus -> result unit error * W;
  UpdateCIEventIDByID : W -> nat -> string -> result unit error * W;
  UpdateResultByID : W -> nat -> PrResult.t -> result unit error * W
}.
End DAO.

Module Manager.
Record t (W : Type) : Type := mk {
  Create : W -> Pipelinerun.t -> result Pipelinerun.t error * W;
  GetByID : W -> nat -> result Pipelinerun.t error;
  GetByCIEventID : W -> string -> result Pipelinerun.t error;
  GetByClusterID : W -> nat -> bool -> Query.t -> result (nat * list Pipelinerun.t) error;
  GetFirstCanRollbackPipelinerun : W -> nat -> result (option Pipelinerun.t) error;
  DeleteByID : W -> nat -> result unit error * W;
  DeleteByClusterID : W -> nat -> result unit error * W;
  UpdateConfigCommitByID : W -> nat -> string -> result unit error * W;
  GetLatestByClusterIDAndActions : W -> nat -> list string -> result (option Pipelinerun.t) error;
  GetLatestByClusterIDAndActionAndStatus :
    W -> nat -> string -> PipelineStatus -> result (option Pipelinerun.t) error;
  GetLatestSuccessByClusterID : W -> nat -> result (option Pipelinerun.t) error;
  UpdateStatusByID : W -> nat -> PipelineStatus -> result unit error * W;
  UpdateCIEventIDByID : W -> nat -> string -> result unit error * W;
  UpdateResultByID : W -> nat -> PrResult.t -> result unit error * W
}.
Arguments Create {W} _. Arguments GetByID {W} _. Arguments GetByCIEventID {W} _.
Arguments GetByClusterID {W} _. Arguments GetFirstCanRollbackPipelinerun {W} _.
Arguments DeleteByID {W} _. Arguments DeleteByClusterID {W} _.
Arguments UpdateConfigCommitByID {W} _. Arguments GetLatestByClusterIDAndActions {W} _.
Arguments GetLatestByClusterIDAndActionAndStatus {W} _.
Arguments GetLatestSuccessByClusterID {W} _. Arguments UpdateStatusByID {W} _.
Arguments UpdateCIEventIDByID {W} _. Arguments UpdateResultByID {W} _.
End Manager.

(** [New(db)]: the manager over [dao.NewDAO(db)]; each method is
    [return m.dao.<Method>(ctx, args...)]. *)
Definition New {W} (dao : DAO.t W) : Manager.t W :=
  {| Manager.Create := DAO.Create W dao;
     Manager.GetByID := DAO.GetByID W dao;
     Manager.GetByCIEventID := DAO.GetByCIEventID W dao;
     Manager.DeleteByID := DAO.DeleteByID W dao;
     Manager.DeleteByClusterID := DAO.DeleteByClusterID W dao;
     Manager.UpdateConfigCommitByID := DAO.UpdateConfigCommitByID W dao;
     Manager.GetLatestByClusterIDAndActions := DAO.GetLatestByClusterIDAndActions W dao;
     Manager.GetLatestSuccessByClusterID := DAO.GetLatestSuccessByClusterID W dao;
     Manager.UpdateStatusByID := DAO.UpdateStatusByID W dao;
     Manager.UpdateCIEventIDByID := DAO.UpdateCIEventIDByID W dao;
     Manager.UpdateResultByID := DAO.UpdateResultByID W dao;
     Manager.GetByClusterID := DAO.GetByClusterID W dao;
     Manager.GetFirstCanRollbackPipelinerun := DAO.GetFirstCanRollbackPipelinerun W dao;
     Manager.GetLatestByClusterIDAndActionAndStatus :=
       DAO.GetLatestByClusterIDAndActionAndStatus W dao |}.

(** ** An in-memory DAO

    The DAO's SQL is not among the sources; this store implements the
    contract the specification gives the persistence gateway: identities
    are assigned in creation order, "latest" means the greatest identity,
    a missing run is [ErrNotFound], and a status update that would move a
    run backwards along Created < Pending < Running < terminal is refused
    with [ErrInvalidTransition] and changes nothing.  It works on any world
    through a lens ([get], [put]) so that it can share a world with other
    collaborators. *)

Record PrStore : Type := mk_store {
  runs : gmap nat Pipelinerun.t;
  results : gmap nat PrResult.t;
  nextID : nat
}.

(** The position of a status along the lifecycle; the three terminal
    statuses share the last position. *)
Definition status_rank (st : PipelineStatus) : nat :=
  match st with
  | StatusCreated => 0
  | StatusPending => 1
  | StatusRunning => 2
  | StatusOK | StatusFailed | StatusCancelled => 3
  end.

(** A transition is allowed when it keeps the status (a retried update) or
    moves strictly forward. *)
Definition valid_transition (from to : PipelineStatus) : bool :=
  bool_decide (from = to) || (status_rank from <? status_rank to).

(** The run of greatest identity among those satisfying [P]. *)
Definition newer (P : Pipelinerun.t -> bool) (pr : Pipelinerun.t) (acc : option Pipelinerun.t)
    : option Pipelinerun.t :=
  if P pr then
    match acc with
    | Some b => if Pipelinerun.ID b <? Pipelinerun.ID pr then Some pr else Some b
    | None => Some pr
    end
  else acc.

Definition latest (P : Pipelinerun.t -> bool) (m : gmap nat Pipelinerun.t) : option Pipelinerun.t :=
  foldr (newer P) None (map snd (map_to_list m)).

Definition of_cluster (clusterID : nat) (pr : Pipelinerun.t) : bool :=
  Nat.eqb (Pipelinerun.ClusterID pr) clusterID.

Definition is_success (pr : Pipelinerun.t) : bool :=
  bool_decide (Pipelinerun.Status pr = StatusOK).

(** The runs of a cluster, newest first, one page of them. *)
Definition page {A} (q : Query.t) (l : list A) : list A :=
  take (Query.PageSize q) (drop ((Query.PageNumber q - 1) * Query.PageSize q) l).

Definition newest_first (l : list Pipelinerun.t) : list Pipelinerun.t :=
  foldr (fun pr acc => filter (fun b => Pipelinerun.ID pr <? Pipelinerun.ID b) acc ++ [pr]
                       ++ filter (fun b => negb (Pipelinerun.ID pr <? Pipelinerun.ID b)) acc) [] l.

Section MemDAO.
Context {W : Type} (get : W -> PrStore) (put : PrStore -> W -> W).

Definition store_with_runs (st : PrStore) (m : gmap nat Pipelinerun.t) : PrStore :=
  mk_store m (results st) (nextID st).

Definition mem_GetByID (w : W) (id : nat) : result Pipelinerun.t error :=
  match runs (get w) !! id with
  | Some pr => Ok pr
  | None => Error (ErrNotFound "pipelinerun")
  end.

(** [db.Create]: the run gets the next identity and starts [Created]. *)
Definition mem_Create (w : W) (pr : Pipelinerun.t) : result Pipelinerun.t error * W :=
  let st := get w in
  let pr' := Pipelinerun.with_Status (Pipelinerun.with_identity pr (nextID st) (nextID st))
               StatusCreated in
  (Ok pr', put (mk_store (<[nextID st := pr']> (runs st)) (results st) (S (nextID st))) w).

(** Apply [f] to the run [id], or fail with [ErrNotFound]. *)
Definition mem_update (w : W) (id : nat) (f : Pipelinerun.t -> Pipelinerun.t)
    : result unit error * W :=
  let st := get w in
  match runs st !! id with
  | Some pr => (Ok tt, put (store_with_runs st (<[id := f pr]> (runs st))) w)
  | None => (Error (ErrNotFound "pipelinerun"), w)
  end.

Definition mem_UpdateStatusByID (w : W) (id : nat) (to : PipelineStatus) : result unit error * W :=
  match runs (get w) !! id with
  | Some pr =>
      if valid_transition (Pipelinerun.Status pr) to
      then mem_update w id (fun pr => Pipelinerun.with_Status pr to)
      else (Error (ErrInvalidTransition (Pipelinerun.Status pr) to), w)
  | None => (Error (ErrNotFound "pipelinerun"), w)
  end.

Definition mem_Delete (w : W) (P : Pipelinerun.t -> bool) : result unit error * W :=
  let st := get w in
  (Ok tt, put (store_with_runs st (filter (fun kv => negb (P kv.2)) (runs st))) w).

Definition mem_runs (w : W) : list Pipelinerun.t := map snd (map_to_list (runs (get w))).

Definition MemDAO : DAO.t W :=
  {| DAO.Create := mem_Create;
     DAO.GetByID := mem_GetByID;
     DAO.GetByCIEventID := fun w ev =>
       match latest (fun pr => String.eqb (Pipelinerun.CIEventID pr) ev) (runs (get w)) with
       | Some pr => Ok pr | None => Error (ErrNotFound "pipelinerun") end;
     DAO.GetByClusterID := fun w cid canRollback q =>
       let l := newest_first (filter (fun pr => of_cluster cid pr
                                        && (negb canRollback || is_success pr)) (mem_runs w)) in
       Ok (List.length l, page q l);
     DAO.GetFirstCanRollbackPipelinerun := fun w cid =>
       Ok (latest (fun pr => of_cluster cid pr && is_success pr) (runs (get w)));
     DAO.DeleteByID := fun w id => mem_Delete w (fun pr => Nat.eqb (Pipelinerun.ID pr) id);
     DAO.DeleteByClusterID := fun w cid => mem_Delete w (of_cluster cid);
     DAO.UpdateConfigCommitByID := fun w id commit =>
       mem_update w id (fun pr => Pipelinerun.with_ConfigCommit pr commit);
     DAO.GetLatestByClusterIDAndActions := fun w cid actions =>
       Ok (latest (fun pr => of_cluster cid pr
                             && bool_decide (Pipelinerun.Action pr ∈ actions)) (runs (get w)));
     DAO.GetLatestByClusterIDAndActionAndStatus := fun w cid action st =>
       Ok (latest (fun pr => of_cluster cid pr && String.eqb (Pipelinerun.Action pr) action
                             && bool_decide (Pipelinerun.Status pr = st)) (runs (get w)));
     DAO.GetLatestSuccessByClusterID := fun w cid =>
       Ok (latest (fun pr => of_cluster cid pr && is_success pr) (runs (get w)));
     DAO.UpdateStatusByID := mem_UpdateStatusByID;
     DAO.UpdateCIEventIDByID := fun w id ev =>
       mem_update w id (fun pr => Pipelinerun.with_CIEventID pr ev);
     DAO.UpdateResultByID := fun w id res =>
       let st := get w in
       match runs st !! id with
       | Some _ => (Ok tt, put (mk_store (runs st) (<[id := res]> (results st)) (nextID st)) w)
       | None => (Error (ErrNotFound "pipelinerun"), w)
       end |}.
End MemDAO.

(** ** The writes of the state tracker

    The operations of the manager interface that change runs, and one step
    of the store: a write through the manager [New dao].  Reachability is
    the reflexive-transitive closure of the steps. *)
Inductive MOp : Type :=
| OpCreate (pr : Pipelinerun.t)
| OpUpdateStatus (id : nat) (st : PipelineStatus)
| OpUpdateConfigCommit (id : nat) (commit : string)
| OpUpdateCIEventID (id : nat) (ev : string)
| OpUpdateResult (id : nat) (res : PrResult.t)
| OpDeleteByID (id : nat)
| OpDeleteByClusterID (clusterID : nat).

Definition apply_op {W} (m : Manager.t W) (o : MOp) (w : W) : W :=
  match o with
  | OpCreate pr => snd (Manager.Create m w pr)
  | OpUpdateStatus id st => snd (Manager.UpdateStatusByID m w id st)
  | OpUpdateConfigCommit id c => snd (Manager.UpdateConfigCommitByID m w id c)
  | OpUpdateCIEventID id ev => snd (Manager.UpdateCIEventIDByID m w id ev)
  | OpUpdateResult id r => snd (Manager.UpdateResultByID m w id r)
  | OpDeleteByID id => snd (Manager.DeleteByID m w id)
  | OpDeleteByClusterID cid => snd (Manager.DeleteByClusterID m w cid)
  end.

Inductive mstep {W} (m : Manager.t W) : W -> W -> Prop :=
| mstep_op o w : mstep m w (apply_op m o w).

(** [latest] is the run of greatest identity among those satisfying [P]. *)
Lemma foldr_newer_spec (P : Pipelinerun.t -> bool) l :
  match foldr (newer P) None l with
  | Some pr => pr ∈ l /\ P pr = true /\
      forall pr', pr' ∈ l -> P pr' = true -> Pipelinerun.ID pr' <= Pipelinerun.ID pr
  | None => forall pr', pr' ∈ l -> P pr' = false
  end.
Proof.
  induction l as [|a l IH]; cbn; [set_solver|]. unfold newer at 1.
  destruct (P a) eqn:Ha, (foldr (newer P) None l) as [b|] eqn:Hf.
  - destruct IH as (Hb & HPb & Hmax). destruct (Pipelinerun.ID b <? Pipelinerun.ID a) eqn:Hlt.
    + apply Nat.ltb_lt in Hlt. split_and!; [set_solver|done|].
      intros pr' [->|Hin]%elem_of_cons HP'; [lia|]. specialize (Hmax pr' Hin HP'). lia.
    + apply Nat.ltb_ge in Hlt. split_and!; [set_solver|done|].
      intros pr' [->|Hin]%elem_of_cons HP'; [lia|]. by apply Hmax.
  - split_and!; [set_solver|done|]. intros pr' [->|Hin]%elem_of_cons HP'; [lia|].
    rewrite IH in HP'; done.
  - destruct IH as (Hb & HPb & Hmax). split_and!; [set_solver|done|].
    intros pr' [->|Hin]%elem_of_cons HP'; [congruence|by apply Hmax].
  - intros pr' [->|Hin]%elem_of_cons; auto.
Qed.

Lemma elem_of_runs (m : gmap nat Pipelinerun.t) pr :
  pr ∈ map snd (map_to_list m) <-> exists k, m !! k = Some pr.
Proof.
  change (map snd (map_to_list m)) with (snd <$> map_to_list m). rewrite list_elem_of_fmap. split.
  - intros ([k v] & -> & Hin%elem_of_map_to_list). eauto.
  - intros [k Hk]. exists (k, pr). split; [done|]. by apply elem_of_map_to_list.
Qed.

Lemma latest_spec (P : Pipelinerun.t -> bool) m :
  match latest P m with
  | Some pr => (exists k, m !! k = Some pr) /\ P pr = true /\
      forall k pr', m !! k = Some pr' -> P pr' = true -> Pipelinerun.ID pr' <= Pipelinerun.ID pr
  | None => forall k pr', m !! k = Some pr' -> P pr' = false
  end.
Proof.
  unfold latest. pose proof (foldr_newer_spec P (map snd (map_to_list m))) as H.
  destruct (foldr _ _ _) as [pr|].
  - destruct H as (Hin & HP & Hmax). split_and!; [by apply elem_of_runs|done|].
    intros k pr' Hk. apply Hmax, elem_of_runs. eauto.
  - intros k pr' Hk. apply H, elem_of_runs. eauto.
Qed.

(** The runs of a cluster with one of the listed actions: [latest] picks
    the one of greatest identity, and finds none exactly when there is
    none. *)
Lemma latest_of_cluster_actions (m : gmap nat Pipelinerun.t) (cid : nat) (actions : list string) :
  match latest (fun pr => of_cluster cid pr && bool_decide (Pipelinerun.Action pr ∈ actions)) m with
  | Some pr =>
      (exists k, m !! k = Some pr) /\
      Pipelinerun.ClusterID pr = cid /\ Pipelinerun.Action pr ∈ actions /\
      forall k pr', m !! k = Some pr' ->
        Pipelinerun.ClusterID pr' = cid -> Pipelinerun.Action pr' ∈ actions ->
        Pipelinerun.ID pr' <= Pipelinerun.ID pr
  | None =>
      forall k pr', m !! k = Some pr' ->
        ~ (Pipelinerun.ClusterID pr' = cid /\ Pipelinerun.Action pr' ∈ actions)
  end.
Proof.
  match goal with |- context [latest ?P ?m] => pose proof (latest_spec P m) as H end.
  unfold of_cluster in H. destruct (latest _ _) as [pr|].
  - destruct H as (Hk & HP & Hmax). apply andb_true_iff in HP as [Hc Ha].
    apply Nat.eqb_eq in Hc. apply bool_decide_eq_true in Ha. split_and!; [done..|].
    intros k pr' Hk' Hc' Ha'. apply (Hmax k); [done|].
    apply andb_true_iff. split; [by apply Nat.eqb_eq|by apply bool_decide_eq_true].
  - intros k pr' Hk [Hc Ha]. specialize (H k pr' Hk). apply andb_false_iff in H as [H|H].
    + apply Nat.eqb_neq in H. done.
    + apply bool_decide_eq_false in H. done.
Qed.

(** Each stored run sits at the key of its own identity, as a table whose
    primary key is the id. *)
Definition keyed (st : PrStore) : Prop :=
  map_Forall (fun id pr => Pipelinerun.ID pr = id) (runs st).

#[export] Instance keyed_dec st : Decision (keyed st).
Proof. unfold keyed. apply _. Defined.

(** Two stored runs with the same identity are the same run. *)
Lemma keyed_unique st k k' pr pr' :
  keyed st -> runs st !! k = Some pr -> runs st !! k' = Some pr' ->
  Pipelinerun.ID pr = Pipelinerun.ID pr' -> pr = pr'.
Proof. intros Hk H H' Hid. apply Hk in H as Hk1. apply Hk in H' as Hk2. subst. congruence. Qed.

Section ManagerProofs.
Context {W : Type} (get : W -> PrStore) (put : PrStore -> W -> W).
Hypothesis get_put : forall st w, get (put st w) = st.

Local Abbreviation mgr := (New (MemDAO get put)).

(** ** Rows are keyed by identity *)

Lemma mem_update_keyed w id f :
  keyed (get w) -> (forall pr, Pipelinerun.ID (f pr) = Pipelinerun.ID pr) ->
  keyed (get (snd (mem_update get put w id f))).
Proof.
  intros Hk Hf. unfold mem_update. destruct (runs (get w) !! id) as [pr|] eqn:Hpr; cbn; [|done].
  rewrite get_put. apply map_Forall_insert_2; [|done]. rewrite Hf. by apply Hk in Hpr.
Qed.

Lemma mem_Delete_keyed w P : keyed (get w) -> keyed (get (snd (mem_Delete get put w P))).
Proof.
  intros Hk. unfold mem_Delete. cbn. rewrite get_put. intros id pr Hpr.
  apply map_lookup_filter_Some in Hpr as [Hpr _]. by apply Hk in Hpr.
Qed.

(** Every write stores a run at the key of its identity: [Create] gives
    the run the identity it inserts it at, and the updates keep the
    identity. *)
Lemma apply_op_keyed o w : keyed (get w) -> keyed (get (apply_op mgr o w)).
Proof.
  intros Hk. destruct o as [pr|id st|id c|id ev|id r|id|cid]; cbn.
  - unfold mem_Create. cbn. rewrite get_put. by apply map_Forall_insert_2.
  - unfold mem_UpdateStatusByID. destruct (runs (get w) !! id); [|done].
    destruct (valid_transition _ _); [|done]. by apply mem_update_keyed.
  - by apply mem_update_keyed.
  - by apply mem_update_keyed.
  - destruct (runs (get w) !! id); cbn; rewrite ?get_put; done.
  - exact (mem_Delete_keyed w (fun pr => Nat.eqb (Pipelinerun.ID pr) id) Hk).
  - exact (mem_Delete_keyed w (of_cluster cid) Hk).
Qed.

Lemma reachable_keyed w w' : keyed (get w) -> rtc (mstep mgr) w w' -> keyed (get w').
Proof. intros Hk Hr. induction Hr as [|w w1 w' [o] _ IH]; eauto using apply_op_keyed. Qed.
End ManagerProofs.
