(* ===== verification/PipelinerunController.v ===== *)
(** * The pipeline-run controller (src/core/controller/pipelinerun/controller.go)

    [controller] is the Go struct of collaborators.  [Controller] is the
    interface it implements ([as_Controller]), and [NewController] is the
    constructor, which returns the struct as the interface.  [GetPrLog], [GetClusterLatestLog] and [getPrLog] resolve a
    run's log: live from the Tekton client of the run's environment when the
    run has no archived object ([PrObject = ""]), else from the archive
    ("collector"), which returns the latest archived log of the
    (application, cluster) pair.  [GetDiff] builds the code half and the
    configuration half of a run's difference.  Each method is a computation
    of [ST W Call error] (see Prelude): its collaborator calls are recorded
    in the trace.

    The constants [common.InternalGitSSHPrefix], [common.CommitHistoryMiddle]
    and the function [common.InternalSSHToHTTPURL] live in a file of package
    common that is not among the sources: they are parameters of the
    section.

    The section [Composition] puts the controller on top of the manager
    of PipelinerunManager.v ([New] over the in-memory DAO).  Its theorem
    follows the store's invariants along the manager's writes up to the
    answer of [GetClusterLatestLog]. *)

From stdpp Require Import base list strings gmap.
From Stdlib Require Import String.
From S2P Require Import Prelude Model Collaborators PipelinerunManager.

(** The [Controller] interface (lines 23-27). *)
Module Controller.
Record t (W : Type) : Type := mk {
  GetPrLog : nat -> ST W Call error Log.t;
  GetClusterLatestLog : nat -> ST W Call error Log.t;
  GetDiff : nat -> ST W Call error GetDiffResponse.t
}.
Arguments GetPrLog {W} _ _. Arguments GetClusterLatestLog {W} _ _. Arguments GetDiff {W} _ _.
End Controller.

Section Methods.
Context {W : Type}.
Context (InternalGitSSHPrefix CommitHistoryMiddle : string)
        (InternalSSHToHTTPURL : string -> string).

Abbreviation M := (ST W Call error).

(** The Go struct: a [nil] interface field is [None]. *)
Record controller : Type := mk_controller {
  prMgr : Manager.t W;
  clusterMgr : ClusterManager.t W;
  applicationMgr : ApplicationManager.t W;
  envMgr : EnvironmentManager.t W;
  tektonFty : TektonFactory.t W;
  commitGetter : option (CommitGetter.t W);
  clusterGitRepo : option (ClusterGitRepo.t W)
}.

(** A method called through a [nil] interface value. *)
Definition nil_deref {A} : M A := throw ErrNilDeref.

(** The recorded calls of the controller to its collaborators. *)
Definition prMgr_GetByID (c : controller) (id : nat) : M Pipelinerun.t :=
  query (CPrGetByID id) (fun w => Manager.GetByID (prMgr c) w id).

(** [c.prMgr.GetLatestByClusterIDAndAction(ctx, clusterID, action)]: the
    single-action form of the manager's variadic
    [GetLatestByClusterIDAndActions]. *)
Definition prMgr_GetLatestByClusterIDAndAction (c : controller) (clusterID : nat) (action : string)
    : M (option Pipelinerun.t) :=
  query (CPrGetLatestByClusterIDAndActions clusterID [action])
    (fun w => Manager.GetLatestByClusterIDAndActions (prMgr c) w clusterID [action]).

Definition clusterMgr_GetByID (c : controller) (id : nat) : M Cluster.t :=
  query (CClusterGetByID id) (fun w => ClusterManager.GetByID (clusterMgr c) w id).

Definition applicationMgr_GetByID (c : controller) (id : nat) : M Application.t :=
  query (CApplicationGetByID id) (fun w => ApplicationManager.GetByID (applicationMgr c) w id).

Definition envMgr_GetEnvironmentRegionByID (c : controller) (id : nat) : M EnvironmentRegion.t :=
  query (CGetEnvironmentRegionByID id)
    (fun w => EnvironmentManager.GetEnvironmentRegionByID (envMgr c) w id).

Definition commitGetter_GetCommit (c : controller) (url commit : string) : M Commit.t :=
  match commitGetter c with
  | None => nil_deref
  | Some g => query (CGetCommit url commit) (fun w => CommitGetter.GetCommit g w url commit)
  end.

Definition clusterGitRepo_CompareConfig (c : controller) (app cluster from to : string) : M string :=
  match clusterGitRepo c with
  | None => nil_deref
  | Some r => query (CCompareConfig app cluster from to)
                (fun w => ClusterGitRepo.CompareConfig r w app cluster from to)
  end.

(** ** getPrLog (lines 115-150) *)

Definition op_getPrLog : string := "pipeline controller: get pipelinerun log".

Definition getPrLog (c : controller) (pr : Pipelinerun.t) (cluster : Cluster.t)
    (application environment : string) : M Log.t :=
  if String.eqb (Pipelinerun.PrObject pr) "" then
    (* if pr.PrObject is empty, get pipelinerun log in k8s *)
    tektonClient ← withOp op_getPrLog (query (CGetTekton environment)
                        (fun w => TektonFactory.GetTekton (tektonFty c) w environment));
    chans ← withOp op_getPrLog (invoke (CGetPipelineRunLogByID (Cluster.Name cluster) (Cluster.ID cluster)
                                               (Pipelinerun.ID pr))
                 (fun w => Tekton.GetPipelineRunLogByID tektonClient w (Cluster.Name cluster)
                             (Cluster.ID cluster) (Pipelinerun.ID pr)));
    mret (Log.mk (Some chans.1) (Some chans.2) [])
  else
    (* else, get log from s3 *)
    tektonCollector ← withOp op_getPrLog (query (CGetTektonCollector environment)
                           (fun w => TektonFactory.GetTektonCollector (tektonFty c) w environment));
    logBytes ← withOp op_getPrLog (query (CGetLatestPipelineRunLog application (Cluster.Name cluster))
                    (fun w => TektonCollector.GetLatestPipelineRunLog tektonCollector w
                                application (Cluster.Name cluster)));
    mret (Log.mk None None logBytes).

(** ** GetPrLog (lines 58-86) *)

Definition op_GetPrLog : string := "pipelinerun controller: get pipelinerun log".

Definition GetPrLog (c : controller) (prID : nat) : M Log.t :=
  pr ← withOp op_GetPrLog (prMgr_GetByID c prID);
  cluster ← withOp op_GetPrLog (clusterMgr_GetByID c (Pipelinerun.ClusterID pr));
  application ← withOp op_GetPrLog (applicationMgr_GetByID c (Cluster.ApplicationID cluster));
  er ← withOp op_GetPrLog (envMgr_GetEnvironmentRegionByID c (Cluster.EnvironmentRegionID cluster));
  (* only builddeploy have logs *)
  if negb (String.eqb (Pipelinerun.Action pr) ActionBuildDeploy) then
    throw (ErrOp op_GetPrLog (ErrMsg (Pipelinerun.Action pr ++ " action has no log")))
  else
    getPrLog c pr cluster (Application.Name application)
      (EnvironmentRegion.EnvironmentName er).

(** ** GetClusterLatestLog (lines 88-113) *)

Definition op_GetClusterLatestLog : string := "pipelinerun controller: get cluster latest log".

Definition GetClusterLatestLog (c : controller) (clusterID : nat) : M Log.t :=
  opr ← withOp op_GetClusterLatestLog (prMgr_GetLatestByClusterIDAndAction c clusterID ActionBuildDeploy);
  match opr with
  | None => throw (ErrOp op_GetClusterLatestLog (ErrMsg "no builddeploy pipelinerun"))
  | Some pr =>
      cluster ← withOp op_GetClusterLatestLog (clusterMgr_GetByID c clusterID);
      application ← withOp op_GetClusterLatestLog (applicationMgr_GetByID c (Cluster.ApplicationID cluster));
      er ← withOp op_GetClusterLatestLog (envMgr_GetEnvironmentRegionByID c (Cluster.EnvironmentRegionID cluster));
      getPrLog c pr cluster (Application.Name application) (EnvironmentRegion.EnvironmentName er)
  end.

(** ** GetDiff (lines 152-212) *)

(** The link of the commit in the code host's history (lines 180-184). *)
Definition historyLink (gitURL gitCommit : string) : string :=
  if HasPrefix gitURL InternalGitSSHPrefix then
    InternalSSHToHTTPURL gitURL ++ CommitHistoryMiddle ++ gitCommit
  else "".

(** The guard of the code half (lines 174-175). *)
Definition hasCodeInfo (pipelinerun : Pipelinerun.t) : bool :=
  nonempty (Pipelinerun.GitURL pipelinerun) && nonempty (Pipelinerun.GitCommit pipelinerun)
  && nonempty (Pipelinerun.GitBranch pipelinerun).

(** The guard of the configuration half (line 195). *)
Definition hasConfigDiff (pipelinerun : Pipelinerun.t) : bool :=
  nonempty (Pipelinerun.ConfigCommit pipelinerun)
  && nonempty (Pipelinerun.LastConfigCommit pipelinerun).

(** 3. get code diff (lines 172-191) *)
Definition getCodeDiff (c : controller) (pipelinerun : Pipelinerun.t) : M (option CodeInfo.t) :=
  if hasCodeInfo pipelinerun then
    commit ← commitGetter_GetCommit c (Pipelinerun.GitURL pipelinerun)
               (Pipelinerun.GitCommit pipelinerun);
    mret (Some (CodeInfo.mk (Pipelinerun.GitBranch pipelinerun) (Pipelinerun.GitCommit pipelinerun)
                 (Commit.Message commit)
                 (historyLink (Pipelinerun.GitURL pipelinerun) (Pipelinerun.GitCommit pipelinerun))))
  else mret None.

(** 4. get config diff (lines 193-206) *)
Definition getConfigDiff (c : controller) (pipelinerun : Pipelinerun.t) (application cluster : string)
    : M (option ConfigDiff.t) :=
  if hasConfigDiff pipelinerun then
    diff ← clusterGitRepo_CompareConfig c application cluster
             (Pipelinerun.LastConfigCommit pipelinerun) (Pipelinerun.ConfigCommit pipelinerun);
    mret (Some (ConfigDiff.mk (Pipelinerun.LastConfigCommit pipelinerun)
                 (Pipelinerun.ConfigCommit pipelinerun) diff))
  else mret None.

Definition GetDiff (c : controller) (pipelinerunID : nat) : M GetDiffResponse.t :=
  (* 1. get pipeline *)
  pipelinerun ← prMgr_GetByID c pipelinerunID;
  (* 2. get cluster and application *)
  cluster ← clusterMgr_GetByID c (Pipelinerun.ClusterID pipelinerun);
  application ← applicationMgr_GetByID c (Cluster.ApplicationID cluster);
  codeDiff ← getCodeDiff c pipelinerun;
  configDiff ← getConfigDiff c pipelinerun (Application.Name application) (Cluster.Name cluster);
  mret (GetDiffResponse.mk codeDiff configDiff).

(** The assertion [var _ Controller] of line 39: [controller] implements
    [Controller] with the three methods above. *)
Definition as_Controller (c : controller) : Controller.t W :=
  Controller.mk W (GetPrLog c) (GetClusterLatestLog c) (GetDiff c).

(** [NewController(tektonFty)]: the managers are the package singletons
    [prmanager.Mgr], ...; [commitGetter] and [clusterGitRepo] are left
    [nil]. *)
Definition NewController (prMgr_Mgr : Manager.t W) (clusterMgr_Mgr : ClusterManager.t W)
    (appMgr_Mgr : ApplicationManager.t W) (envMgr_Mgr : EnvironmentManager.t W)
    (tektonFty : TektonFactory.t W) : Controller.t W :=
  as_Controller {| prMgr := prMgr_Mgr; clusterMgr := clusterMgr_Mgr; applicationMgr := appMgr_Mgr;
     envMgr := envMgr_Mgr; tektonFty := tektonFty;
     commitGetter := None; clusterGitRepo := None |}.

End Methods.

(** ** Properties *)

(** The calls that touch the live Tekton session and the log archive. *)
Definition live_call (x : Call) : bool :=
  match x with CGetTekton _ | CGetPipelineRunLogByID _ _ _ => true | _ => false end.

Definition archive_call (x : Call) : bool :=
  match x with CGetTektonCollector _ | CGetLatestPipelineRunLog _ _ => true | _ => false end.

Ltac ctl_unfold :=
  unfold GetPrLog, GetClusterLatestLog, GetDiff, getPrLog, getCodeDiff, getConfigDiff,
    prMgr_GetByID, prMgr_GetLatestByClusterIDAndAction, clusterMgr_GetByID,
    applicationMgr_GetByID, envMgr_GetEnvironmentRegionByID, commitGetter_GetCommit,
    clusterGitRepo_CompareConfig, nil_deref, withOp.

Ltac ctl_red_in H := ctl_unfold; unfold GetPrLog, GetClusterLatestLog, GetDiff, getPrLog,
    getCodeDiff, getConfigDiff, prMgr_GetByID, prMgr_GetLatestByClusterIDAndAction,
    clusterMgr_GetByID, applicationMgr_GetByID, envMgr_GetEnvironmentRegionByID,
    commitGetter_GetCommit, clusterGitRepo_CompareConfig, nil_deref, withOp in H;
  st_red_in H.

(** Close the goals left by [st_split] once the run's outcome is known. *)
Ltac ctl_finish H :=
  injection H as <- <-; cbn;
  repeat split; intros; simplify_eq/=; repeat constructor; auto.

Section ControllerProofs.
Context {W : Type}.
Context (InternalGitSSHPrefix CommitHistoryMiddle : string)
        (InternalSSHToHTTPURL : string -> string).
Implicit Types (c : controller (W:=W)) (w : W).

(** C3: a run with no archived object ([PrObject = ""]) only ever yields a
    live log (both channels, no bytes), and the archive is never asked. *)
Theorem GetPrLog_live_only c prID w pr r s' :
  Manager.GetByID (prMgr c) w prID = Ok pr ->
  Pipelinerun.PrObject pr = ""%string ->
  run (GetPrLog c prID) w = (r, s') ->
  (forall l, r = Ok l ->
     Log.LogChannel l <> None /\ Log.ErrChannel l <> None /\ Log.LogBytes l = []) /\
  Forall (fun x => archive_call x = false) (trace s').
Proof.
  intros Hpr Hobj Hrun. ctl_red_in Hrun. rewrite Hpr, Hobj in Hrun. cbn in Hrun.
  st_split Hrun; ctl_finish Hrun.
Qed.

(** C4: a run with an archived object ([PrObject <> ""]) only ever yields
    an archived log (no channels), no live session is opened, and the
    world is left as it was. *)
Theorem GetPrLog_archived_only c prID w pr r s' :
  Manager.GetByID (prMgr c) w prID = Ok pr ->
  Pipelinerun.PrObject pr <> ""%string ->
  run (GetPrLog c prID) w = (r, s') ->
  (forall l, r = Ok l -> Log.LogChannel l = None /\ Log.ErrChannel l = None) /\
  Forall (fun x => live_call x = false) (trace s') /\ world s' = w.
Proof.
  intros Hpr Hobj%String.eqb_neq Hrun. ctl_red_in Hrun. rewrite Hpr, Hobj in Hrun.
  cbn in Hrun. st_split Hrun; ctl_finish Hrun.
Qed.

(** C21: on the live path, when every lookup succeeds, [GetPrLog] returns
    the two channels the Tekton client opened for (cluster name, cluster
    id, run id), in the world the client left, after exactly these six
    calls. *)
Theorem GetPrLog_live_ok c prID w pr cl app er tk lc ec w' :
  Manager.GetByID (prMgr c) w prID = Ok pr ->
  ClusterManager.GetByID (clusterMgr c) w (Pipelinerun.ClusterID pr) = Ok cl ->
  ApplicationManager.GetByID (applicationMgr c) w (Cluster.ApplicationID cl) = Ok app ->
  EnvironmentManager.GetEnvironmentRegionByID (envMgr c) w (Cluster.EnvironmentRegionID cl) = Ok er ->
  Pipelinerun.Action pr = ActionBuildDeploy ->
  Pipelinerun.PrObject pr = ""%string ->
  TektonFactory.GetTekton (tektonFty c) w (EnvironmentRegion.EnvironmentName er) = Ok tk ->
  Tekton.GetPipelineRunLogByID tk w (Cluster.Name cl) (Cluster.ID cl) (Pipelinerun.ID pr)
    = (Ok (lc, ec), w') ->
  run (GetPrLog c prID) w =
    (Ok (Log.mk (Some lc) (Some ec) []),
     mk_sys w' [CPrGetByID prID; CClusterGetByID (Pipelinerun.ClusterID pr);
                CApplicationGetByID (Cluster.ApplicationID cl);
                CGetEnvironmentRegionByID (Cluster.EnvironmentRegionID cl);
                CGetTekton (EnvironmentRegion.EnvironmentName er);
                CGetPipelineRunLogByID (Cluster.Name cl) (Cluster.ID cl) (Pipelinerun.ID pr)]).
Proof. intros. ctl_unfold. st_red. st_rewrite. reflexivity. Qed.

(** C31: on the archived path, when every lookup succeeds, [GetPrLog]
    returns the bytes of the latest archived log of the (application,
    cluster) pair, and changes nothing. *)
Theorem GetPrLog_archived_ok c prID w pr cl app er col bytes :
  Manager.GetByID (prMgr c) w prID = Ok pr ->
  ClusterManager.GetByID (clusterMgr c) w (Pipelinerun.ClusterID pr) = Ok cl ->
  ApplicationManager.GetByID (applicationMgr c) w (Cluster.ApplicationID cl) = Ok app ->
  EnvironmentManager.GetEnvironmentRegionByID (envMgr c) w (Cluster.EnvironmentRegionID cl) = Ok er ->
  Pipelinerun.Action pr = ActionBuildDeploy ->
  Pipelinerun.PrObject pr <> ""%string ->
  TektonFactory.GetTektonCollector (tektonFty c) w (EnvironmentRegion.EnvironmentName er) = Ok col ->
  TektonCollector.GetLatestPipelineRunLog col w (Application.Name app) (Cluster.Name cl) = Ok bytes ->
  fst (run (GetPrLog c prID) w) = Ok (Log.mk None None bytes) /\
  world (snd (run (GetPrLog c prID) w)) = w.
Proof.
  intros ????? Hobj%String.eqb_neq ??. ctl_unfold. st_red. st_rewrite. split; reflexivity.
Qed.

(** C2: a run whose action is not [builddeploy] never yields a log and
    never reaches Tekton or the archive; when its cluster, application and
    environment exist the error is "<action> action has no log". *)
Theorem GetPrLog_action_without_log c prID w pr r s' :
  Manager.GetByID (prMgr c) w prID = Ok pr ->
  Pipelinerun.Action pr <> ActionBuildDeploy ->
  run (GetPrLog c prID) w = (r, s') ->
  (exists e, r = Error e) /\
  Forall (fun x => live_call x = false /\ archive_call x = false) (trace s') /\
  (forall cl app er,
     ClusterManager.GetByID (clusterMgr c) w (Pipelinerun.ClusterID pr) = Ok cl ->
     ApplicationManager.GetByID (applicationMgr c) w (Cluster.ApplicationID cl) = Ok app ->
     EnvironmentManager.GetEnvironmentRegionByID (envMgr c) w
       (Cluster.EnvironmentRegionID cl) = Ok er ->
     r = Error (ErrOp op_GetPrLog (ErrMsg (Pipelinerun.Action pr ++ " action has no log")))).
Proof.
  intros Hpr Hact%String.eqb_neq Hrun. ctl_red_in Hrun. rewrite Hpr, Hact in Hrun.
  cbn in Hrun. st_split Hrun; injection Hrun as <- <-; cbn.
  all: split; [eauto|]; split; [repeat constructor|]; intros; congruence.
Qed.

(** C32: a cluster with no [builddeploy] run has no latest log; only the
    lookup of the latest run is made. *)
Theorem GetClusterLatestLog_no_run c clusterID w :
  Manager.GetLatestByClusterIDAndActions (prMgr c) w clusterID [ActionBuildDeploy] = Ok None ->
  run (GetClusterLatestLog c clusterID) w =
    (Error (ErrOp op_GetClusterLatestLog (ErrMsg "no builddeploy pipelinerun")),
     mk_sys w [CPrGetLatestByClusterIDAndActions clusterID [ActionBuildDeploy]]).
Proof. intros. ctl_unfold. st_red. st_rewrite. reflexivity. Qed.

(** C22: the latest log of a cluster is the log of its latest
    [builddeploy] run: [GetClusterLatestLog] succeeds with a log exactly
    when [GetPrLog] of that run does, with the same log. *)
Theorem GetClusterLatestLog_is_GetPrLog c clusterID w pr l :
  Manager.GetLatestByClusterIDAndActions (prMgr c) w clusterID [ActionBuildDeploy] = Ok (Some pr) ->
  Manager.GetByID (prMgr c) w (Pipelinerun.ID pr) = Ok pr ->
  Pipelinerun.ClusterID pr = clusterID ->
  Pipelinerun.Action pr = ActionBuildDeploy ->
  fst (run (GetClusterLatestLog c clusterID) w) = Ok l <->
  fst (run (GetPrLog c (Pipelinerun.ID pr)) w) = Ok l.
Proof.
  intros Hl Hpr Hcid Hact. ctl_unfold. st_red. rewrite Hl, Hpr, Hcid, Hact. cbn.
  st_split_goal; split; congruence.
Qed.

(** C29: the archived log does not depend on the run: two archived
    [builddeploy] runs of the same cluster get the same log, the latest
    archived log of the (application, cluster) pair (the TODO at line 142:
    [pr.PrObject] is not used). *)
Theorem GetPrLog_archived_ignores_run c w id1 id2 pr1 pr2 :
  Manager.GetByID (prMgr c) w id1 = Ok pr1 ->
  Manager.GetByID (prMgr c) w id2 = Ok pr2 ->
  Pipelinerun.ClusterID pr1 = Pipelinerun.ClusterID pr2 ->
  Pipelinerun.Action pr1 = ActionBuildDeploy -> Pipelinerun.Action pr2 = ActionBuildDeploy ->
  Pipelinerun.PrObject pr1 <> ""%string -> Pipelinerun.PrObject pr2 <> ""%string ->
  fst (run (GetPrLog c id1) w) = fst (run (GetPrLog c id2) w).
Proof.
  intros H1 H2 Hc A1 A2 O1%String.eqb_neq O2%String.eqb_neq. ctl_unfold. st_red.
  rewrite H1, H2, Hc, A1, A2, O1, O2. cbn. st_split_goal; reflexivity.
Qed.

Local Abbreviation GetDiff' := (GetDiff InternalGitSSHPrefix CommitHistoryMiddle InternalSSHToHTTPURL).
Local Abbreviation historyLink' := (historyLink InternalGitSSHPrefix CommitHistoryMiddle
                                  InternalSSHToHTTPURL).

(** C7: a successful [GetDiff] has a code half exactly when the run's git
    URL, commit and branch are all non-empty; the half carries the run's
    branch and commit, the message the code host returned for that commit,
    and the history link. *)
Theorem GetDiff_code_half c id w pr resp s' :
  Manager.GetByID (prMgr c) w id = Ok pr ->
  run (GetDiff' c id) w = (Ok resp, s') ->
  (GetDiffResponse.CodeInfo resp <> None <-> hasCodeInfo pr = true) /\
  (forall ci, GetDiffResponse.CodeInfo resp = Some ci ->
     CodeInfo.Branch ci = Pipelinerun.GitBranch pr /\
     CodeInfo.CommitID ci = Pipelinerun.GitCommit pr /\
     CodeInfo.Link ci = historyLink' (Pipelinerun.GitURL pr) (Pipelinerun.GitCommit pr) /\
     exists g cm, commitGetter c = Some g /\
       CommitGetter.GetCommit g w (Pipelinerun.GitURL pr) (Pipelinerun.GitCommit pr) = Ok cm /\
       CodeInfo.CommitMsg ci = Commit.Message cm).
Proof.
  intros Hpr Hrun. ctl_red_in Hrun. rewrite Hpr in Hrun. cbn in Hrun.
  st_split Hrun; try discriminate; injection Hrun as <- <-; cbn.
  all: split; [split; intros; congruence|]; intros ? Hci; simplify_eq/=; eauto 10.
Qed.

(** C8: a successful [GetDiff] has a configuration half exactly when both
    configuration commits of the run are non-empty; the half goes from the
    previous commit to the current one and carries, verbatim, the diff the
    GitOps repository computed for the run's (application, cluster). *)
Theorem GetDiff_config_half c id w pr cl app resp s' :
  Manager.GetByID (prMgr c) w id = Ok pr ->
  ClusterManager.GetByID (clusterMgr c) w (Pipelinerun.ClusterID pr) = Ok cl ->
  ApplicationManager.GetByID (applicationMgr c) w (Cluster.ApplicationID cl) = Ok app ->
  run (GetDiff' c id) w = (Ok resp, s') ->
  (GetDiffResponse.ConfigDiff resp <> None <-> hasConfigDiff pr = true) /\
  (forall d, GetDiffResponse.ConfigDiff resp = Some d ->
     ConfigDiff.From d = Pipelinerun.LastConfigCommit pr /\
     ConfigDiff.To d = Pipelinerun.ConfigCommit pr /\
     exists repo, clusterGitRepo c = Some repo /\
       ClusterGitRepo.CompareConfig repo w (Application.Name app) (Cluster.Name cl)
         (Pipelinerun.LastConfigCommit pr) (Pipelinerun.ConfigCommit pr) = Ok (ConfigDiff.Diff d)).
Proof.
  intros Hpr Hcl Happ Hrun. ctl_red_in Hrun. rewrite Hpr, Hcl, Happ in Hrun. cbn in Hrun.
  st_split Hrun; try discriminate; injection Hrun as <- <-; cbn.
  all: split; [split; intros; congruence|]; intros ? Hd; simplify_eq/=; eauto 10.
Qed.

(** C20: no partial diff: when the code half is due and the code host
    fails, [GetDiff] returns that error unwrapped, and the GitOps
    repository is never asked for the configuration half. *)
Theorem GetDiff_commit_error_aborts c id w pr cl app g e :
  Manager.GetByID (prMgr c) w id = Ok pr ->
  ClusterManager.GetByID (clusterMgr c) w (Pipelinerun.ClusterID pr) = Ok cl ->
  ApplicationManager.GetByID (applicationMgr c) w (Cluster.ApplicationID cl) = Ok app ->
  hasCodeInfo pr = true ->
  commitGetter c = Some g ->
  CommitGetter.GetCommit g w (Pipelinerun.GitURL pr) (Pipelinerun.GitCommit pr) = Error e ->
  run (GetDiff' c id) w =
    (Error e, mk_sys w [CPrGetByID id; CClusterGetByID (Pipelinerun.ClusterID pr);
                        CApplicationGetByID (Cluster.ApplicationID cl);
                        CGetCommit (Pipelinerun.GitURL pr) (Pipelinerun.GitCommit pr)]).
Proof. intros. ctl_unfold. st_red. st_rewrite. reflexivity. Qed.

(** C9: a run with no complete git reference and no pair of
    configuration commits has an empty diff (both halves nil) after the
    three lookups: neither the code host nor the GitOps repository is
    asked, so even a controller with neither collaborator answers. *)
Theorem GetDiff_no_halves c id w pr cl app :
  Manager.GetByID (prMgr c) w id = Ok pr ->
  ClusterManager.GetByID (clusterMgr c) w (Pipelinerun.ClusterID pr) = Ok cl ->
  ApplicationManager.GetByID (applicationMgr c) w (Cluster.ApplicationID cl) = Ok app ->
  hasCodeInfo pr = false -> hasConfigDiff pr = false ->
  run (GetDiff' (mk_controller (prMgr c) (clusterMgr c) (applicationMgr c) (envMgr c) (tektonFty c)
                   None None) id) w =
    (Ok (GetDiffResponse.mk None None),
     mk_sys w [CPrGetByID id; CClusterGetByID (Pipelinerun.ClusterID pr);
               CApplicationGetByID (Cluster.ApplicationID cl)]).
Proof.
  intros Hpr Hcl Happ Hc Hd. ctl_unfold. st_red. cbn [prMgr clusterMgr applicationMgr commitGetter clusterGitRepo].
  rewrite Hpr; cbn. rewrite Hcl; cbn. rewrite Happ; cbn. rewrite Hc, Hd. reflexivity.
Qed.

(** C27: [NewController] leaves [commitGetter] and [clusterGitRepo] nil, so
    [GetDiff] on a controller it built panics as soon as either half of the
    diff is due (the run, its cluster and application being found). *)
Theorem NewController_GetDiff_panics pm cm am em fty id w pr cl app :
  let c := NewController InternalGitSSHPrefix CommitHistoryMiddle InternalSSHToHTTPURL pm cm am em fty in
  Manager.GetByID pm w id = Ok pr ->
  ClusterManager.GetByID cm w (Pipelinerun.ClusterID pr) = Ok cl ->
  ApplicationManager.GetByID am w (Cluster.ApplicationID cl) = Ok app ->
  hasCodeInfo pr || hasConfigDiff pr = true ->
  fst (run (Controller.GetDiff c id) w) = Error ErrNilDeref.
Proof.
  intros c Hpr Hcl Happ Hhalf. subst c. unfold NewController, as_Controller. cbn [Controller.GetDiff].
  ctl_unfold. st_red. cbn. rewrite Hpr, Hcl, Happ. cbn.
  destruct (hasCodeInfo pr), (hasConfigDiff pr); done.
Qed.
End ControllerProofs.

(** ** The controller over the manager of the in-memory store

    The composition of the two components: a controller whose [prMgr] is
    [New] over the in-memory DAO of PipelinerunManager.v, in any world
    reached by writes through that manager from a store whose rows are
    keyed by identity. *)
Section Composition.
Context {W : Type} (get : W -> PrStore) (put : PrStore -> W -> W).
Hypothesis get_put : forall st w, get (put st w) = st.
Implicit Types (c : controller (W:=W)) (w : W).

(** C23: in that composition, the latest log of a cluster is the log of
    the stored [builddeploy] run of the cluster with the greatest
    identity: [GetClusterLatestLog] succeeds with [l] exactly when that
    run exists and [GetPrLog] of it succeeds with [l]; when the store
    holds no [builddeploy] run of the cluster, it fails with "no
    builddeploy pipelinerun". *)
Theorem GetClusterLatestLog_latest_stored_run c cid w0 w l :
  prMgr c = New (MemDAO get put) -> keyed (get w0) -> rtc (mstep (New (MemDAO get put))) w0 w ->
  (fst (run (GetClusterLatestLog c cid) w) = Ok l <->
   exists pr, (exists k, runs (get w) !! k = Some pr) /\
     Pipelinerun.ClusterID pr = cid /\ Pipelinerun.Action pr = ActionBuildDeploy /\
     (forall k pr', runs (get w) !! k = Some pr' -> Pipelinerun.ClusterID pr' = cid ->
        Pipelinerun.Action pr' = ActionBuildDeploy -> Pipelinerun.ID pr' <= Pipelinerun.ID pr) /\
     fst (run (GetPrLog c (Pipelinerun.ID pr)) w) = Ok l) /\
  ((forall k pr', runs (get w) !! k = Some pr' ->
      ~ (Pipelinerun.ClusterID pr' = cid /\ Pipelinerun.Action pr' = ActionBuildDeploy)) ->
   fst (run (GetClusterLatestLog c cid) w) =
     Error (ErrOp op_GetClusterLatestLog (ErrMsg "no builddeploy pipelinerun"))).
Proof.
  intros Hc Hk0 Hr. pose proof (reachable_keyed get put get_put w0 w Hk0 Hr) as Hk.
  assert (Hl : Manager.GetLatestByClusterIDAndActions (prMgr c) w cid [ActionBuildDeploy] =
    Ok (latest (fun pr => of_cluster cid pr
                  && bool_decide (Pipelinerun.Action pr ∈ [ActionBuildDeploy])) (runs (get w))))
    by (rewrite Hc; reflexivity).
  pose proof (latest_of_cluster_actions (runs (get w)) cid [ActionBuildDeploy]) as Hspec.
  destruct (latest _ _) as [pr|].
  - destruct Hspec as ([k Hpk] & Hcid & Hact%list_elem_of_singleton & Hmax).
    assert (Hget : Manager.GetByID (prMgr c) w (Pipelinerun.ID pr) = Ok pr).
    { rewrite Hc. cbn. unfold mem_GetByID. apply Hk in Hpk as Hid. by rewrite Hid, Hpk. }
    assert (Heq : fst (run (GetClusterLatestLog c cid) w) = Ok l <->
                  fst (run (GetPrLog c (Pipelinerun.ID pr)) w) = Ok l).
    { ctl_unfold. st_red. rewrite Hl, Hget, Hcid, Hact. cbn. st_split_goal; split; congruence. }
    split.
    + rewrite Heq. split.
      * intros HO. exists pr. split_and!; eauto.
        intros k' pr' Hk' Hc' Ha'. apply (Hmax k'); [done..|by apply list_elem_of_singleton].
      * intros (pr' & [k' Hpk'] & Hc' & Ha' & Hmax' & HO).
        enough (pr' = pr) by congruence.
        apply (keyed_unique _ k' k _ _ Hk Hpk' Hpk).
        specialize (Hmax k' pr' Hpk' Hc' (proj2 (list_elem_of_singleton _ _) Ha')).
        specialize (Hmax' k pr Hpk Hcid Hact). lia.
    + intros Hnone. exfalso. by apply (Hnone k pr Hpk).
  - assert (Herr : fst (run (GetClusterLatestLog c cid) w) =
                   Error (ErrOp op_GetClusterLatestLog (ErrMsg "no builddeploy pipelinerun"))).
    { ctl_unfold. st_red. by rewrite Hl. }
    rewrite Herr. split; [|done]. split; [done|].
    intros (pr & [k Hpk] & Hc' & Ha' & _). exfalso.
    apply (Hspec k pr Hpk). split; [done|]. by apply list_elem_of_singleton.
Qed.
End Composition.

(** ** Witnesses

    A store of five runs of cluster 3 behind the manager built by [New] over
    the in-memory DAO, and constant collaborators: the theorems above
    applied where their hypotheses hold. *)

Module Demo.
Definition prefix : string := "ssh://git@g.hz.netease.com:22222/".
Definition middle : string := "/-/commits/".
Definition ssh_to_http (url : string) : string := "https://g.hz.netease.com/music/app".

Definition mkpr (id : nat) (action obj url commit : string) : Pipelinerun.t :=
  Pipelinerun.mk id 3 action StatusOK url "master" commit "c1" "c2" obj "" id.
Definition pr_live := mkpr 1 ActionBuildDeploy "" (String.append prefix "music/app.git") "abc123".
Definition pr_archived := mkpr 2 ActionBuildDeploy "pipelinerun-2.json" "" "".
Definition pr_restart := mkpr 3 ActionRestart "" "" "".
Definition pr_archived2 := mkpr 4 ActionBuildDeploy "pipelinerun-4.json" "" "".
Definition pr_badcommit := mkpr 5 ActionDeploy "" (String.append prefix "music/app.git") "bad".
Definition pr_bare := Pipelinerun.mk 6 3 ActionRollback StatusOK "" "" "" "" "" "" "" 6.

Definition store : PrStore :=
  mk_store (list_to_map [(1, pr_live); (2, pr_archived); (3, pr_restart); (4, pr_archived2);
                         (5, pr_badcommit); (6, pr_bare)]) ∅ 7.

Definition cluster : Cluster.t := Cluster.mk 3 "app-test" 5 9 "javaapp" "v1.0.0".
Definition app : Application.t := Application.mk 5 "app".
Definition er : EnvironmentRegion.t := EnvironmentRegion.mk 9 "test" "hz".
Definition log_bytes : list Init.Byte.byte := [Init.Byte.x6f; Init.Byte.x6b].

Definition prMgr : Manager.t PrStore := New (MemDAO id (fun st _ => st)).
Definition clusterMgr : ClusterManager.t PrStore :=
  {| ClusterManager.GetByID := fun _ id =>
       if Nat.eqb id 3 then Ok cluster else Error (ErrNotFound "cluster");
     ClusterManager.UpdateByID := fun w _ cl => (Ok cl, w) |}.
Definition appMgr : ApplicationManager.t PrStore :=
  {| ApplicationManager.GetByID := fun _ id =>
       if Nat.eqb id 5 then Ok app else Error (ErrNotFound "application") |}.
Definition envMgr : EnvironmentManager.t PrStore :=
  {| EnvironmentManager.GetEnvironmentRegionByID := fun _ id =>
       if Nat.eqb id 9 then Ok er else Error (ErrNotFound "environment region") |}.
Definition tekton : Tekton.t PrStore :=
  {| Tekton.GetPipelineRunLogByID := fun w _ _ _ => (Ok (10, 11), w) |}.
Definition collector : TektonCollector.t PrStore :=
  {| TektonCollector.GetLatestPipelineRunLog := fun _ _ _ => Ok log_bytes |}.
Definition fty : TektonFactory.t PrStore :=
  {| TektonFactory.GetTekton := fun _ _ => Ok tekton;
     TektonFactory.GetTektonCollector := fun _ _ => Ok collector |}.
Definition commitGetter : CommitGetter.t PrStore :=
  {| CommitGetter.GetCommit := fun _ _ commit =>
       if String.eqb commit "bad" then Error (ErrBackend "commit not found")
       else Ok (Commit.mk commit "fix build") |}.
Definition gitRepo : ClusterGitRepo.t PrStore :=
  {| ClusterGitRepo.GetClusterTemplate := fun _ _ _ => Ok (ClusterTemplate.mk "javaapp" "v1.0.0");
     ClusterGitRepo.CompareConfig := fun _ _ _ from to => Ok (String.append "diff " (String.append from (String.append ".." to)));
     ClusterGitRepo.MergeBranch := fun w _ _ _ _ => (Ok "merge", w);
     ClusterGitRepo.UpgradeValuesFiles := fun w _ => (Ok "upgrade", w) |}.

Definition ctl : controller (W:=PrStore) :=
  mk_controller prMgr clusterMgr appMgr envMgr fty (Some commitGetter) (Some gitRepo).
Definition new_ctl : Controller.t PrStore :=
  NewController prefix middle ssh_to_http prMgr clusterMgr appMgr envMgr fty.
End Demo.

(** Discharge a hypothesis of a theorem at the demo inputs. *)
Lemma GetPrLog_live_only_witness :
  (forall l, fst (run (GetPrLog Demo.ctl 1) Demo.store) = Ok l ->
     Log.LogChannel l <> None /\ Log.ErrChannel l <> None /\ Log.LogBytes l = []) /\
  Forall (fun x => archive_call x = false) (trace (snd (run (GetPrLog Demo.ctl 1) Demo.store))).
Proof. apply (GetPrLog_live_only Demo.ctl 1 Demo.store Demo.pr_live); wit_hyp. Defined.

Lemma GetPrLog_archived_only_witness :
  (forall l, fst (run (GetPrLog Demo.ctl 2) Demo.store) = Ok l ->
     Log.LogChannel l = None /\ Log.ErrChannel l = None) /\
  Forall (fun x => live_call x = false) (trace (snd (run (GetPrLog Demo.ctl 2) Demo.store))) /\
  world (snd (run (GetPrLog Demo.ctl 2) Demo.store)) = Demo.store.
Proof. apply (GetPrLog_archived_only Demo.ctl 2 Demo.store Demo.pr_archived); wit_hyp. Defined.

Lemma GetPrLog_live_ok_witness :
  run (GetPrLog Demo.ctl 1) Demo.store =
    (Ok (Log.mk (Some 10) (Some 11) []),
     mk_sys Demo.store [CPrGetByID 1; CClusterGetByID 3; CApplicationGetByID 5;
                        CGetEnvironmentRegionByID 9; CGetTekton "test"; CGetPipelineRunLogByID "app-test" 3 1]).
Proof.
  apply (GetPrLog_live_ok Demo.ctl 1 Demo.store Demo.pr_live Demo.cluster Demo.app Demo.er
           Demo.tekton); wit_hyp.
Defined.

Lemma GetPrLog_archived_ok_witness :
  fst (run (GetPrLog Demo.ctl 2) Demo.store) = Ok (Log.mk None None Demo.log_bytes) /\
  world (snd (run (GetPrLog Demo.ctl 2) Demo.store)) = Demo.store.
Proof.
  apply (GetPrLog_archived_ok Demo.ctl 2 Demo.store Demo.pr_archived Demo.cluster Demo.app Demo.er
           Demo.collector); wit_hyp.
Defined.

Lemma GetPrLog_action_without_log_witness :
  (exists e, fst (run (GetPrLog Demo.ctl 3) Demo.store) = Error e) /\
  Forall (fun x => live_call x = false /\ archive_call x = false)
    (trace (snd (run (GetPrLog Demo.ctl 3) Demo.store))) /\
  (forall cl app er,
     ClusterManager.GetByID Demo.clusterMgr Demo.store 3 = Ok cl ->
     ApplicationManager.GetByID Demo.appMgr Demo.store (Cluster.ApplicationID cl) = Ok app ->
     EnvironmentManager.GetEnvironmentRegionByID Demo.envMgr Demo.store
       (Cluster.EnvironmentRegionID cl) = Ok er ->
     fst (run (GetPrLog Demo.ctl 3) Demo.store) =
       Error (ErrOp op_GetPrLog (ErrMsg (ActionRestart ++ " action has no log")))).
Proof. apply (GetPrLog_action_without_log Demo.ctl 3 Demo.store Demo.pr_restart); wit_hyp. Defined.

Lemma GetClusterLatestLog_no_run_witness :
  run (GetClusterLatestLog Demo.ctl 8) Demo.store =
    (Error (ErrOp op_GetClusterLatestLog (ErrMsg "no builddeploy pipelinerun")),
     mk_sys Demo.store [CPrGetLatestByClusterIDAndActions 8 [ActionBuildDeploy]]).
Proof. apply GetClusterLatestLog_no_run; wit_hyp. Defined.

Lemma GetClusterLatestLog_is_GetPrLog_witness :
  fst (run (GetClusterLatestLog Demo.ctl 3) Demo.store) = Ok (Log.mk None None Demo.log_bytes) <->
  fst (run (GetPrLog Demo.ctl 4) Demo.store) = Ok (Log.mk None None Demo.log_bytes).
Proof. apply (GetClusterLatestLog_is_GetPrLog Demo.ctl 3 Demo.store Demo.pr_archived2); wit_hyp. Defined.

Lemma GetPrLog_archived_ignores_run_witness :
  fst (run (GetPrLog Demo.ctl 2) Demo.store) = fst (run (GetPrLog Demo.ctl 4) Demo.store).
Proof.
  apply (GetPrLog_archived_ignores_run Demo.ctl Demo.store 2 4 Demo.pr_archived Demo.pr_archived2);
    wit_hyp.
Defined.

Definition Demo_diff : GetDiffResponse.t :=
  GetDiffResponse.mk
    (Some (CodeInfo.mk "master" "abc123" "fix build"
             (historyLink Demo.prefix Demo.middle Demo.ssh_to_http
                (Pipelinerun.GitURL Demo.pr_live) "abc123")))
    (Some (ConfigDiff.mk "c1" "c2" "diff c1..c2")).

Lemma GetDiff_code_half_witness :
  (GetDiffResponse.CodeInfo Demo_diff <> None <-> hasCodeInfo Demo.pr_live = true) /\
  (forall ci, GetDiffResponse.CodeInfo Demo_diff = Some ci ->
     CodeInfo.Branch ci = Pipelinerun.GitBranch Demo.pr_live /\
     CodeInfo.CommitID ci = Pipelinerun.GitCommit Demo.pr_live /\
     CodeInfo.Link ci = historyLink Demo.prefix Demo.middle Demo.ssh_to_http
                          (Pipelinerun.GitURL Demo.pr_live) (Pipelinerun.GitCommit Demo.pr_live) /\
     exists g cm, commitGetter Demo.ctl = Some g /\
       CommitGetter.GetCommit g Demo.store (Pipelinerun.GitURL Demo.pr_live)
         (Pipelinerun.GitCommit Demo.pr_live) = Ok cm /\
       CodeInfo.CommitMsg ci = Commit.Message cm).
Proof.
  apply (GetDiff_code_half Demo.prefix Demo.middle Demo.ssh_to_http Demo.ctl 1 Demo.store
           Demo.pr_live Demo_diff
           (snd (run (GetDiff Demo.prefix Demo.middle Demo.ssh_to_http Demo.ctl 1) Demo.store)));
    wit_hyp.
Defined.

Lemma GetDiff_config_half_witness :
  (GetDiffResponse.ConfigDiff Demo_diff <> None <-> hasConfigDiff Demo.pr_live = true) /\
  (forall d, GetDiffResponse.ConfigDiff Demo_diff = Some d ->
     ConfigDiff.From d = Pipelinerun.LastConfigCommit Demo.pr_live /\
     ConfigDiff.To d = Pipelinerun.ConfigCommit Demo.pr_live /\
     exists repo, clusterGitRepo Demo.ctl = Some repo /\
       ClusterGitRepo.CompareConfig repo Demo.store (Application.Name Demo.app)
         (Cluster.Name Demo.cluster) (Pipelinerun.LastConfigCommit Demo.pr_live)
         (Pipelinerun.ConfigCommit Demo.pr_live) = Ok (ConfigDiff.Diff d)).
Proof.
  apply (GetDiff_config_half Demo.prefix Demo.middle Demo.ssh_to_http Demo.ctl 1 Demo.store
           Demo.pr_live Demo.cluster Demo.app Demo_diff
           (snd (run (GetDiff Demo.prefix Demo.middle Demo.ssh_to_http Demo.ctl 1) Demo.store)));
    wit_hyp.
Defined.

Lemma GetDiff_commit_error_aborts_witness :
  run (GetDiff Demo.prefix Demo.middle Demo.ssh_to_http Demo.ctl 5) Demo.store =
    (Error (ErrBackend "commit not found"),
     mk_sys Demo.store [CPrGetByID 5; CClusterGetByID 3; CApplicationGetByID 5;
                        CGetCommit (Pipelinerun.GitURL Demo.pr_badcommit) "bad"]).
Proof.
  apply (GetDiff_commit_error_aborts Demo.prefix Demo.middle Demo.ssh_to_http Demo.ctl 5 Demo.store
           Demo.pr_badcommit Demo.cluster Demo.app Demo.commitGetter); wit_hyp.
Defined.

Lemma GetDiff_no_halves_witness :
  run (GetDiff Demo.prefix Demo.middle Demo.ssh_to_http Demo.ctl 6) Demo.store =
    (Ok (GetDiffResponse.mk None None),
     mk_sys Demo.store [CPrGetByID 6; CClusterGetByID 3; CApplicationGetByID 5]).
Proof.
  apply (GetDiff_no_halves Demo.prefix Demo.middle Demo.ssh_to_http Demo.ctl 6 Demo.store
           Demo.pr_bare Demo.cluster Demo.app); wit_hyp.
Defined.

Lemma NewController_GetDiff_panics_witness :
  fst (run (Controller.GetDiff Demo.new_ctl 1) Demo.store) =
    Error ErrNilDeref.
Proof.
  apply (NewController_GetDiff_panics Demo.prefix Demo.middle Demo.ssh_to_http Demo.prMgr
           Demo.clusterMgr Demo.appMgr Demo.envMgr Demo.fty 1 Demo.store Demo.pr_live Demo.cluster
           Demo.app); wit_hyp.
Defined.

(** A [builddeploy] run created after the demo store (it gets identity 7
    and an archived object) becomes the latest of cluster 3: the log of
    the cluster is the archived log of that run. *)
Definition Demo_store7 : PrStore :=
  apply_op Demo.prMgr (OpCreate (Demo.mkpr 0 ActionBuildDeploy "pipelinerun-7.json" "" "")) Demo.store.

Lemma GetClusterLatestLog_latest_stored_run_witness :
  exists pr, (exists k, runs Demo_store7 !! k = Some pr) /\
    Pipelinerun.ClusterID pr = 3 /\ Pipelinerun.Action pr = ActionBuildDeploy /\
    (forall k pr', runs Demo_store7 !! k = Some pr' -> Pipelinerun.ClusterID pr' = 3 ->
       Pipelinerun.Action pr' = ActionBuildDeploy -> Pipelinerun.ID pr' <= Pipelinerun.ID pr) /\
    fst (run (GetPrLog Demo.ctl (Pipelinerun.ID pr)) Demo_store7) = Ok (Log.mk None None Demo.log_bytes).
Proof.
  apply (proj1 (proj1 (GetClusterLatestLog_latest_stored_run id (fun st _ => st) (fun _ _ => eq_refl)
           Demo.ctl 3 Demo.store Demo_store7 (Log.mk None None Demo.log_bytes) eq_refl
           ltac:(apply (bool_decide_unpack _); vm_compute; reflexivity)
           ltac:(eapply rtc_l;
                 [apply (mstep_op _ (OpCreate (Demo.mkpr 0 ActionBuildDeploy "pipelinerun-7.json" "" ""))
                           Demo.store)
                 |apply rtc_refl])))).
  vm_compute. reflexivity.
Defined.

