(* ===== verification/ClusterUpgrade.v ===== *)
(** * Template migration (src/core/controller/cluster/controller_operation_v2.go)

    [UpgradeToV2] moves a cluster to the template its GitOps repository's
    template maps to in [templateUpgradeMapper]: it loads the cluster and
    its application, reads the template the repository declares, maps it,
    resolves the target release, merges the default branch into the gitops
    branch when they differ, rewrites and commits the values files, and
    only then writes the template fields of the cluster row.  The helper
    [mergeDefaultBranchIntoGitOps] is defined in a file of the cluster
    controller that is not among the sources; it is modelled from the
    specification (compare the two branches, merge when they differ).

    [UWorld] is an in-memory world (database rows and one GitOps repository
    per (application, cluster)) with collaborators that implement the
    contracts of the specification; it runs the end-to-end scenario. *)

From stdpp Require Import base list strings gmap pretty.
From Stdlib Require Import String.
From S2P Require Import Prelude Model Collaborators.

(** An entry of the upgrade table: the target template, its release and the
    build configuration that guides the rewrite. *)
Module UpgradeTarget.
Record t : Type := mk { Name : string; Release : string; BuildConfig : BuildConfig }.
End UpgradeTarget.

(** The branches of a GitOps repository. *)
Definition DefaultBranch : string := "master".
Definition GitOpsBranch : string := "gitops".

Section Upgrade.
Context {W : Type}.
Abbreviation M := (ST W Call error).

(** The fields of the cluster controller that [UpgradeToV2] uses. *)
Record controller : Type := mk_controller {
  clusterMgr : ClusterManager.t W;
  applicationMgr : ApplicationManager.t W;
  clusterGitRepo : ClusterGitRepo.t W;
  templateReleaseMgr : TemplateReleaseManager.t W;
  templateUpgradeMapper : gmap string UpgradeTarget.t
}.

(** [c.mergeDefaultBranchIntoGitOps(ctx, application, cluster)] *)
Definition mergeDefaultBranchIntoGitOps (c : controller) (application cluster : string) : M unit :=
  diff ← query (CCompareConfig application cluster GitOpsBranch DefaultBranch)
           (fun w => ClusterGitRepo.CompareConfig (clusterGitRepo c) w application cluster
                       GitOpsBranch DefaultBranch);
  if nonempty diff then
    _ ← invoke (CMergeBranch application cluster DefaultBranch GitOpsBranch)
          (fun w => ClusterGitRepo.MergeBranch (clusterGitRepo c) w application cluster
                      DefaultBranch GitOpsBranch);
    mret tt
  else mret tt.

(** [perror.Wrapf(herror.ErrParamInvalid, "cluster template %s does not
    support upgrade", name)] *)
Definition ErrNotSupportUpgrade (name : string) : error :=
  ErrParamInvalid ("cluster template " ++ name ++ " does not support upgrade").

(** The parameter of step 4 (lines 49-55). *)
Definition upgradeParam (application : Application.t) (cluster : Cluster.t)
    (templateFromFile : ClusterTemplate.t) (targetRelease : option TemplateRelease.t)
    (targetTemplate : UpgradeTarget.t) : UpgradeValuesParam.t :=
  UpgradeValuesParam.mk (Application.Name application) (Cluster.Name cluster) templateFromFile
    targetRelease (UpgradeTarget.BuildConfig targetTemplate).

Definition UpgradeToV2 (c : controller) (clusterID : nat) : M string :=
  (* 1. validate infos *)
  cluster ← query (CClusterGetByID clusterID)
              (fun w => ClusterManager.GetByID (clusterMgr c) w clusterID);
  application ← query (CApplicationGetByID (Cluster.ApplicationID cluster))
                  (fun w => ApplicationManager.GetByID (applicationMgr c) w
                              (Cluster.ApplicationID cluster));
  templateFromFile ← query (CGetClusterTemplate (Application.Name application) (Cluster.Name cluster))
                       (fun w => ClusterGitRepo.GetClusterTemplate (clusterGitRepo c) w
                                   (Application.Name application) (Cluster.Name cluster));
  (* 2. match target templateFromFile *)
  match templateUpgradeMapper c !! ClusterTemplate.Name templateFromFile with
  | None => throw (ErrNotSupportUpgrade (ClusterTemplate.Name templateFromFile))
  | Some targetTemplate =>
      targetRelease ← query (CGetByTemplateNameAndRelease (UpgradeTarget.Name targetTemplate)
                               (UpgradeTarget.Release targetTemplate))
                        (fun w => TemplateReleaseManager.GetByTemplateNameAndRelease
                                    (templateReleaseMgr c) w (UpgradeTarget.Name targetTemplate)
                                    (UpgradeTarget.Release targetTemplate));
      (* 3. merge default branch into gitops branch if restarts occur *)
      _ ← mergeDefaultBranchIntoGitOps c (Application.Name application) (Cluster.Name cluster);
      (* 4. upgrade git repo files to v2 *)
      let param := upgradeParam application cluster templateFromFile targetRelease targetTemplate in
      newCommit ← invoke (CUpgradeValuesFiles param)
                    (fun w => ClusterGitRepo.UpgradeValuesFiles (clusterGitRepo c) w param);
      (* 5. update template in db: targetRelease is dereferenced here *)
      match targetRelease with
      | None => throw ErrNilDeref
      | Some tr =>
          let cluster' := Cluster.set_template cluster (TemplateRelease.TemplateName tr)
                            (TemplateRelease.Name tr) in
          _ ← invoke (CClusterUpdateByID clusterID cluster')
                (fun w => ClusterManager.UpdateByID (clusterMgr c) w clusterID cluster');
          mret newCommit
      end
  end.
End Upgrade.

(** ** Properties over any collaborators *)

Ltac up_unfold := unfold UpgradeToV2, mergeDefaultBranchIntoGitOps.
Ltac up_red_in H :=
  unfold UpgradeToV2, mergeDefaultBranchIntoGitOps, upgradeParam in H; st_red_in H.

Section UpgradeProofs.
Context {W : Type}.
Implicit Types (c : controller (W:=W)) (w : W).

(** C1: the database row is written only as the very last call, right
    after the values-file commit, once that commit has succeeded, and it
    carries the template and release of the target release passed to the
    commit: Git is never behind the database. *)
Theorem UpgradeToV2_db_after_commit c clusterID w r s' cid cl' :
  run (UpgradeToV2 c clusterID) w = (r, s') ->
  CClusterUpdateByID cid cl' ∈ trace s' ->
  exists t p tr w1 w2 commit,
    trace s' = t ++ [CUpgradeValuesFiles p; CClusterUpdateByID cid cl'] /\
    ClusterGitRepo.UpgradeValuesFiles (clusterGitRepo c) w1 p = (Ok commit, w2) /\
    UpgradeValuesParam.TargetRelease p = Some tr /\
    Cluster.Template cl' = TemplateRelease.TemplateName tr /\
    Cluster.TemplateRelease cl' = TemplateRelease.Name tr.
Proof.
  intros Hrun Hin. exists (take (List.length (trace s') - 2) (trace s')).
  up_red_in Hrun. st_split Hrun; injection Hrun as <- <-.
  all: apply list_elem_of_In in Hin; cbn in Hin |- *.
  all: repeat match type of Hin with _ \/ _ => destruct Hin as [Hin|Hin] end;
       try discriminate; try contradiction.
  all: injection Hin as <- <-; do 5 eexists; split; [reflexivity|]; eauto.
Qed.

(** C5: a template the upgrade table does not list is refused with
    "cluster template <name> does not support upgrade" after the three
    reads: nothing is merged, committed or written. *)
Theorem UpgradeToV2_unsupported_template c clusterID w cl app tf :
  ClusterManager.GetByID (clusterMgr c) w clusterID = Ok cl ->
  ApplicationManager.GetByID (applicationMgr c) w (Cluster.ApplicationID cl) = Ok app ->
  ClusterGitRepo.GetClusterTemplate (clusterGitRepo c) w (Application.Name app) (Cluster.Name cl)
    = Ok tf ->
  templateUpgradeMapper c !! ClusterTemplate.Name tf = None ->
  run (UpgradeToV2 c clusterID) w =
    (Error (ErrNotSupportUpgrade (ClusterTemplate.Name tf)),
     mk_sys w [CClusterGetByID clusterID; CApplicationGetByID (Cluster.ApplicationID cl);
               CGetClusterTemplate (Application.Name app) (Cluster.Name cl)]).
Proof. intros. up_unfold. st_red. st_rewrite. reflexivity. Qed.

(** C6: with no drift between the branches, a migration whose every step
    succeeds returns the commit of the rewritten values files, makes the
    seven calls in the code's order, and leaves the world the database
    update produced. *)
Theorem UpgradeToV2_ok c clusterID w cl app tf tt tr commit w1 cl'' w2 :
  ClusterManager.GetByID (clusterMgr c) w clusterID = Ok cl ->
  ApplicationManager.GetByID (applicationMgr c) w (Cluster.ApplicationID cl) = Ok app ->
  ClusterGitRepo.GetClusterTemplate (clusterGitRepo c) w (Application.Name app) (Cluster.Name cl)
    = Ok tf ->
  templateUpgradeMapper c !! ClusterTemplate.Name tf = Some tt ->
  TemplateReleaseManager.GetByTemplateNameAndRelease (templateReleaseMgr c) w
    (UpgradeTarget.Name tt) (UpgradeTarget.Release tt) = Ok (Some tr) ->
  ClusterGitRepo.CompareConfig (clusterGitRepo c) w (Application.Name app) (Cluster.Name cl)
    GitOpsBranch DefaultBranch = Ok ""%string ->
  ClusterGitRepo.UpgradeValuesFiles (clusterGitRepo c) w (upgradeParam app cl tf (Some tr) tt)
    = (Ok commit, w1) ->
  ClusterManager.UpdateByID (clusterMgr c) w1 clusterID
    (Cluster.set_template cl (TemplateRelease.TemplateName tr) (TemplateRelease.Name tr))
    = (Ok cl'', w2) ->
  run (UpgradeToV2 c clusterID) w =
    (Ok commit,
     mk_sys w2 [CClusterGetByID clusterID; CApplicationGetByID (Cluster.ApplicationID cl);
                CGetClusterTemplate (Application.Name app) (Cluster.Name cl);
                CGetByTemplateNameAndRelease (UpgradeTarget.Name tt) (UpgradeTarget.Release tt);
                CCompareConfig (Application.Name app) (Cluster.Name cl) GitOpsBranch DefaultBranch;
                CUpgradeValuesFiles (upgradeParam app cl tf (Some tr) tt);
                CClusterUpdateByID clusterID
                  (Cluster.set_template cl (TemplateRelease.TemplateName tr)
                     (TemplateRelease.Name tr))]).
Proof. intros. up_unfold. st_red. st_rewrite. reflexivity. Qed.

(** C28: when the target release is missing and the release manager says
    so with [nil, nil] (as the schema getter expects it may), the values
    files are still rewritten and committed with a nil target release,
    and the method then panics on [targetRelease.TemplateName]: the commit
    is made, the database row is not written. *)
Theorem UpgradeToV2_missing_release_commits_then_panics c clusterID w cl app tf tt commit w1 :
  ClusterManager.GetByID (clusterMgr c) w clusterID = Ok cl ->
  ApplicationManager.GetByID (applicationMgr c) w (Cluster.ApplicationID cl) = Ok app ->
  ClusterGitRepo.GetClusterTemplate (clusterGitRepo c) w (Application.Name app) (Cluster.Name cl)
    = Ok tf ->
  templateUpgradeMapper c !! ClusterTemplate.Name tf = Some tt ->
  TemplateReleaseManager.GetByTemplateNameAndRelease (templateReleaseMgr c) w
    (UpgradeTarget.Name tt) (UpgradeTarget.Release tt) = Ok None ->
  ClusterGitRepo.CompareConfig (clusterGitRepo c) w (Application.Name app) (Cluster.Name cl)
    GitOpsBranch DefaultBranch = Ok ""%string ->
  ClusterGitRepo.UpgradeValuesFiles (clusterGitRepo c) w (upgradeParam app cl tf None tt)
    = (Ok commit, w1) ->
  run (UpgradeToV2 c clusterID) w =
    (Error ErrNilDeref,
     mk_sys w1 [CClusterGetByID clusterID; CApplicationGetByID (Cluster.ApplicationID cl);
                CGetClusterTemplate (Application.Name app) (Cluster.Name cl);
                CGetByTemplateNameAndRelease (UpgradeTarget.Name tt) (UpgradeTarget.Release tt);
                CCompareConfig (Application.Name app) (Cluster.Name cl) GitOpsBranch DefaultBranch;
                CUpgradeValuesFiles (upgradeParam app cl tf None tt)]).
Proof. intros. up_unfold. st_red. st_rewrite. reflexivity. Qed.
End UpgradeProofs.

(** ** An in-memory world

    The database rows of clusters, applications and template releases, and
    one GitOps repository per (application, cluster): the template its files
    declare, the number of commits on the gitops branch, and whether the
    default branch has changes (a restart) not yet merged into it.  The
    collaborators follow the contracts of the specification. *)

Record Repo : Type := mk_repo {
  repo_template : ClusterTemplate.t;
  repo_commits : nat;
  repo_drift : bool
}.

Record UWorld : Type := mk_uworld {
  u_clusters : gmap nat Cluster.t;
  u_apps : gmap nat Application.t;
  u_releases : gmap (string * string) TemplateRelease.t;
  u_repos : gmap (string * string) Repo
}.

Definition commit_id (n : nat) : string := "commit-" ++ pretty n.

Definition with_repos (w : UWorld) (r : gmap (string * string) Repo) : UWorld :=
  mk_uworld (u_clusters w) (u_apps w) (u_releases w) r.

(** Commit on the gitops branch of a repository, changing what [f] says. *)
Definition u_commit (w : UWorld) (key : string * string) (f : Repo -> Repo) : result string error * UWorld :=
  match u_repos w !! key with
  | Some r =>
      let r' := f r in
      let n := S (repo_commits r) in
      (Ok (commit_id n), with_repos w (<[key := mk_repo (repo_template r') n (repo_drift r')]> (u_repos w)))
  | None => (Error (ErrNotFound "gitops repository"), w)
  end.

Definition u_clusterMgr : ClusterManager.t UWorld :=
  {| ClusterManager.GetByID := fun w id =>
       match u_clusters w !! id with Some cl => Ok cl | None => Error (ErrNotFound "cluster") end;
     ClusterManager.UpdateByID := fun w id cl =>
       match u_clusters w !! id with
       | Some _ => (Ok cl, mk_uworld (<[id := cl]> (u_clusters w)) (u_apps w) (u_releases w) (u_repos w))
       | None => (Error (ErrNotFound "cluster"), w)
       end |}.

Definition u_applicationMgr : ApplicationManager.t UWorld :=
  {| ApplicationManager.GetByID := fun w id =>
       match u_apps w !! id with Some a => Ok a | None => Error (ErrNotFound "application") end |}.

Definition u_templateReleaseMgr : TemplateReleaseManager.t UWorld :=
  {| TemplateReleaseManager.GetByTemplateNameAndRelease := fun w t r => Ok (u_releases w !! (t, r)) |}.

Definition u_clusterGitRepo : ClusterGitRepo.t UWorld :=
  {| ClusterGitRepo.GetClusterTemplate := fun w app cl =>
       match u_repos w !! (app, cl) with
       | Some r => Ok (repo_template r) | None => Error (ErrNotFound "gitops repository") end;
     ClusterGitRepo.CompareConfig := fun w app cl from to =>
       match u_repos w !! (app, cl) with
       | Some r =>
           if bool_decide (from = GitOpsBranch /\ to = DefaultBranch) && repo_drift r
           then Ok "drift"%string else Ok ""%string
       | None => Error (ErrNotFound "gitops repository")
       end;
     ClusterGitRepo.MergeBranch := fun w app cl _ _ =>
       u_commit w (app, cl) (fun r => mk_repo (repo_template r) (repo_commits r) false);
     ClusterGitRepo.UpgradeValuesFiles := fun w p =>
       match UpgradeValuesParam.TargetRelease p with
       | Some tr =>
           u_commit w (UpgradeValuesParam.Application p, UpgradeValuesParam.Cluster p)
             (fun r => mk_repo (ClusterTemplate.mk (TemplateRelease.TemplateName tr)
                                  (TemplateRelease.Name tr)) (repo_commits r) (repo_drift r))
       | None => (Error ErrNilDeref, w)
       end |}.

Definition u_controller (mapper : gmap string UpgradeTarget.t) : controller (W:=UWorld) :=
  mk_controller u_clusterMgr u_applicationMgr u_clusterGitRepo u_templateReleaseMgr mapper.

(** The scenario of the specification: cluster 1 on javaapp/v1 whose
    repository has an unmerged restart, and a table that routes javaapp to
    javaapp/v2 with build configuration "B". *)
Definition demo_cluster : Cluster.t := Cluster.mk 1 "demo-cluster" 1 1 "javaapp" "v1".
Definition demo_app : Application.t := Application.mk 1 "demo-app".
Definition javaapp_v2 : TemplateRelease.t :=
  TemplateRelease.mk "javaapp" "v2" "control" "helm-template/javaapp".
Definition demo_mapper : gmap string UpgradeTarget.t :=
  {[ "javaapp"%string := UpgradeTarget.mk "javaapp" "v2" "B" ]}.
Definition demo_world : UWorld :=
  mk_uworld {[ 1 := demo_cluster ]} {[ 1 := demo_app ]} {[ ("javaapp", "v2")%string := javaapp_v2 ]}
    {[ ("demo-app", "demo-cluster")%string :=
         mk_repo (ClusterTemplate.mk "javaapp" "v1") 5 true ]}.

(** The end-to-end scenario of the specification: the migration of
    cluster 1 merges the default branch into the gitops branch once, commits
    the rewritten values files once (commit 7, after the merge's commit 6,
    the previous head being 5), and only then writes javaapp/v2 into the
    cluster row; the repository then declares javaapp/v2 and has no drift. *)
Theorem UpgradeToV2_scenario :
  let '(r, s) := run (UpgradeToV2 (u_controller demo_mapper) 1) demo_world in
  r = Ok (commit_id 7) /\
  trace s = [CClusterGetByID 1; CApplicationGetByID 1;
             CGetClusterTemplate "demo-app" "demo-cluster";
             CGetByTemplateNameAndRelease "javaapp" "v2";
             CCompareConfig "demo-app" "demo-cluster" GitOpsBranch DefaultBranch;
             CMergeBranch "demo-app" "demo-cluster" DefaultBranch GitOpsBranch;
             CUpgradeValuesFiles (UpgradeValuesParam.mk "demo-app" "demo-cluster"
                                    (ClusterTemplate.mk "javaapp" "v1") (Some javaapp_v2) "B");
             CClusterUpdateByID 1 (Cluster.set_template demo_cluster "javaapp" "v2")] /\
  u_clusters (world s) !! 1 = Some (Cluster.set_template demo_cluster "javaapp" "v2") /\
  u_repos (world s) !! ("demo-app", "demo-cluster")%string =
    Some (mk_repo (ClusterTemplate.mk "javaapp" "v2") 7 false).
Proof. vm_compute. repeat split. Qed.

(** ** Witnesses *)

Definition demo_target : UpgradeTarget.t := UpgradeTarget.mk "javaapp" "v2" "B".
Definition demo_tf : ClusterTemplate.t := ClusterTemplate.mk "javaapp" "v1".

(** The scenario without the unmerged restart. *)
Definition demo_world_clean : UWorld :=
  with_repos demo_world {[ ("demo-app", "demo-cluster")%string := mk_repo demo_tf 5 false ]}.

(** A repository that commits even when the target release is nil. *)
Definition lenient_gitRepo : ClusterGitRepo.t UWorld :=
  {| ClusterGitRepo.GetClusterTemplate := ClusterGitRepo.GetClusterTemplate u_clusterGitRepo;
     ClusterGitRepo.CompareConfig := ClusterGitRepo.CompareConfig u_clusterGitRepo;
     ClusterGitRepo.MergeBranch := ClusterGitRepo.MergeBranch u_clusterGitRepo;
     ClusterGitRepo.UpgradeValuesFiles := fun w p =>
       u_commit w (UpgradeValuesParam.Application p, UpgradeValuesParam.Cluster p) (fun r => r) |}.

(** A table that routes javaapp to a release that does not exist. *)
Definition missing_mapper : gmap string UpgradeTarget.t :=
  {[ "javaapp"%string := UpgradeTarget.mk "javaapp" "v3" "B" ]}.
Definition lenient_controller : controller (W:=UWorld) :=
  mk_controller u_clusterMgr u_applicationMgr lenient_gitRepo u_templateReleaseMgr missing_mapper.

Lemma UpgradeToV2_db_after_commit_witness :
  exists t p tr w1 w2 commit,
    trace (snd (run (UpgradeToV2 (u_controller demo_mapper) 1) demo_world)) =
      t ++ [CUpgradeValuesFiles p; CClusterUpdateByID 1 (Cluster.set_template demo_cluster "javaapp" "v2")] /\
    ClusterGitRepo.UpgradeValuesFiles u_clusterGitRepo w1 p = (Ok commit, w2) /\
    UpgradeValuesParam.TargetRelease p = Some tr /\
    Cluster.Template (Cluster.set_template demo_cluster "javaapp" "v2") = TemplateRelease.TemplateName tr /\
    Cluster.TemplateRelease (Cluster.set_template demo_cluster "javaapp" "v2") = TemplateRelease.Name tr.
Proof.
  apply (UpgradeToV2_db_after_commit (u_controller demo_mapper) 1 demo_world
           (fst (run (UpgradeToV2 (u_controller demo_mapper) 1) demo_world))
           (snd (run (UpgradeToV2 (u_controller demo_mapper) 1) demo_world))).
  - wit_hyp.
  - apply list_elem_of_In. vm_compute. tauto.
Defined.

Lemma UpgradeToV2_unsupported_template_witness :
  run (UpgradeToV2 (u_controller ∅) 1) demo_world =
    (Error (ErrNotSupportUpgrade "javaapp"),
     mk_sys demo_world [CClusterGetByID 1; CApplicationGetByID 1;
                        CGetClusterTemplate "demo-app" "demo-cluster"]).
Proof.
  apply (UpgradeToV2_unsupported_template (u_controller ∅) 1 demo_world demo_cluster demo_app demo_tf);
    wit_hyp.
Defined.

Lemma UpgradeToV2_ok_witness :
  let param := upgradeParam demo_app demo_cluster demo_tf (Some javaapp_v2) demo_target in
  let cl' := Cluster.set_template demo_cluster "javaapp" "v2" in
  let w1 := snd (ClusterGitRepo.UpgradeValuesFiles u_clusterGitRepo demo_world_clean param) in
  run (UpgradeToV2 (u_controller demo_mapper) 1) demo_world_clean =
    (Ok (commit_id 6),
     mk_sys (snd (ClusterManager.UpdateByID u_clusterMgr w1 1 cl'))
       [CClusterGetByID 1; CApplicationGetByID 1; CGetClusterTemplate "demo-app" "demo-cluster";
        CGetByTemplateNameAndRelease "javaapp" "v2";
        CCompareConfig "demo-app" "demo-cluster" GitOpsBranch DefaultBranch;
        CUpgradeValuesFiles param; CClusterUpdateByID 1 cl']).
Proof.
  intros param cl' w1.
  apply (UpgradeToV2_ok (u_controller demo_mapper) 1 demo_world_clean demo_cluster demo_app demo_tf
           demo_target javaapp_v2 (commit_id 6) w1 cl'); wit_hyp.
Defined.

Lemma UpgradeToV2_missing_release_commits_then_panics_witness :
  let param := upgradeParam demo_app demo_cluster demo_tf None
                 (UpgradeTarget.mk "javaapp" "v3" "B") in
  run (UpgradeToV2 lenient_controller 1) demo_world_clean =
    (Error ErrNilDeref,
     mk_sys (snd (ClusterGitRepo.UpgradeValuesFiles lenient_gitRepo demo_world_clean param))
       [CClusterGetByID 1; CApplicationGetByID 1; CGetClusterTemplate "demo-app" "demo-cluster";
        CGetByTemplateNameAndRelease "javaapp" "v3";
        CCompareConfig "demo-app" "demo-cluster" GitOpsBranch DefaultBranch;
        CUpgradeValuesFiles param]).
Proof.
  intros param.
  apply (UpgradeToV2_missing_release_commits_then_panics lenient_controller 1 demo_world_clean
           demo_cluster demo_app demo_tf (UpgradeTarget.mk "javaapp" "v3" "B") (commit_id 6));
    wit_hyp.
Defined.
