(* ===== verification/TemplateSchema.v ===== *)
(** * Template schemas (src/pkg/templaterelease/schema/schema.go)

    [GetTemplateSchema] resolves a template release, gets the GitLab client
    of the release, then starts four goroutines that each read one schema
    file into its own pair of variables ([pipelineSchemaBytes, err1], ...),
    waits for all of them, returns the first non-nil error in the order
    err1 .. err4, and does the same for the four JSON decodings.  The four
    pairs of variables are the four slots of a list; the order in which the
    Go scheduler runs the goroutines is an argument ([sched] for the reads,
    [sched2] for the decodings), any permutation of 0..3.

    [json.Unmarshal] is a library the code only calls: it is a parameter
    [Unmarshal] of the section, as are the type [JSON] of a decoded
    [map[string]interface{}] and its zero value [json_nil] (a nil map).

    The two rounds are also given as WaitGroup rounds of WaitGroup.v
    ([wgReadFile_start], [wgUnmarshal_start]).  The theorem on them shows
    that every execution the scheduler may choose can still release
    [Wait], and that [Wait] then returns the slots of some schedule: the
    schedule arguments of [GetTemplateSchema] cover every execution.

    [SchemaTest] holds the mocks of schema_test.go.  The witnesses of the
    release-found and release-not-found theorems are that test's two
    cases, evaluated on the model. *)

From stdpp Require Import base list strings list_numbers relations.
From Stdlib Require Import String.
From S2P Require Import Prelude Model Collaborators WaitGroup.

Module Schema.
Record t (J : Type) : Type := mk { JSONSchema : J; UISchema : J }.
Arguments mk {J} _ _. Arguments JSONSchema {J} _. Arguments UISchema {J} _.
End Schema.

Module Schemas.
Record t (J : Type) : Type := mk { Application : Schema.t J; Pipeline : Schema.t J }.
Arguments mk {J} _ _. Arguments Application {J} _. Arguments Pipeline {J} _.
End Schemas.

(** The four files, in the order of [err1 .. err4] (lines 38-42, 89-92). *)
Definition _pipelineSchemaPath : string := "schema/pipeline.schema.json".
Definition _applicationSchemaPath : string := "schema/application.schema.json".
Definition _pipelineUISchemaPath : string := "schema/pipeline.ui.schema.json".
Definition _applicationUISchemaPath : string := "schema/application.ui.schema.json".
Definition schemaPaths : list string :=
  [_pipelineSchemaPath; _applicationSchemaPath; _pipelineUISchemaPath; _applicationUISchemaPath].

Definition _errCodeReleaseNotFound : string := "ReleaseNotFound".
Definition op_getTemplateSchema : string := "template service: getTemplateSchema".

(** [for _, err := range []error{err1, err2, err3, err4}]: the first non-nil. *)
Fixpoint firstErr (errs : list (option error)) : option error :=
  match errs with
  | [] => None
  | Some e :: _ => Some e
  | None :: rest => firstErr rest
  end.

Section Getter.
Context {W : Type} {JSON : Type} (json_nil : JSON)
        (Unmarshal : list Init.Byte.byte -> result JSON error).
Abbreviation M := (ST W Call error).

Record getter : Type := mk_getter {
  gitlabFactory : GitlabFactory.t W;
  templateReleaseMgr : TemplateReleaseManager.t W
}.

(** A read slot: the bytes and the error of one file. *)
Definition ReadSlot : Type := list Init.Byte.byte * option error.

(** [bytes, e := gitlabLib.GetFile(...); *b = bytes; *err = e] *)
Definition to_slot (r : result (list Init.Byte.byte) error) : ReadSlot :=
  match r with Ok b => (b, None) | Error e => ([], Some e) end.

(** The goroutine [readFile] of slot [i] (lines 83-88). *)
Definition readFile (lib : GitlabLib.t W) (tr : TemplateRelease.t) (i : nat) : M ReadSlot :=
  let path := default "" (schemaPaths !! i) in
  query (CGetFile (TemplateRelease.GitlabProject tr) (TemplateRelease.Name tr) path)
    (fun w => Ok (to_slot (GitlabLib.GetFile lib w (TemplateRelease.GitlabProject tr)
                             (TemplateRelease.Name tr) path))).

(** The four goroutines of step 1 run in the order [sched]; each writes
    its own slot; [wgReadFile.Wait()] returns the slots. *)
Fixpoint readFiles (lib : GitlabLib.t W) (tr : TemplateRelease.t) (sched : list nat)
    (slots : list ReadSlot) : M (list ReadSlot) :=
  match sched with
  | [] => mret slots
  | i :: rest =>
      sl ← readFile lib tr i;
      readFiles lib tr rest (<[i := sl]> slots)
  end.

(** A decoding slot: the map and the error variable it may overwrite. *)
Definition DecodeSlot : Type := JSON * option error.

(** The goroutine [unmarshal] of slot [i] (lines 105-110): the error
    variable is only written when decoding fails. *)
Definition unmarshal (bytes : list (list Init.Byte.byte)) (i : nat) (sl : DecodeSlot) : DecodeSlot :=
  match Unmarshal (default [] (bytes !! i)) with
  | Ok m => (m, sl.2)
  | Error e => (sl.1, Some e)
  end.

Definition GetTemplateSchema (g : getter) (sched sched2 : list nat)
    (templateName releaseName : string) : M (Schemas.t JSON) :=
  otr ← query (CGetByTemplateNameAndRelease templateName releaseName)
          (fun w => TemplateReleaseManager.GetByTemplateNameAndRelease (templateReleaseMgr g) w
                      templateName releaseName);
  match otr with
  | None =>
      throw (ErrOp op_getTemplateSchema
               (ErrHTTP 404 _errCodeReleaseNotFound
                  ("the release " ++ releaseName ++ " of template " ++ templateName
                   ++ " is not found")))
  | Some tr =>
      gitlabLib ← query (CGitlabGetByName (TemplateRelease.GitlabName tr))
                    (fun w => GitlabFactory.GetByName (gitlabFactory g) w
                                (TemplateRelease.GitlabName tr));
      (* 1. read file concurrently *)
      slots ← readFiles gitlabLib tr sched (replicate 4 ([], None));
      match firstErr (map snd slots) with
      | Some e => throw e
      | None =>
          (* 2. unmarshal concurrently *)
          let decoded := go_all (unmarshal (map fst slots)) sched2
                           (map (fun sl => (json_nil, sl.2)) slots) in
          match firstErr (map snd decoded) with
          | Some e => throw e
          | None =>
              let m := fun i => default json_nil (fst <$> decoded !! i) in
              mret (Schemas.mk (Schema.mk (m 1) (m 3)) (Schema.mk (m 0) (m 2)))
          end
      end
  end.
End Getter.

(** The two rounds as rounds of goroutines joined by a WaitGroup
    (WaitGroup.v): [wgReadFile.Add(4)] and the four [go readFile(...)]
    (lines 81-82, 89-92), [wgUnmarshal.Add(4)] and the four
    [go unmarshal(...)] (lines 102-103, 112-115).  Goroutine [i] writes
    slot [i], the variables of [err1 .. err4]. *)
Definition wgReadFile_start (slots : list ReadSlot) : fanout ReadSlot :=
  start 4 [0; 1; 2; 3] slots.

Definition wgUnmarshal_start {JSON} (slots : list (DecodeSlot (JSON:=JSON))) : fanout (DecodeSlot (JSON:=JSON)) :=
  start 4 [0; 1; 2; 3] slots.

(** ** Properties *)

(** [firstErr] returns the error of the first failing slot. *)
Lemma firstErr_first (l : list (option error)) j e :
  l !! j = Some (Some e) -> (forall k, k < j -> l !! k = Some None) -> firstErr l = Some e.
Proof.
  revert j. induction l as [|x l IH]; intros [|j] Hj Hbefore; try done.
  - by injection Hj as ->.
  - assert (x = None) as -> by (injection (Hbefore 0 ltac:(lia)); done).
    cbn. apply (IH j); [done|].
    intros k Hk. apply (Hbefore (S k)). lia.
Qed.

Lemma firstErr_None (l : list (option error)) : Forall (fun x => x = None) l -> firstErr l = None.
Proof. induction 1 as [|x l -> _ IH]; done. Qed.

Section GetterProofs.
Context {W : Type} {JSON : Type} (json_nil : JSON)
        (Unmarshal : list Init.Byte.byte -> result JSON error).
Implicit Types (g : getter (W:=W)) (w : W).

(** The slot goroutine [i] writes, in world [w]. *)
Definition readSlot (lib : GitlabLib.t W) (tr : TemplateRelease.t) (w : W) (i : nat) : ReadSlot :=
  to_slot (GitlabLib.GetFile lib w (TemplateRelease.GitlabProject tr) (TemplateRelease.Name tr)
             (default "" (schemaPaths !! i))).

Definition fileCall (tr : TemplateRelease.t) (i : nat) : Call :=
  CGetFile (TemplateRelease.GitlabProject tr) (TemplateRelease.Name tr) (default "" (schemaPaths !! i)).

(** Running the read goroutines in the order [sched] fills each slot of
    [sched] with its file, reads nothing else and changes nothing. *)
Lemma readFiles_spec lib tr sched (slots : list ReadSlot) s :
  readFiles lib tr sched slots s =
    (Ok (go_all (fun i _ => readSlot lib tr (world s) i) sched slots),
     mk_sys (world s) (trace s ++ map (fileCall tr) sched)).
Proof.
  revert slots s. induction sched as [|i sched IH]; intros slots [w t]; cbn.
  - by rewrite app_nil_r.
  - rewrite bind_unfold. unfold readFile. rewrite query_unfold. cbn [fst snd world trace].
    rewrite IH. cbn [world trace].
    unfold go_all. rewrite list_insert_alter, <- app_assoc. reflexivity.
Qed.

Local Abbreviation GTS := (GetTemplateSchema json_nil Unmarshal).
Abbreviation canonical := (seq 0 4).

Lemma sched_NoDup (sched : list nat) : sched ≡ₚ canonical -> NoDup sched.
Proof. intros ->. apply NoDup_seq. Qed.

(** Any two schedules of the goroutines give the outcome of running them
    in the order 0, 1, 2, 3. *)
Lemma GetTemplateSchema_canonical g sched sched2 t r w :
  sched ≡ₚ canonical -> sched2 ≡ₚ canonical ->
  fst (run (GTS g sched sched2 t r) w) = fst (run (GTS g canonical canonical t r) w).
Proof.
  intros H1 H2. unfold GetTemplateSchema, run. rewrite !bind_unfold, !query_unfold.
  cbn [fst snd world trace].
  destruct (TemplateReleaseManager.GetByTemplateNameAndRelease _ _ _ _) as [[tr|]|]; [|done|done].
  rewrite !bind_unfold, !query_unfold. cbn [fst snd world trace].
  destruct (GitlabFactory.GetByName _ _ _) as [lib|]; [|done].
  rewrite !bind_unfold, !readFiles_spec. cbn [world trace].
  rewrite (go_all_perm _ sched canonical), (go_all_perm _ sched2 canonical)
    by auto using sched_NoDup.
  destruct (firstErr _); [done|]. by destruct (firstErr _).
Qed.

(** After the four reads, slot [k] holds file [k]. *)
Lemma read_slots_lookup lib tr w k :
  k < 4 ->
  go_all (fun i _ => readSlot lib tr w i) canonical (replicate 4 ([], None)) !! k =
    Some (readSlot lib tr w k).
Proof.
  intros Hk. rewrite go_all_complete by done.
  rewrite lookup_replicate_2 by done. done.
Qed.

(** C12: the outcome of [GetTemplateSchema] does not depend on the order in
    which the Go scheduler runs the four read goroutines nor the four
    decoding goroutines: each writes only its own slot. *)
Theorem GetTemplateSchema_schedule_independent g sched sched2 sched' sched2' t r w :
  sched ≡ₚ canonical -> sched2 ≡ₚ canonical -> sched' ≡ₚ canonical -> sched2' ≡ₚ canonical ->
  fst (run (GTS g sched sched2 t r) w) = fst (run (GTS g sched' sched2' t r) w).
Proof.
  intros. rewrite (GetTemplateSchema_canonical g sched sched2),
    (GetTemplateSchema_canonical g sched' sched2'); done.
Qed.

(** C11: if any of the four reads fails, [GetTemplateSchema] fails and
    returns no schema; the error is the one of the first failing file in
    the order pipeline, application, pipeline UI, application UI, whatever
    the order in which the reads completed. *)
Theorem GetTemplateSchema_file_error g sched sched2 t r w tr lib j e :
  TemplateReleaseManager.GetByTemplateNameAndRelease (templateReleaseMgr g) w t r = Ok (Some tr) ->
  GitlabFactory.GetByName (gitlabFactory g) w (TemplateRelease.GitlabName tr) = Ok lib ->
  sched ≡ₚ canonical -> sched2 ≡ₚ canonical -> j < 4 ->
  (readSlot lib tr w j).2 = Some e ->
  (forall k, k < j -> (readSlot lib tr w k).2 = None) ->
  fst (run (GTS g sched sched2 t r) w) = Error e.
Proof.
  intros Hrel Hlib H1 H2 Hj He Hbefore. rewrite GetTemplateSchema_canonical by done.
  unfold GetTemplateSchema, run. rewrite !bind_unfold, !query_unfold. cbn [fst snd world trace].
  rewrite Hrel. cbn [fst snd world trace]. rewrite !bind_unfold, !query_unfold.
  cbn [fst snd world trace]. rewrite Hlib. cbn [fst snd world trace].
  rewrite bind_unfold, readFiles_spec. cbn [fst snd world trace].
  rewrite (firstErr_first _ j e); [done| |].
  - rewrite list_lookup_fmap, read_slots_lookup by done. cbn. by rewrite He.
  - intros k Hk. rewrite list_lookup_fmap, read_slots_lookup by lia. cbn. by rewrite Hbefore.
Qed.

(** C33: a release the manager does not find ([nil, nil]) is a 404
    [ReleaseNotFound] error naming the release and the template, after
    the single lookup (the case of schema_test.go). *)
Theorem GetTemplateSchema_release_not_found g sched sched2 t r w :
  TemplateReleaseManager.GetByTemplateNameAndRelease (templateReleaseMgr g) w t r = Ok None ->
  run (GTS g sched sched2 t r) w =
    (Error (ErrOp op_getTemplateSchema
              (ErrHTTP 404 _errCodeReleaseNotFound
                 ("the release " ++ r ++ " of template " ++ t ++ " is not found"))),
     mk_sys w [CGetByTemplateNameAndRelease t r]).
Proof. intros H. unfold GetTemplateSchema. st_red. st_rewrite. reflexivity. Qed.

(** C13: when the four files are read and decoded, the application schema
    is built from application.schema.json and application.ui.schema.json
    and the pipeline schema from pipeline.schema.json and
    pipeline.ui.schema.json, whatever the schedules. *)
Theorem GetTemplateSchema_ok g sched sched2 t r w tr lib b0 b1 b2 b3 m0 m1 m2 m3 :
  TemplateReleaseManager.GetByTemplateNameAndRelease (templateReleaseMgr g) w t r = Ok (Some tr) ->
  GitlabFactory.GetByName (gitlabFactory g) w (TemplateRelease.GitlabName tr) = Ok lib ->
  sched ≡ₚ canonical -> sched2 ≡ₚ canonical ->
  let get := GitlabLib.GetFile lib w (TemplateRelease.GitlabProject tr) (TemplateRelease.Name tr) in
  get _pipelineSchemaPath = Ok b0 -> get _applicationSchemaPath = Ok b1 ->
  get _pipelineUISchemaPath = Ok b2 -> get _applicationUISchemaPath = Ok b3 ->
  Unmarshal b0 = Ok m0 -> Unmarshal b1 = Ok m1 -> Unmarshal b2 = Ok m2 -> Unmarshal b3 = Ok m3 ->
  fst (run (GTS g sched sched2 t r) w) =
    Ok (Schemas.mk (Schema.mk m1 m3) (Schema.mk m0 m2)).
Proof.
  intros Hrel Hlib H1 H2 get; subst get; intros F0 F1 F2 F3 U0 U1 U2 U3.
  rewrite GetTemplateSchema_canonical by done.
  unfold GetTemplateSchema, run. rewrite !bind_unfold, !query_unfold. cbn [fst snd world trace].
  rewrite Hrel. cbn [fst snd world trace]. rewrite !bind_unfold, !query_unfold.
  cbn [fst snd world trace]. rewrite Hlib. cbn [fst snd world trace].
  rewrite bind_unfold, readFiles_spec. unfold readSlot, unmarshal.
  cbn -[_pipelineSchemaPath _applicationSchemaPath _pipelineUISchemaPath _applicationUISchemaPath].
  rewrite F0, F1, F2, F3. cbn. rewrite U0, U1, U2, U3. reflexivity.
Qed.
(** ** The WaitGroups of the two rounds *)

Lemma wg_rounds_start {A} (slots : list A) :
  start 4 [0; 1; 2; 3] slots = start (Z.of_nat (List.length canonical)) canonical slots.
Proof. reflexivity. Qed.

(** C14: [wgReadFile.Wait()] and [wgUnmarshal.Wait()] are always released,
    and only once the four goroutines of their round have run: whatever
    the Go scheduler does, every reachable state of a round can still
    reach the state where the counter is zero and no goroutine is pending.
    When [Wait] returns, nothing of the round is left to run, there was no
    panic, and the slots are those the model computes for some order of
    the goroutines: the reads are [readFiles] under a schedule, and the
    decodings are [go_all] of [unmarshal] under a schedule. *)
Theorem GetTemplateSchema_Wait_released lib tr w bytes slots0 slots0' st st' :
  let g := fun i (_ : ReadSlot) => readSlot lib tr w i in
  let h := unmarshal Unmarshal bytes in
  (rtc (fstep g) (wgReadFile_start slots0) st ->
   (exists slots, rtc (fstep g) st (Running (WaitGroup.mk 0) [] slots)) /\
   (forall slots, Wait st = Some slots ->
      (forall st'', ~ fstep g st st'') /\
      exists sched, sched ≡ₚ canonical /\
        forall s, world s = w -> fst (readFiles lib tr sched slots0 s) = Ok slots)) /\
  (rtc (fstep h) (wgUnmarshal_start slots0') st' ->
   (exists slots, rtc (fstep h) st' (Running (WaitGroup.mk 0) [] slots)) /\
   (forall slots, Wait st' = Some slots ->
      (forall st'', ~ fstep h st' st'') /\
      exists sched2, sched2 ≡ₚ canonical /\ slots = go_all h sched2 slots0')).
Proof.
  intros g h. unfold wgReadFile_start, wgUnmarshal_start.
  split; intros Hrtc; rewrite wg_rounds_start in Hrtc.
  - destruct (fanout_Wait_released g _ _ _ Hrtc) as [Hlive Hwait].
    split; [done|]. intros slots HW. destruct (Hwait slots HW) as [Hirr (sched & Hp & ->)].
    split; [done|]. exists sched. split; [done|]. intros s <-. by rewrite readFiles_spec.
  - exact (fanout_Wait_released h _ _ _ Hrtc).
Qed.

End GetterProofs.

(** ** Witnesses

    A getter over a world with nothing in it: release javaapp/v1.0.0 in
    GitLab "control" whose four files hold "{}", and release "broken" whose
    application UI file cannot be read; a decoding that fails on empty
    input. *)

Module Demo.
Definition brace : list Init.Byte.byte := [Init.Byte.x7b; Init.Byte.x7d].
Definition unmarshal_json (b : list Init.Byte.byte) : result (list Init.Byte.byte) error :=
  match b with [] => Error (ErrMsg "unexpected end of JSON input") | _ => Ok b end.
Definition release : TemplateRelease.t :=
  TemplateRelease.mk "javaapp" "v1.0.0" "control" "helm-template/javaapp".
Definition broken : TemplateRelease.t :=
  TemplateRelease.mk "javaapp" "broken" "control" "helm-template/javaapp".
Definition lib : GitlabLib.t unit :=
  {| GitlabLib.GetFile := fun _ _ ref path =>
       if String.eqb ref "broken" && String.eqb path _applicationUISchemaPath
       then Error (ErrBackend "404 File Not Found") else Ok brace |}.
Definition schema_getter : getter (W:=unit) :=
  {| gitlabFactory := {| GitlabFactory.GetByName := fun _ _ => Ok lib |};
     templateReleaseMgr := {| TemplateReleaseManager.GetByTemplateNameAndRelease := fun _ t r =>
       if String.eqb r "v1.0.0" then Ok (Some release)
       else if String.eqb r "broken" then Ok (Some broken) else Ok None |} |}.
End Demo.

(** The fixture of schema_test.go: the mocks of [Test] (lines 20-64).  A
    call the mocks do not expect fails the Go test; here it is the error
    [unexpected]. *)
Module SchemaTest.
Definition gitlabName : string := "control".
Definition templateName : string := "javaapp".
Definition releaseName : string := "v1.0.0".
Definition templateGitlabProject : string := "helm-template/javaapp".

Definition unexpected : error := ErrMsg "gomock: unexpected call".

(** [jsonSchema := `{"type": "object"}`] *)
Definition quote : string := String (Ascii.ascii_of_nat 34) EmptyString.
Definition jsonSchema : list Init.Byte.byte :=
  list_byte_of_string ("{" ++ quote ++ "type" ++ quote ++ ": " ++ quote ++ "object" ++ quote ++ "}").

Definition release : TemplateRelease.t :=
  TemplateRelease.mk templateName releaseName gitlabName templateGitlabProject.

Definition gitlabLib : GitlabLib.t unit :=
  {| GitlabLib.GetFile := fun _ project ref path =>
       if String.eqb project templateGitlabProject && String.eqb ref releaseName &&
          bool_decide (path ∈ schemaPaths)
       then Ok jsonSchema else Error unexpected |}.

Definition gitlabFty : GitlabFactory.t unit :=
  {| GitlabFactory.GetByName := fun _ name =>
       if String.eqb name gitlabName then Ok gitlabLib else Error unexpected |}.

Definition templateReleaseMgr : TemplateReleaseManager.t unit :=
  {| TemplateReleaseManager.GetByTemplateNameAndRelease := fun _ t r =>
       if String.eqb t templateName && String.eqb r releaseName then Ok (Some release)
       else if String.eqb t templateName && String.eqb r "release-not-exists" then Ok None
       else Error unexpected |}.

(** [g := &getter{...}] *)
Definition g : getter (W:=unit) := mk_getter gitlabFty templateReleaseMgr.
End SchemaTest.

Lemma GetTemplateSchema_schedule_independent_witness :
  fst (run (GetTemplateSchema [] Demo.unmarshal_json Demo.schema_getter [3; 1; 0; 2] [2; 0; 3; 1]
              "javaapp" "v1.0.0") tt) =
  fst (run (GetTemplateSchema [] Demo.unmarshal_json Demo.schema_getter [0; 1; 2; 3] [0; 1; 2; 3]
              "javaapp" "v1.0.0") tt).
Proof. apply GetTemplateSchema_schedule_independent; wit_hyp. Defined.

Lemma GetTemplateSchema_file_error_witness :
  fst (run (GetTemplateSchema [] Demo.unmarshal_json Demo.schema_getter [3; 2; 1; 0] [0; 1; 2; 3]
              "javaapp" "broken") tt) = Error (ErrBackend "404 File Not Found").
Proof.
  apply (GetTemplateSchema_file_error [] Demo.unmarshal_json Demo.schema_getter _ _ _ _ tt Demo.broken
           Demo.lib 3); try wit_hyp.
  intros k Hk. destruct k as [|[|[|k]]]; [wit_hyp..|lia].
Defined.

(** The second case of schema_test.go: release "release-not-exists". *)
Lemma GetTemplateSchema_release_not_found_witness :
  run (GetTemplateSchema [] Demo.unmarshal_json SchemaTest.g [0; 1; 2; 3] [0; 1; 2; 3]
         "javaapp" "release-not-exists") tt =
    (Error (ErrOp op_getTemplateSchema
              (ErrHTTP 404 _errCodeReleaseNotFound
                 ("the release " ++ "release-not-exists" ++ " of template " ++ "javaapp"
                  ++ " is not found"))),
     mk_sys tt [CGetByTemplateNameAndRelease "javaapp" "release-not-exists"]).
Proof. apply GetTemplateSchema_release_not_found; wit_hyp. Defined.

(** The first case of schema_test.go: with its mocks, release v1.0.0
    has the decoded [jsonSchema] in the four fields, here for goroutines
    run in the orders 1, 3, 0, 2 and 3, 2, 1, 0. *)
Lemma GetTemplateSchema_ok_witness :
  fst (run (GetTemplateSchema [] Demo.unmarshal_json SchemaTest.g [1; 3; 0; 2] [3; 2; 1; 0]
              SchemaTest.templateName SchemaTest.releaseName) tt) =
    Ok (Schemas.mk (Schema.mk SchemaTest.jsonSchema SchemaTest.jsonSchema)
                   (Schema.mk SchemaTest.jsonSchema SchemaTest.jsonSchema)).
Proof.
  apply (GetTemplateSchema_ok [] Demo.unmarshal_json SchemaTest.g _ _ _ _ tt SchemaTest.release
           SchemaTest.gitlabLib SchemaTest.jsonSchema SchemaTest.jsonSchema SchemaTest.jsonSchema
           SchemaTest.jsonSchema); wit_hyp.
Defined.

(** From its [Add(4)], the read round of release javaapp/v1.0.0 reaches
    the state where [wgReadFile.Wait()] returns. *)
Lemma GetTemplateSchema_Wait_released_witness :
  exists slots, rtc (fstep (fun i (_ : ReadSlot) => readSlot Demo.lib Demo.release tt i))
                  (wgReadFile_start (replicate 4 ([], None))) (Running (WaitGroup.mk 0) [] slots).
Proof.
  destruct (GetTemplateSchema_Wait_released Demo.unmarshal_json Demo.lib Demo.release tt []
              (replicate 4 ([], None)) (replicate 4 ([], None))
              (wgReadFile_start (replicate 4 ([], None))) (wgUnmarshal_start (replicate 4 ([], None))))
    as [Hread _].
  exact (proj1 (Hread (rtc_refl _ _))).
Defined.
