(* ===== verification/Config.v ===== *)
(** * The configuration loader (src/core/config/config.go)

    [LoadConfig] reads the configuration file, decodes it as YAML into a
    [Config], and then rewrites the two environment mappers: a key of
    [ArgoCDMapper] or [TektonMapper] may list several environments
    separated by commas, and each of them becomes a key of its own bound to
    the same value.  Reading the file and decoding YAML are I/O and a
    library; they are parameters.  Go's [range] over a map visits the
    entries in an unspecified order: the order is an argument, any
    permutation of the map's entries.

    [Split] is Go's [strings.Split(s, ",")], written from the standard
    library's contract: the pieces between the commas, an empty string
    giving one empty piece. *)

From stdpp Require Import base list strings gmap sets.
From Stdlib Require Import String Ascii.
From S2P Require Import Prelude Model.

(** [strings.Split(s, ",")] *)
Fixpoint Split (s : string) : list string :=
  match s with
  | EmptyString => [""%string]
  | String a s' =>
      let r := Split s' in
      if Ascii.eqb a ","%char then ""%string :: r
      else match r with
           | x :: rest => String a x :: rest
           | [] => [String a ""]
           end
  end.

Section Loader.
Context {ArgoCD Tekton Rest : Type}.

(** [config.Config]: the two mappers and the other sections, which
    [LoadConfig] passes through. *)
Record Config : Type := mk_config {
  ArgoCDMapper : gmap string ArgoCD;
  TektonMapper : gmap string Tekton;
  Others : Rest
}.

(** The loop of lines 56-62 (and 65-71): for each entry, in the order the
    map is ranged over, bind every comma-separated piece of the key. *)
Definition expandMapper {V} (entries : list (string * V)) : gmap string V :=
  foldl (fun acc kv => foldl (fun acc k => <[k := kv.2]> acc) acc (Split kv.1)) ∅ entries.

Definition LoadConfig (ReadFile : string -> result (list Init.Byte.byte) error)
    (Unmarshal : list Init.Byte.byte -> result Config error)
    (rangeArgoCD : gmap string ArgoCD -> list (string * ArgoCD))
    (rangeTekton : gmap string Tekton -> list (string * Tekton))
    (configFilePath : string) : result Config error :=
  match ReadFile configFilePath with
  | Error e => Error e
  | Ok data =>
      match Unmarshal data with
      | Error e => Error e
      | Ok config =>
          let config := mk_config (expandMapper (rangeArgoCD (ArgoCDMapper config)))
                          (TektonMapper config) (Others config) in
          Ok (mk_config (ArgoCDMapper config) (expandMapper (rangeTekton (TektonMapper config)))
                (Others config))
      end
  end.
End Loader.

(** ** Properties *)

(** No environment is listed by two keys of the mapper. *)
Definition keys_disjoint {V} (m : gmap string V) : Prop :=
  map_Forall (fun key1 _ => map_Forall (fun key2 _ =>
    key1 = key2 \/ Forall (fun k => k ∉ Split key2) (Split key1)) m) m.

#[export] Instance keys_disjoint_dec {V} (m : gmap string V) : Decision (keys_disjoint m).
Proof. unfold keys_disjoint. apply _. Defined.

Lemma keys_disjoint_unique {V} (m : gmap string V) k key1 key2 v1 v2 :
  keys_disjoint m -> m !! key1 = Some v1 -> m !! key2 = Some v2 ->
  k ∈ Split key1 -> k ∈ Split key2 -> key1 = key2.
Proof.
  intros Hd H1 H2 Hk1 Hk2. destruct (Hd key1 v1 H1 key2 v2 H2) as [|HF]; [done|].
  rewrite Forall_forall in HF. by destruct (HF k Hk1).
Qed.

Section ExpandProofs.
Context {V : Type}.
Implicit Types (l : list (string * V)) (m : gmap string V).

(** The entries whose key lists the environment [k]. *)
Local Abbreviation binds k := (fun kv : string * V => k ∈ Split kv.1).

Lemma bind_all_lookup (acc : gmap string V) ks v k :
  foldl (fun acc k => <[k := v]> acc) acc ks !! k = if bool_decide (k ∈ ks) then Some v else acc !! k.
Proof.
  revert acc. induction ks as [|k' ks IH]; intros acc; cbn; [done|]. rewrite IH.
  destruct (decide (k' = k)) as [->|Hne].
  - rewrite lookup_insert_eq. by repeat case_bool_decide; set_solver.
  - rewrite lookup_insert_ne by done. by repeat case_bool_decide; set_solver.
Qed.

(** The environment [k] is bound to the value of the last entry, in the
    order of the [range], whose key lists it. *)
Lemma expandMapper_lookup l k :
  expandMapper l !! k = snd <$> last (filter (binds k) l).
Proof.
  unfold expandMapper. induction l as [|kv l IH] using rev_ind; [done|].
  rewrite foldl_app, filter_app, filter_cons, filter_nil. cbn [foldl].
  rewrite bind_all_lookup, IH. case_decide as Hk.
  - rewrite bool_decide_true by done. by rewrite last_app, last_cons.
  - rewrite bool_decide_false by done. by rewrite app_nil_r.
Qed.

(** When no two keys of [m] list the same environment, the entries that
    list [k] are at most one. *)
Lemma binds_at_most_one m l k :
  l ≡ₚ map_to_list m ->
  (forall key1 key2 v1 v2, m !! key1 = Some v1 -> m !! key2 = Some v2 ->
     k ∈ Split key1 -> k ∈ Split key2 -> key1 = key2) ->
  List.length (filter (binds k) l) <= 1.
Proof.
  intros Hl Hdis. assert (NoDup (filter (binds k) l)) as Hnd.
  { apply NoDup_filter. rewrite Hl. apply NoDup_map_to_list. }
  destruct (filter (binds k) l) as [|[k1 v1] [|[k2 v2] rest]] eqn:Hf; cbn; [lia|lia|].
  exfalso. assert ((k1, v1) ∈ filter (binds k) l /\ (k2, v2) ∈ filter (binds k) l)
    as [[H1 Hin1]%list_elem_of_filter [H2 Hin2]%list_elem_of_filter] by (rewrite Hf; set_solver).
  rewrite Hl, elem_of_map_to_list in Hin1, Hin2. cbn in H1, H2.
  pose proof (Hdis k1 k2 v1 v2 Hin1 Hin2 H1 H2) as <-. simplify_eq.
  apply NoDup_cons in Hnd as [Hnot _]. set_solver.
Qed.

(** Any entry can be put last in the range: its value then wins for every
    environment its key lists. *)
Lemma expandMapper_last_wins m key v k :
  m !! key = Some v -> k ∈ Split key ->
  exists l, l ≡ₚ map_to_list m /\ expandMapper l !! k = Some v.
Proof.
  intros Hkey Hk. apply elem_of_map_to_list, elem_of_Permutation in Hkey as [l' Hp].
  exists (l' ++ [(key, v)]). split.
  - rewrite Hp. solve_Permutation.
  - rewrite expandMapper_lookup, filter_app, filter_cons_True, filter_nil by done.
    by rewrite last_app, last_cons.
Qed.

Lemma expandMapper_lookup_Some m l k v :
  keys_disjoint m -> l ≡ₚ map_to_list m ->
  expandMapper l !! k = Some v <-> exists key, m !! key = Some v /\ k ∈ Split key.
Proof.
  intros Hd Hl. rewrite expandMapper_lookup.
  pose proof (binds_at_most_one m l k Hl ltac:(eauto using keys_disjoint_unique)) as Hlen.
  split.
  - intros ([key v'] & Hlast & Hv)%fmap_Some. cbn in Hv. subst v'. apply last_Some_elem_of in Hlast.
    apply list_elem_of_filter in Hlast as [Hk Hin]. rewrite Hl, elem_of_map_to_list in Hin. eauto.
  - intros (key & Hkey & Hk). assert ((key, v) ∈ filter (binds k) l) as Hin.
    { apply list_elem_of_filter. split; [done|]. rewrite Hl. by apply elem_of_map_to_list. }
    destruct (filter (binds k) l) as [|x [|y rest]]; cbn in Hlen |- *; [set_solver| |lia].
    apply list_elem_of_singleton in Hin as <-. done.
Qed.
End ExpandProofs.

Section LoadProofs.
Context {ArgoCD Tekton Rest : Type}.
Context (ReadFile : string -> result (list Init.Byte.byte) error)
        (Unmarshal : list Init.Byte.byte -> result (Config (ArgoCD:=ArgoCD) (Tekton:=Tekton) (Rest:=Rest)) error).
Implicit Types (rA : gmap string ArgoCD -> list (string * ArgoCD))
               (rT : gmap string Tekton -> list (string * Tekton)).

(** C19: when the file is read and decoded and no environment is listed by
    two keys of a mapper, [LoadConfig] binds each environment named in a
    comma-separated key to that key's value, and nothing else, in both
    mappers, and passes the other sections through unchanged. *)
Theorem LoadConfig_expands rA rT path data config :
  ReadFile path = Ok data -> Unmarshal data = Ok config ->
  rA (ArgoCDMapper config) ≡ₚ map_to_list (ArgoCDMapper config) ->
  rT (TektonMapper config) ≡ₚ map_to_list (TektonMapper config) ->
  keys_disjoint (ArgoCDMapper config) -> keys_disjoint (TektonMapper config) ->
  exists config', LoadConfig ReadFile Unmarshal rA rT path = Ok config' /\
    Others config' = Others config /\
    (forall env v, ArgoCDMapper config' !! env = Some v <->
       exists key, ArgoCDMapper config !! key = Some v /\ env ∈ Split key) /\
    (forall env v, TektonMapper config' !! env = Some v <->
       exists key, TektonMapper config !! key = Some v /\ env ∈ Split key).
Proof.
  intros Hread Hdec HA HT DA DT. unfold LoadConfig. rewrite Hread, Hdec.
  eexists. split; [reflexivity|]. cbn. split; [done|].
  split; intros env v; by apply expandMapper_lookup_Some.
Qed.

(** C30: when two keys of the Tekton mapper list the same environment,
    the value the environment gets depends on the order of the [range]:
    for each of the two keys there is an order of the map's entries under
    which [LoadConfig] binds the environment to that key's value. *)
Theorem LoadConfig_overlapping_keys_order_dependent rA path data config key1 key2 v1 v2 env :
  ReadFile path = Ok data -> Unmarshal data = Ok config ->
  TektonMapper config !! key1 = Some v1 -> TektonMapper config !! key2 = Some v2 ->
  env ∈ Split key1 -> env ∈ Split key2 ->
  exists l1 l2 c1 c2, l1 ≡ₚ map_to_list (TektonMapper config) /\
    l2 ≡ₚ map_to_list (TektonMapper config) /\
    LoadConfig ReadFile Unmarshal rA (fun _ => l1) path = Ok c1 /\
    LoadConfig ReadFile Unmarshal rA (fun _ => l2) path = Ok c2 /\
    TektonMapper c1 !! env = Some v1 /\ TektonMapper c2 !! env = Some v2.
Proof.
  intros Hread Hdec H1 H2 Hk1 Hk2. unfold LoadConfig. rewrite Hread, Hdec.
  destruct (expandMapper_last_wins _ _ _ _ H1 Hk1) as (l1 & Hp1 & Hl1).
  destruct (expandMapper_last_wins _ _ _ _ H2 Hk2) as (l2 & Hp2 & Hl2).
  exists l1, l2. do 2 eexists. by split_and!.
Qed.
End LoadProofs.

(** ** Witnesses *)

Module Demo.
Definition tekton : gmap string nat := {[ "dev,test"%string := 1; "prod"%string := 2 ]}.
Definition argocd : gmap string nat := {[ "dev"%string := 3 ]}.
Definition config : Config (ArgoCD:=nat) (Tekton:=nat) (Rest:=unit) := mk_config argocd tekton tt.
Definition ReadFile (path : string) : result (list Init.Byte.byte) error :=
  if String.eqb path "config.yaml" then Ok [] else Error (ErrBackend "no such file or directory").
Definition Unmarshal (_ : list Init.Byte.byte) : result (Config (ArgoCD:=nat) (Tekton:=nat) (Rest:=unit)) error :=
  Ok config.
(** A Tekton mapper whose keys "dev,test" and "test,prod" both list "test". *)
Definition tekton_overlap : gmap string nat := {[ "dev,test"%string := 1; "test,prod"%string := 2 ]}.
Definition Unmarshal_overlap (_ : list Init.Byte.byte) :
    result (Config (ArgoCD:=nat) (Tekton:=nat) (Rest:=unit)) error :=
  Ok (mk_config argocd tekton_overlap tt).
End Demo.

Lemma LoadConfig_expands_witness :
  exists config', LoadConfig Demo.ReadFile Demo.Unmarshal map_to_list map_to_list "config.yaml" = Ok config' /\
    Others config' = tt /\
    (forall env v, ArgoCDMapper config' !! env = Some v <->
       exists key, Demo.argocd !! key = Some v /\ env ∈ Split key) /\
    (forall env v, TektonMapper config' !! env = Some v <->
       exists key, Demo.tekton !! key = Some v /\ env ∈ Split key).
Proof.
  apply (LoadConfig_expands Demo.ReadFile Demo.Unmarshal map_to_list map_to_list "config.yaml" []
           Demo.config); try reflexivity.
  all: apply (bool_decide_unpack _); vm_compute; reflexivity.
Defined.

Lemma LoadConfig_overlapping_keys_order_dependent_witness :
  exists l1 l2 c1 c2, l1 ≡ₚ map_to_list Demo.tekton_overlap /\ l2 ≡ₚ map_to_list Demo.tekton_overlap /\
    LoadConfig Demo.ReadFile Demo.Unmarshal_overlap map_to_list (fun _ => l1) "config.yaml" = Ok c1 /\
    LoadConfig Demo.ReadFile Demo.Unmarshal_overlap map_to_list (fun _ => l2) "config.yaml" = Ok c2 /\
    TektonMapper c1 !! "test"%string = Some 1 /\ TektonMapper c2 !! "test"%string = Some 2.
Proof.
  apply (LoadConfig_overlapping_keys_order_dependent Demo.ReadFile Demo.Unmarshal_overlap map_to_list
           "config.yaml" [] (mk_config Demo.argocd Demo.tekton_overlap tt) "dev,test" "test,prod");
    try reflexivity; apply (bool_decide_unpack _); vm_compute; reflexivity.
Defined.
