(* ===== verification/HttpApi.v ===== *)
(** * HTTP handlers of the cluster tags and template schema tags

    src/core/http/api/v1/clustertag/apis.go and
    src/core/http/api/v1/templateschematag/apis.go: gin handlers that read
    the cluster id from the path with [strconv.ParseUint(s, 10, 0)], bind
    the JSON body for an update, call their controller and write one
    response.  A handler is a computation of the state/error/trace monad
    whose value is the response written into the gin context; the calls to
    the controller (and the error log line) are the trace.

    [ParseUint] is the Go standard library's [strconv.ParseUint] at base 10
    and bit size 0 ([IntSize] = 64 on the 64-bit platforms the server is
    built for), written from its source: the accumulator is a [uint64],
    its wrap-around on [n + d] is written out, and the scan stops at the
    first digit that overflows, before it sees the rest of the string.
    The texts of [err.Error()] and the binding of the body are library
    code: they are parameters.  Each package's [API] struct holds the
    controller its handlers call, and [NewAPI] builds it.

    The bounds theorem shows that no id outside [0, 2^64 - 1], and no id
    other than the path's decimal value, ever reaches a controller. *)

From stdpp Require Import base list strings.
From Stdlib Require Import String Ascii ZArith.
From S2P Require Import Prelude Model.

Local Open Scope Z_scope.

(** ** strconv.ParseUint(s, 10, 0) *)

(** [strconv.ErrSyntax] and [strconv.ErrRange] *)
Inductive NumErr : Type := ErrSyntax | ErrRange.

#[export] Instance NumErr_eq_dec : EqDecision NumErr.
Proof. solve_decision. Defined.

Definition IntSize : Z := 64.
Definition maxUint64 : Z := 2 ^ 64 - 1.
(** [cutoff = maxUint64/10 + 1] *)
Definition cutoff : Z := maxUint64 / 10 + 1.
(** [maxVal = 1<<bitSize - 1] *)
Definition maxVal : Z := 2 ^ IntSize - 1.

Definition digit (c : ascii) : option Z :=
  let k := Z.of_nat (nat_of_ascii c) in
  if (48 <=? k) && (k <=? 57) then Some (k - 48) else None.

(** The loop over the bytes of [s], from the accumulator [n]; letters are
    digits of value 10 .. 35 and refused as [d >= base], which gives the
    same error as any other byte. *)
Fixpoint parseDigits (n : Z) (s : string) : result Z NumErr :=
  match s with
  | EmptyString => Ok n
  | String c rest =>
      match digit c with
      | None => Error ErrSyntax
      | Some d =>
          if cutoff <=? n then Error ErrRange
          else
            let n := (n * 10) mod 2 ^ 64 in
            let n1 := (n + d) mod 2 ^ 64 in
            if (n1 <? n) || (maxVal <? n1) then Error ErrRange
            else parseDigits n1 rest
      end
  end.

Definition ParseUint (s : string) : result Z NumErr :=
  match s with
  | EmptyString => Error ErrSyntax
  | _ => parseDigits 0 s
  end.

(** The decimal value of a string of digits, and whether it is one. *)
Fixpoint all_digits (s : string) : bool :=
  match s with
  | EmptyString => true
  | String c rest => bool_decide (digit c <> None) && all_digits rest
  end.

Fixpoint horner (n : Z) (s : string) : Z :=
  match s with
  | EmptyString => n
  | String c rest => horner (n * 10 + default 0 (digit c)) rest
  end.

(** ** The gin context *)

(** What a handler writes into the context: [response.AbortWithRequestError],
    [response.AbortWithError], [response.AbortWithRPCError],
    [response.SuccessWithData] and [response.Success]. *)
Inductive RPCError : Type := ParamError | InternalError.

Inductive Response (D : Type) : Type :=
| RequestError (code : string) (msg : string)
| AbortError (e : error)
| RPCAbort (kind : RPCError) (msg : string)
| SuccessWithData (data : D)
| Success.
Arguments RequestError {D} _ _. Arguments AbortError {D} _. Arguments RPCAbort {D} _ _.
Arguments SuccessWithData {D} _. Arguments Success {D}.

(** [common.InvalidRequestParam], [common.InvalidRequestBody] *)
Definition InvalidRequestParam : string := "InvalidRequestParam".
Definition InvalidRequestBody : string := "InvalidRequestBody".

(** The calls a handler makes. *)
Inductive ApiCall : Type :=
| CTagList (clusterID : Z)
| CTagUpdate (clusterID : Z)
| CLogError (op : string).

(** The cluster id a call hands to the controller. *)
Definition api_call_id (call : ApiCall) : option Z :=
  match call with
  | CTagList id | CTagUpdate id => Some id
  | CLogError _ => None
  end.

Definition _clusterIDParam : string := "clusterID".

(** A request: [c.Param] of the path (the empty string when absent) and
    [c.ShouldBindJSON] of its body. *)
Record request (Req : Type) : Type := mk_request {
  Param : string -> string;
  ShouldBindJSON : result Req error
}.
Arguments Param {Req} _ _. Arguments ShouldBindJSON {Req} _.

(** The controller of the tags of a cluster: [List] and [Update]. *)
Record tagController (W Req Resp : Type) : Type := mk_tagController {
  List : W -> Z -> result Resp error;
  Update : W -> Z -> Req -> result unit error * W
}.
Arguments List {W Req Resp} _ _ _. Arguments Update {W Req Resp} _ _ _ _.

(** *** clustertag.API (lines 17-63) *)
Module ClusterTag.
(** [API] (lines 17-19) *)
Record API (W Req Resp : Type) : Type := mk_API { clusterTagCtl : tagController W Req Resp }.
Arguments mk_API {W Req Resp} _. Arguments clusterTagCtl {W Req Resp} _.

(** [NewAPI] (lines 21-25) *)
Definition NewAPI {W Req Resp} (clusterTagCtl : tagController W Req Resp) : API W Req Resp :=
  {| clusterTagCtl := clusterTagCtl |}.

Section Handlers.
Context {W Req Resp : Type}.
Abbreviation M := (ST W ApiCall error).

(** Library texts: [numError.Error()] of [strconv.ParseUint], the [Error()]
    of the errors the controllers return and of the JSON binding's errors. *)
Context (NumErrorText : string -> NumErr -> string) (ErrorText : error -> string)
        (BindErrorText : error -> string).
Implicit Types (a : API W Req Resp) (c : request Req).
Definition List a c : M (Response Resp) :=
  let clusterIDStr := Param c _clusterIDParam in
  match ParseUint clusterIDStr with
  | Error ne => mret (RequestError InvalidRequestParam (NumErrorText clusterIDStr ne))
  | Ok clusterID =>
      r ← query (CTagList clusterID) (fun w => Ok (List (clusterTagCtl a) w clusterID));
      match r with
      | Error err => mret (AbortError err)
      | Ok resp => mret (SuccessWithData resp)
      end
  end.

Definition Update a c : M (Response Resp) :=
  let clusterIDStr := Param c _clusterIDParam in
  match ParseUint clusterIDStr with
  | Error ne => mret (RequestError InvalidRequestParam (NumErrorText clusterIDStr ne))
  | Ok clusterID =>
      match ShouldBindJSON c with
      | Error err =>
          mret (RequestError InvalidRequestBody ("request body is invalid, err: " ++ BindErrorText err))
      | Ok req =>
          r ← invoke (CTagUpdate clusterID)
                (fun w => let '(r, w') := Update (clusterTagCtl a) w clusterID req in (Ok r, w'));
          match r with
          | Error err => mret (AbortError err)
          | Ok _ => mret Success
          end
      end
  end.
End Handlers.
End ClusterTag.

(** *** templateschematag.API (lines 16-80) *)
Module TemplateSchemaTag.
(** The package's own [_clusterIDParam] (lines 16-18). *)
Definition _clusterIDParam : string := "clusterID".

(** [API] (lines 20-22) *)
Record API (W Req Resp : Type) : Type := mk_API { templateSchemaTagCtl : tagController W Req Resp }.
Arguments mk_API {W Req Resp} _. Arguments templateSchemaTagCtl {W Req Resp} _.

(** [NewAPI] (lines 24-28) *)
Definition NewAPI {W Req Resp} (tagCtl : tagController W Req Resp) : API W Req Resp :=
  {| templateSchemaTagCtl := tagCtl |}.

Section Handlers.
Context {W Req Resp : Type}.
Abbreviation M := (ST W ApiCall error).

(** Library texts: [numError.Error()] of [strconv.ParseUint], the [Error()]
    of the errors the controllers return and of the JSON binding's errors. *)
Context (NumErrorText : string -> NumErr -> string) (ErrorText : error -> string)
        (BindErrorText : error -> string).
Implicit Types (a : API W Req Resp) (c : request Req).
Definition op_List : string := "template schema tag: list".
Definition op_Update : string := "template schema tag: update".

(** [perror.Cause(err) == herrors.ErrParamInvalid] *)
Definition isParamInvalid (err : error) : bool :=
  match Cause err with ErrParamInvalid _ => true | _ => false end.

(** The classification of a controller error (lines 42-48, 71-77). *)
Definition abortWith (op : string) (err : error) : M (Response Resp) :=
  if isParamInvalid err then mret (RPCAbort ParamError (ErrorText err))
  else
    _ ← query (CLogError op) (fun _ => Ok tt);
    mret (RPCAbort InternalError (ErrorText err)).

Definition List a c : M (Response Resp) :=
  let clusterIDStr := Param c _clusterIDParam in
  match ParseUint clusterIDStr with
  | Error _ => mret (RPCAbort ParamError ("invalid cluster id: " ++ clusterIDStr))
  | Ok clusterID =>
      r ← query (CTagList clusterID) (fun w => Ok (List (templateSchemaTagCtl a) w clusterID));
      match r with
      | Error err => abortWith op_List err
      | Ok resp => mret (SuccessWithData resp)
      end
  end.

Definition Update a c : M (Response Resp) :=
  let clusterIDStr := Param c _clusterIDParam in
  match ParseUint clusterIDStr with
  | Error _ => mret (RPCAbort ParamError ("invalid cluster id: " ++ clusterIDStr))
  | Ok clusterID =>
      match ShouldBindJSON c with
      | Error err =>
          mret (RPCAbort ParamError ("invalid body: " ++ clusterIDStr ++ ", err: " ++ BindErrorText err))
      | Ok req =>
          r ← invoke (CTagUpdate clusterID)
                (fun w => let '(r, w') := Update (templateSchemaTagCtl a) w clusterID req in (Ok r, w'));
          match r with
          | Error err => abortWith op_Update err
          | Ok _ => mret Success
          end
      end
  end.
End Handlers.
End TemplateSchemaTag.

(** ** strconv.ParseUint *)

Lemma maxVal_eq : maxVal = 18446744073709551615.
Proof. reflexivity. Qed.
Lemma cutoff_eq : cutoff = 1844674407370955162.
Proof. reflexivity. Qed.
Lemma pow64_eq : 2 ^ 64 = 18446744073709551616.
Proof. reflexivity. Qed.

Lemma digit_range c d : digit c = Some d -> 0 <= d <= 9.
Proof.
  unfold digit. destruct (_ && _) eqn:H; [|done]. intros [= <-].
  apply andb_true_iff in H as [H1 H2]. apply Z.leb_le in H1, H2. lia.
Qed.

(** [a mod 2^64] when [a] is at most one wrap-around away. *)
Lemma mod_wrap a : 2 ^ 64 <= a < 2 * 2 ^ 64 -> a mod 2 ^ 64 = a - 2 ^ 64.
Proof. intros H. symmetry. apply (Z.mod_unique a (2 ^ 64) 1); lia. Qed.

Lemma horner_ge n s : 0 <= n -> all_digits s = true -> n <= horner n s.
Proof.
  revert n. induction s as [|c s IH]; intros n Hn Hd; cbn in *; [lia|].
  apply andb_true_iff in Hd as [Hc Hd]. apply bool_decide_eq_true in Hc.
  destruct (digit c) as [d|] eqn:Hdc; [|done]. apply digit_range in Hdc. cbn.
  specialize (IH (n * 10 + d) ltac:(lia) Hd). lia.
Qed.

Lemma parseDigits_digits n s m : parseDigits n s = Ok m -> all_digits s = true.
Proof.
  revert n. induction s as [|c s IH]; intros n; cbn; [done|].
  destruct (digit c) as [d|]; [|done]. cbn.
  destruct (cutoff <=? n); [done|]. destruct (_ || _); [done|]. apply IH.
Qed.

(** On a string of digits, the scan from [n] returns the decimal value
    when it fits in 64 bits and [ErrRange] otherwise. *)
Lemma parseDigits_spec n s :
  0 <= n <= maxVal -> all_digits s = true ->
  parseDigits n s = if horner n s <=? maxVal then Ok (horner n s) else Error ErrRange.
Proof.
  revert n. induction s as [|c s IH]; intros n Hn Hd; cbn in *.
  { by rewrite (proj2 (Z.leb_le n maxVal)) by lia. }
  apply andb_true_iff in Hd as [Hc Hd]. apply bool_decide_eq_true in Hc.
  destruct (digit c) as [d|] eqn:Hdc; [|done]. apply digit_range in Hdc. cbn.
  pose proof (horner_ge (n * 10 + d) s ltac:(lia) Hd) as Hge.
  rewrite maxVal_eq, cutoff_eq, pow64_eq in *.
  destruct (Z.leb_spec 1844674407370955162 n).
  { rewrite (proj2 (Z.leb_nle _ _)) by lia. done. }
  rewrite (Z.mod_small (n * 10)) by lia.
  destruct (Z.leb_spec (n * 10 + d) 18446744073709551615).
  - rewrite Z.mod_small by lia.
    rewrite (proj2 (Z.ltb_nlt _ _)), (proj2 (Z.ltb_nlt _ _)) by lia. cbn.
    rewrite IH by (done || lia). done.
  - rewrite <- pow64_eq, mod_wrap, pow64_eq by (rewrite pow64_eq; lia).
    rewrite (proj2 (Z.ltb_lt _ _)) by lia. cbn.
    rewrite (proj2 (Z.leb_nle _ _)) by lia. done.
Qed.

(** The path parameters [ParseUint(s, 10, 0)] accepts: non-empty decimal
    strings whose value fits in 64 bits. *)
Definition valid_id (s : string) : bool :=
  bool_decide (s <> ""%string) && all_digits s && (horner 0 s <=? maxVal).

Lemma ParseUint_valid s : valid_id s = true -> ParseUint s = Ok (horner 0 s).
Proof.
  unfold valid_id. intros [[Hne Hd]%andb_true_iff Hle]%andb_true_iff.
  apply bool_decide_eq_true in Hne.
  destruct s as [|c s']; [done|]. unfold ParseUint.
  rewrite parseDigits_spec, Hle by first [done | rewrite maxVal_eq; lia]. done.
Qed.

Lemma ParseUint_invalid s : valid_id s = false -> exists ne, ParseUint s = Error ne.
Proof.
  intros Hv. destruct (ParseUint s) as [n|ne] eqn:Hp; [|eauto].
  exfalso. destruct s as [|c s']; [done|]. unfold ParseUint in Hp.
  pose proof (parseDigits_digits _ _ _ Hp) as Hd.
  rewrite parseDigits_spec in Hp by first [done | rewrite maxVal_eq; lia].
  unfold valid_id in Hv. rewrite bool_decide_true, Hd in Hv by done.
  destruct (horner 0 _ <=? maxVal); done.
Qed.

(** [strconv.ParseUint(s, 10, 0)] accepts exactly the non-empty
    decimal strings whose value fits in 64 bits, and returns that value:
    an id has at most 20 digits' worth of value below 2^64, and a longer
    or larger one is refused with [ErrRange], never wrapped around. *)
Theorem ParseUint_decimal_bounds s n :
  ParseUint s = Ok n <-> valid_id s = true /\ n = horner 0 s /\ 0 <= n <= maxVal.
Proof.
  split.
  - intros Hp. destruct (valid_id s) eqn:Hv.
    + rewrite ParseUint_valid in Hp by done. injection Hp as <-.
      unfold valid_id in Hv. apply andb_true_iff in Hv as [[_ Hd]%andb_true_iff Hle].
      apply Z.leb_le in Hle. pose proof (horner_ge 0 s ltac:(lia) Hd). lia.
    + destruct (ParseUint_invalid s Hv) as [ne Hne]. congruence.
  - intros (Hv & -> & _). by apply ParseUint_valid.
Qed.

Ltac api_red H :=
  first [ rewrite (ParseUint_valid _ H) | destruct (ParseUint_invalid _ H) as [?ne ->] ];
  cbn; st_red.

Section HandlerProofs.
Context {W Req Resp : Type}.
Context (NumErrorText : string -> NumErr -> string) (ErrorText : error -> string)
        (BindErrorText : error -> string).
Implicit Types (ctl : tagController W Req Resp) (c : request Req) (w : W).

(** Every id a handler's trace hands to the controller is the value
    [ParseUint] read from the path. *)
Lemma trace_ids_parsed (s : string) (calls : list ApiCall) :
  Forall (fun call => forall n, api_call_id call = Some n -> ParseUint s = Ok n) calls <->
  Forall (fun call => forall n, api_call_id call = Some n ->
            valid_id s = true /\ n = horner 0 s /\ 0 <= n <= maxUint64) calls.
Proof.
  apply Forall_iff. intros call. apply forall_proper. intros n.
  rewrite ParseUint_decimal_bounds, maxVal_eq. unfold maxUint64. cbn. tauto.
Qed.

Ltac trace_ids :=
  repeat (st_split_goal; cbn [trace snd app fst]);
  repeat constructor; cbn; intros ? [= <-]; reflexivity.

(** C15: the cluster-tag listing calls the controller exactly when the
    path's cluster id is a decimal number that fits in 64 bits, with that
    number, and answers with the controller's data or its error; any other
    id is a 400 [InvalidRequestParam] carrying the strconv error, and the
    controller is not called. *)
Theorem ClusterTag_List_spec ctl c w :
  let s := Param c _clusterIDParam in
  (valid_id s = true ->
     run (ClusterTag.List NumErrorText (ClusterTag.NewAPI ctl) c) w =
       (Ok (match List ctl w (horner 0 s) with
            | Ok resp => SuccessWithData resp | Error err => AbortError err end),
        mk_sys w [CTagList (horner 0 s)])) /\
  (valid_id s = false -> exists ne,
     run (ClusterTag.List NumErrorText (ClusterTag.NewAPI ctl) c) w =
       (Ok (RequestError InvalidRequestParam (NumErrorText s ne)), mk_sys w [])).
Proof.
  intros s. unfold ClusterTag.List. fold s.
  split; intros Hv; api_red Hv; [by destruct (List ctl w _)|eauto].
Qed.

(** C16: the cluster-tag update refuses an invalid id (400
    [InvalidRequestParam]) and then a body that does not bind (400
    [InvalidRequestBody]) without calling the controller; otherwise it
    calls [Update] once with the parsed id and the bound request, keeps
    the world the controller left, and answers [Success] or the
    controller's error. *)
Theorem ClusterTag_Update_spec ctl c w :
  let s := Param c _clusterIDParam in
  (valid_id s = false -> exists ne,
     run (ClusterTag.Update NumErrorText BindErrorText (ClusterTag.NewAPI ctl) c) w =
       (Ok (RequestError InvalidRequestParam (NumErrorText s ne)), mk_sys w [])) /\
  (valid_id s = true -> forall err, ShouldBindJSON c = Error err ->
     run (ClusterTag.Update NumErrorText BindErrorText (ClusterTag.NewAPI ctl) c) w =
       (Ok (RequestError InvalidRequestBody ("request body is invalid, err: " ++ BindErrorText err)),
        mk_sys w [])) /\
  (valid_id s = true -> forall req, ShouldBindJSON c = Ok req ->
     run (ClusterTag.Update NumErrorText BindErrorText (ClusterTag.NewAPI ctl) c) w =
       (Ok (match fst (Update ctl w (horner 0 s) req) with
            | Ok _ => Success | Error err => AbortError err end),
        mk_sys (snd (Update ctl w (horner 0 s) req)) [CTagUpdate (horner 0 s)])).
Proof.
  intros s. unfold ClusterTag.Update. fold s.
  split_and!; intros Hv; api_red Hv; eauto; intros ? ->; cbn; [done|].
  by destruct (Update ctl w _ _) as [[]].
Qed.

(** C17: the template-schema-tag listing classifies the controller's
    errors: an error whose cause is [ErrParamInvalid] is a [ParamError]
    with the error's text and nothing is logged; any other error is
    logged under the operation and is an [InternalError]; an invalid id is
    a [ParamError] "invalid cluster id: <id>" and the controller is not
    called. *)
Theorem TemplateSchemaTag_List_classifies ctl c w :
  let s := Param c TemplateSchemaTag._clusterIDParam in
  (valid_id s = false ->
     run (TemplateSchemaTag.List ErrorText (TemplateSchemaTag.NewAPI ctl) c) w =
       (Ok (RPCAbort ParamError ("invalid cluster id: " ++ s)), mk_sys w [])) /\
  (valid_id s = true -> forall err, List ctl w (horner 0 s) = Error err ->
     run (TemplateSchemaTag.List ErrorText (TemplateSchemaTag.NewAPI ctl) c) w =
       if TemplateSchemaTag.isParamInvalid err
       then (Ok (RPCAbort ParamError (ErrorText err)), mk_sys w [CTagList (horner 0 s)])
       else (Ok (RPCAbort InternalError (ErrorText err)),
             mk_sys w [CTagList (horner 0 s); CLogError TemplateSchemaTag.op_List])).
Proof.
  intros s. unfold TemplateSchemaTag.List. fold s.
  split; intros Hv; api_red Hv; [done|]. intros err ->. cbn.
  unfold TemplateSchemaTag.abortWith. by destruct (TemplateSchemaTag.isParamInvalid err).
Qed.
(** C34: the template-schema-tag update refuses an invalid id with the
    [ParamError] "invalid cluster id: <id>" and then a body that does not
    bind with the [ParamError] "invalid body: <id>, err: <error>", without
    calling the controller; otherwise it calls [Update] once with the
    parsed id, keeps the world the controller left, answers [Success] when
    the controller succeeds and classifies its error as the listing does:
    a [ParamError] when the cause is [ErrParamInvalid], else a logged
    [InternalError]. *)
Theorem TemplateSchemaTag_Update_spec ctl c w :
  let s := Param c TemplateSchemaTag._clusterIDParam in
  (valid_id s = false ->
     run (TemplateSchemaTag.Update ErrorText BindErrorText (TemplateSchemaTag.NewAPI ctl) c) w =
       (Ok (RPCAbort ParamError ("invalid cluster id: " ++ s)), mk_sys w [])) /\
  (valid_id s = true -> forall err, ShouldBindJSON c = Error err ->
     run (TemplateSchemaTag.Update ErrorText BindErrorText (TemplateSchemaTag.NewAPI ctl) c) w =
       (Ok (RPCAbort ParamError ("invalid body: " ++ s ++ ", err: " ++ BindErrorText err)),
        mk_sys w [])) /\
  (valid_id s = true -> forall req, ShouldBindJSON c = Ok req ->
     run (TemplateSchemaTag.Update ErrorText BindErrorText (TemplateSchemaTag.NewAPI ctl) c) w =
       match Update ctl w (horner 0 s) req with
       | (Ok _, w') => (Ok Success, mk_sys w' [CTagUpdate (horner 0 s)])
       | (Error err, w') =>
           if TemplateSchemaTag.isParamInvalid err
           then (Ok (RPCAbort ParamError (ErrorText err)), mk_sys w' [CTagUpdate (horner 0 s)])
           else (Ok (RPCAbort InternalError (ErrorText err)),
                 mk_sys w' [CTagUpdate (horner 0 s); CLogError TemplateSchemaTag.op_Update])
       end).
Proof.
  intros s. unfold TemplateSchemaTag.Update. fold s.
  split_and!; intros Hv; api_red Hv; [done| |]; intros ? ->; cbn; [done|].
  destruct (Update ctl w _ _) as [[|err] w']; cbn; [done|].
  unfold TemplateSchemaTag.abortWith. by destruct (TemplateSchemaTag.isParamInvalid err).
Qed.

(** C18: the four handlers pass the controller no id but the one the
    path spells: every call in their traces carries the decimal value of
    the path's [clusterID], and only when that text is a non-empty string
    of digits whose value lies in [0, 2^64 - 1].  A path id of [2^64] or
    more is refused; it never reaches the controller wrapped around. *)
Theorem Handlers_controller_id_bounds ctl c w :
  let s := Param c _clusterIDParam in
  Forall (fun call => forall n, api_call_id call = Some n ->
            valid_id s = true /\ n = horner 0 s /\ 0 <= n <= maxUint64)
    (trace (snd (run (ClusterTag.List NumErrorText (ClusterTag.NewAPI ctl) c) w)) ++
     trace (snd (run (ClusterTag.Update NumErrorText BindErrorText (ClusterTag.NewAPI ctl) c) w)) ++
     trace (snd (run (TemplateSchemaTag.List ErrorText (TemplateSchemaTag.NewAPI ctl) c) w)) ++
     trace (snd (run (TemplateSchemaTag.Update ErrorText BindErrorText
                        (TemplateSchemaTag.NewAPI ctl) c) w))).
Proof.
  intros s. apply trace_ids_parsed. rewrite !Forall_app.
  unfold ClusterTag.List, ClusterTag.Update, TemplateSchemaTag.List, TemplateSchemaTag.Update,
    TemplateSchemaTag.abortWith.
  change TemplateSchemaTag._clusterIDParam with _clusterIDParam. fold s.
  destruct (ParseUint s) as [id|ne]; st_red; [|by cbn; split_and!; apply Forall_nil].
  destruct (ShouldBindJSON c); split_and!; trace_ids.
Qed.

End HandlerProofs.

(** ** Witnesses

    A controller over no state that knows cluster 7 (tags ["env=prod"])
    and reports any other cluster as an invalid parameter; requests whose
    path carries a given id and whose body binds to a given value. *)
Module Demo.
Definition numText (s : string) (ne : NumErr) : string :=
  "strconv.ParseUint: parsing " ++ s ++ match ne with ErrSyntax => ": invalid syntax"
                                                      | ErrRange => ": value out of range" end.
Definition errText (e : error) : string := match Cause e with ErrParamInvalid m => m | _ => "internal" end.
Definition bindText (e : error) : string := "EOF".
Definition ctl : tagController unit string (list string) :=
  {| List := fun _ id => if Z.eqb id 7 then Ok ["env=prod"%string]
                         else Error (ErrOp "tag controller: list" (ErrParamInvalid "cluster not found"));
     Update := fun w id _ => if Z.eqb id 7 then (Ok tt, w) else (Error (ErrBackend "db down"), w) |}.
Definition req (id : string) (body : result string error) : request string :=
  {| Param := fun p => if String.eqb p _clusterIDParam then id else ""%string; ShouldBindJSON := body |}.
End Demo.

Lemma ClusterTag_List_spec_witness :
  run (ClusterTag.List Demo.numText (ClusterTag.NewAPI Demo.ctl) (Demo.req "7" (Ok "x"))) tt =
    (Ok (SuccessWithData ["env=prod"%string]), mk_sys tt [CTagList 7]) /\
  run (ClusterTag.List Demo.numText (ClusterTag.NewAPI Demo.ctl) (Demo.req "18446744073709551616" (Ok "x"))) tt =
    (Ok (RequestError InvalidRequestParam
           (Demo.numText "18446744073709551616" ErrRange)), mk_sys tt []).
Proof.
  split.
  - pose proof (ClusterTag_List_spec Demo.numText Demo.ctl (Demo.req "7" (Ok "x")) tt) as [H _].
    rewrite (H eq_refl). vm_compute. reflexivity.
  - pose proof (ClusterTag_List_spec Demo.numText Demo.ctl
                  (Demo.req "18446744073709551616" (Ok "x")) tt) as [_ H].
    destruct (H eq_refl) as [ne Hne]. rewrite Hne. vm_compute in Hne |- *.
    injection Hne as <-. reflexivity.
Defined.

Lemma ClusterTag_Update_spec_witness :
  run (ClusterTag.Update Demo.numText Demo.bindText (ClusterTag.NewAPI Demo.ctl) (Demo.req "7" (Error (ErrMsg "EOF")))) tt =
    (Ok (RequestError InvalidRequestBody "request body is invalid, err: EOF"), mk_sys tt []) /\
  run (ClusterTag.Update Demo.numText Demo.bindText (ClusterTag.NewAPI Demo.ctl) (Demo.req "8" (Ok "x"))) tt =
    (Ok (AbortError (ErrBackend "db down")), mk_sys tt [CTagUpdate 8]).
Proof.
  split.
  - pose proof (ClusterTag_Update_spec Demo.numText Demo.bindText Demo.ctl
                  (Demo.req "7" (Error (ErrMsg "EOF"))) tt) as (_ & H & _).
    rewrite (H eq_refl _ eq_refl). reflexivity.
  - pose proof (ClusterTag_Update_spec Demo.numText Demo.bindText Demo.ctl
                  (Demo.req "8" (Ok "x")) tt) as (_ & _ & H).
    rewrite (H eq_refl _ eq_refl). vm_compute. reflexivity.
Defined.

Lemma TemplateSchemaTag_List_classifies_witness :
  run (TemplateSchemaTag.List Demo.errText (TemplateSchemaTag.NewAPI Demo.ctl) (Demo.req "8" (Ok "x"))) tt =
    (Ok (RPCAbort ParamError "cluster not found"), mk_sys tt [CTagList 8]) /\
  run (TemplateSchemaTag.List Demo.errText (TemplateSchemaTag.NewAPI Demo.ctl) (Demo.req "8a" (Ok "x"))) tt =
    (Ok (RPCAbort ParamError "invalid cluster id: 8a"), mk_sys tt []).
Proof.
  split.
  - pose proof (TemplateSchemaTag_List_classifies Demo.errText Demo.ctl
                  (Demo.req "8" (Ok "x")) tt) as [_ H].
    rewrite (H eq_refl _ eq_refl). vm_compute. reflexivity.
  - pose proof (TemplateSchemaTag_List_classifies Demo.errText Demo.ctl
                  (Demo.req "8a" (Ok "x")) tt) as [H _].
    rewrite (H eq_refl). reflexivity.
Defined.

(** A path id of [2^64] is one past the largest [uint64]: no handler calls
    the controller with it. *)
Lemma Handlers_controller_id_bounds_witness :
  let s := "18446744073709551616" in
  let c := Demo.req s (Ok "x") in
  Forall (fun call => forall n, api_call_id call = Some n ->
            valid_id s = true /\ n = horner 0 s /\ 0 <= n <= maxUint64)
    (trace (snd (run (ClusterTag.List Demo.numText (ClusterTag.NewAPI Demo.ctl) c) tt)) ++
     trace (snd (run (ClusterTag.Update Demo.numText Demo.bindText (ClusterTag.NewAPI Demo.ctl) c) tt)) ++
     trace (snd (run (TemplateSchemaTag.List Demo.errText (TemplateSchemaTag.NewAPI Demo.ctl) c) tt)) ++
     trace (snd (run (TemplateSchemaTag.Update Demo.errText Demo.bindText
                        (TemplateSchemaTag.NewAPI Demo.ctl) c) tt))).
Proof.
  exact (Handlers_controller_id_bounds Demo.numText Demo.errText Demo.bindText Demo.ctl
           (Demo.req "18446744073709551616" (Ok "x")) tt).
Defined.

Lemma TemplateSchemaTag_Update_spec_witness :
  run (TemplateSchemaTag.Update Demo.errText Demo.bindText (TemplateSchemaTag.NewAPI Demo.ctl)
         (Demo.req "7" (Error (ErrMsg "EOF")))) tt =
    (Ok (RPCAbort ParamError "invalid body: 7, err: EOF"), mk_sys tt []) /\
  run (TemplateSchemaTag.Update Demo.errText Demo.bindText (TemplateSchemaTag.NewAPI Demo.ctl)
         (Demo.req "8" (Ok "x"))) tt =
    (Ok (RPCAbort InternalError "internal"), mk_sys tt [CTagUpdate 8; CLogError TemplateSchemaTag.op_Update]).
Proof.
  split.
  - pose proof (TemplateSchemaTag_Update_spec Demo.errText Demo.bindText Demo.ctl
                  (Demo.req "7" (Error (ErrMsg "EOF"))) tt) as (_ & H & _).
    rewrite (H eq_refl _ eq_refl). reflexivity.
  - pose proof (TemplateSchemaTag_Update_spec Demo.errText Demo.bindText Demo.ctl
                  (Demo.req "8" (Ok "x")) tt) as (_ & _ & H).
    rewrite (H eq_refl _ eq_refl). vm_compute. reflexivity.
Defined.
