(* ===== verification/MemberDao.v ===== *)
(** * The member DAO (src/pkg/member/dao/dao.go)

    The data-access object of the members of a resource (a group, an
    application, a cluster).  Each method takes the database from the
    request context ([orm.FromContext]), runs one SQL statement of
    [pkg/common] and converts gorm's result: an error, or the rows it
    scanned.  [UpdateByID] runs a transaction: it reads the member, sets
    its role and the user who granted it, saves it, and returns the member
    it changed.

    The world [W] is the database; the statements are the operations of a
    [gorm] record (their SQL is not among the sources), each returning
    gorm's [result.Error] and, for a [Scan], the row when [RowsAffected] is
    not 0.  The request context carries the results of [orm.FromContext]
    and [common.UserFromContext] and the optional list of e-mails of
    [memberctx.ContextEmails].  A transaction is [db.Transaction(fc)]: the
    world is rolled back when [fc] returns an error.  The [DAO] interface
    is a record of the eight methods, and [New] fills it with the methods
    of [dao]. *)

From stdpp Require Import base list strings gmap.
From Stdlib Require Import String.
From S2P Require Import Prelude Model.

(** [models.Member] *)
Module Member.
Record t : Type := mk {
  ID : nat;
  ResourceType : string;
  ResourceID : nat;
  Role : string;
  MemberType : nat;
  MemberNameID : nat;
  GrantedBy : nat
}.

(** [memberInDB.Role = role; memberInDB.GrantedBy = grantedBy] *)
Definition with_grant (m : t) (role : string) (grantedBy : nat) : t :=
  mk (ID m) (ResourceType m) (ResourceID m) role (MemberType m) (MemberNameID m) grantedBy.
End Member.

(** The request context. *)
Record context : Type := mk_context {
  (** [orm.FromContext(ctx)]: the database, or why it is missing *)
  FromContext : result unit error;
  (** [common.UserFromContext(ctx)]: the identity of the current user *)
  UserFromContext : result nat error;
  (** [ctx.Value(memberctx.ContextEmails).([]string)] *)
  ContextEmails : option (list string)
}.

(** The statements the DAO runs. *)
Module gorm.
Record t (W : Type) : Type := mk {
  (** [db.Create(member)] *)
  Create : W -> Member.t -> result unit error * W;
  (** [Raw(MemberSingleQuery, resourceType, resourceID, memberType, memberInfo).Scan] *)
  MemberSingleQuery : W -> string -> nat -> nat -> nat -> result (option Member.t) error;
  (** [Raw(MemberQueryByID, id).Scan] *)
  MemberQueryByID : W -> nat -> result (option Member.t) error;
  (** [Save(&member)] *)
  Save : W -> Member.t -> result unit error * W;
  (** [Exec(MemberSingleDelete, time.Now().Unix(), memberID)] *)
  MemberSingleDelete : W -> nat -> nat -> result unit error * W;
  (** [Raw(MemberSelectAll, resourceType, resourceID).Scan] *)
  MemberSelectAll : W -> string -> nat -> result (list Member.t) error;
  (** [Raw(MemberSelectByUserEmails, resourceType, resourceID, emails).Scan] *)
  MemberSelectByUserEmails : W -> string -> nat -> list string -> result (list Member.t) error;
  (** [Raw(MemberListResource, resourceType, memberInfo).Scan] *)
  MemberListResource : W -> string -> nat -> result (list nat) error
}.
Arguments Create {W} _. Arguments MemberSingleQuery {W} _. Arguments MemberQueryByID {W} _.
Arguments Save {W} _. Arguments MemberSingleDelete {W} _. Arguments MemberSelectAll {W} _.
Arguments MemberSelectByUserEmails {W} _. Arguments MemberListResource {W} _.
End gorm.

(** The statements a method runs, in the trace. *)
Inductive DBCall : Type :=
| QCreate (member : Member.t)
| QSingleQuery (resourceType : string) (resourceID memberType memberInfo : nat)
| QQueryByID (memberID : nat)
| QSave (member : Member.t)
| QSingleDelete (now memberID : nat)
| QSelectAll (resourceType : string) (resourceID : nat)
| QSelectByUserEmails (resourceType : string) (resourceID : nat) (emails : list string)
| QListResource (resourceType : string) (memberInfo : nat).

(** The methods of [dao] (lines 31-174). *)
Module dao.
Section Dao.
Context {W : Type} (db : gorm.t W).
Abbreviation M := (ST W DBCall error).

(** [db.Transaction(fc)]: the writes of [fc] are kept only when it
    returns [nil]. *)
Definition Transaction {A} (fc : M A) : M A :=
  fun s => let '(r, s') := fc s in
           match r with
           | Ok a => (Ok a, s')
           | Error e => (Error e, mk_sys (world s) (trace s'))
           end.

Definition fromContext (ctx : context) : M unit :=
  match FromContext ctx with Ok u => mret u | Error e => throw e end.

(** [return member, result.Error]: the member the caller passed, or the
    error of the insert (Go returns the member beside the error too; no
    caller reads it then). *)
Definition Create (ctx : context) (member : Member.t) : M Member.t :=
  _ ← fromContext ctx;
  _ ← invoke (QCreate member) (fun w => gorm.Create db w member);
  mret member.

(** [Get] and [GetByID]: [nil, nil] when no row is scanned. *)
Definition Get (ctx : context) (resourceType : string) (resourceID memberType memberInfo : nat)
    : M (option Member.t) :=
  _ ← fromContext ctx;
  query (QSingleQuery resourceType resourceID memberType memberInfo)
    (fun w => gorm.MemberSingleQuery db w resourceType resourceID memberType memberInfo).

Definition GetByID (ctx : context) (memberID : nat) : M (option Member.t) :=
  _ ← fromContext ctx;
  query (QQueryByID memberID) (fun w => gorm.MemberQueryByID db w memberID).

Definition op_UpdateByID : string := "member dao: update by ID".

(** The transaction of [UpdateByID] (lines 95-112): the result of
    [tx.Save] is not looked at. *)
Definition updateTx (id : nat) (role : string) (grantedBy : nat) : M Member.t :=
  (* 1. get member in db first *)
  r ← query (QQueryByID id) (fun w => gorm.MemberQueryByID db w id);
  match r with
  | None => throw (ErrOp op_UpdateByID (ErrHTTP 404 "" ""))
  | Some memberInDB =>
      (* 2. update value *)
      let memberInDB := Member.with_grant memberInDB role grantedBy in
      (* 3. save member after updated *)
      _ ← invoke (QSave memberInDB) (fun w => let '(_, w') := gorm.Save db w memberInDB in (Ok tt, w'));
      mret memberInDB
  end.

Definition UpdateByID (ctx : context) (id : nat) (role : string) : M Member.t :=
  _ ← fromContext ctx;
  currentUser ← (match UserFromContext ctx with Ok u => mret u | Error e => throw e end);
  Transaction (updateTx id role currentUser).

Definition Delete (ctx : context) (now memberID : nat) : M unit :=
  _ ← fromContext ctx;
  invoke (QSingleDelete now memberID) (fun w => gorm.MemberSingleDelete db w now memberID).

Definition ListDirectMember (ctx : context) (resourceType : string) (resourceID : nat)
    : M (list Member.t) :=
  _ ← fromContext ctx;
  query (QSelectAll resourceType resourceID) (fun w => gorm.MemberSelectAll db w resourceType resourceID).

(** Without e-mails in the context the query is not run and the list is
    empty ([nil]). *)
Definition ListDirectMemberOnCondition (ctx : context) (resourceType : string) (resourceID : nat)
    : M (list Member.t) :=
  _ ← fromContext ctx;
  match ContextEmails ctx with
  | Some emails =>
      query (QSelectByUserEmails resourceType resourceID emails)
        (fun w => gorm.MemberSelectByUserEmails db w resourceType resourceID emails)
  | None => mret []
  end.

Definition ListResourceOfMemberInfo (ctx : context) (resourceType : string) (memberInfo : nat)
    : M (list nat) :=
  _ ← fromContext ctx;
  query (QListResource resourceType memberInfo)
    (fun w => gorm.MemberListResource db w resourceType memberInfo).
End Dao.

(** The [DAO] interface (lines 17-29); [Delete] also takes the time
    [time.Now().Unix()] it stamps on the row. *)
Module DAO.
Record t (W : Type) : Type := mk {
  Create : context -> Member.t -> ST W DBCall error Member.t;
  Get : context -> string -> nat -> nat -> nat -> ST W DBCall error (option Member.t);
  GetByID : context -> nat -> ST W DBCall error (option Member.t);
  Delete : context -> nat -> nat -> ST W DBCall error unit;
  UpdateByID : context -> nat -> string -> ST W DBCall error Member.t;
  ListDirectMember : context -> string -> nat -> ST W DBCall error (list Member.t);
  ListDirectMemberOnCondition : context -> string -> nat -> ST W DBCall error (list Member.t);
  ListResourceOfMemberInfo : context -> string -> nat -> ST W DBCall error (list nat)
}.
End DAO.

(** [New] (lines 31-33): the stateless [dao], whose methods reach the
    database through the context; here through the statements [db]. *)
Definition New {W} (db : gorm.t W) : DAO.t W :=
  DAO.mk W (Create db) (Get db) (GetByID db) (Delete db) (UpdateByID db)
    (ListDirectMember db) (ListDirectMemberOnCondition db) (ListResourceOfMemberInfo db).
End dao.

(** ** Properties *)

Ltac dao_unfold := unfold dao.UpdateByID, dao.updateTx, dao.Transaction, dao.fromContext.

Section DaoProofs.
Context {W : Type} (db : gorm.t W).
Implicit Types (ctx : context) (w : W).

(** C25: updating a member that does not exist (no row scanned) fails with
    a 404 wrapped in the operation, after the single read, and the
    transaction leaves the database as it was. *)
Theorem UpdateByID_not_found ctx id role u w :
  FromContext ctx = Ok tt -> UserFromContext ctx = Ok u ->
  gorm.MemberQueryByID db w id = Ok None ->
  run (dao.UpdateByID db ctx id role) w =
    (Error (ErrOp dao.op_UpdateByID (ErrHTTP 404 "" "")), mk_sys w [QQueryByID id]).
Proof. intros Hdb Hu Hq. dao_unfold. rewrite Hdb, Hu. st_red. st_rewrite. reflexivity. Qed.

(** C26: updating an existing member saves it with the new role and the
    current user as grantor, every other field unchanged, and returns the
    member it saved. *)
Theorem UpdateByID_ok ctx id role u w m w' :
  FromContext ctx = Ok tt -> UserFromContext ctx = Ok u ->
  gorm.MemberQueryByID db w id = Ok (Some m) ->
  gorm.Save db w (Member.with_grant m role u) = (Ok tt, w') ->
  run (dao.UpdateByID db ctx id role) w =
    (Ok (Member.with_grant m role u),
     mk_sys w' [QQueryByID id; QSave (Member.with_grant m role u)]) /\
  Member.Role (Member.with_grant m role u) = role /\
  Member.GrantedBy (Member.with_grant m role u) = u /\
  Member.ID (Member.with_grant m role u) = Member.ID m /\
  Member.ResourceID (Member.with_grant m role u) = Member.ResourceID m.
Proof.
  intros Hdb Hu Hq Hs. dao_unfold. rewrite Hdb, Hu. st_red. rewrite Hq. cbn. rewrite Hs.
  split; [reflexivity|]. by destruct m.
Qed.

(** C10: the result of [tx.Save] is ignored: when the save fails,
    [UpdateByID] still commits and returns the member with the new role and
    no error, although the database holds what the failed save left
    (line 110). *)
Theorem UpdateByID_ignores_save_error ctx id role u w m e w' :
  FromContext ctx = Ok tt -> UserFromContext ctx = Ok u ->
  gorm.MemberQueryByID db w id = Ok (Some m) ->
  gorm.Save db w (Member.with_grant m role u) = (Error e, w') ->
  run (dao.UpdateByID db ctx id role) w =
    (Ok (Member.with_grant m role u),
     mk_sys w' [QQueryByID id; QSave (Member.with_grant m role u)]).
Proof. intros Hdb Hu Hq Hs. dao_unfold. rewrite Hdb, Hu. st_red. rewrite Hq. cbn. by rewrite Hs. Qed.

(** C35: without a database in the request context ([orm.FromContext]
    fails), every method of the DAO [New] builds returns that error at
    once: it runs no statement and leaves the database as it was. *)
Theorem New_no_database ctx e w :
  FromContext ctx = Error e ->
  let d := dao.New db in
  let fails {A} (m : ST W DBCall error A) := run m w = (Error e, mk_sys w []) in
  (forall member, fails (dao.DAO.Create W d ctx member)) /\
  (forall rt rid mt mi, fails (dao.DAO.Get W d ctx rt rid mt mi)) /\
  (forall id, fails (dao.DAO.GetByID W d ctx id)) /\
  (forall now id, fails (dao.DAO.Delete W d ctx now id)) /\
  (forall id role, fails (dao.DAO.UpdateByID W d ctx id role)) /\
  (forall rt rid, fails (dao.DAO.ListDirectMember W d ctx rt rid)) /\
  (forall rt rid, fails (dao.DAO.ListDirectMemberOnCondition W d ctx rt rid)) /\
  (forall rt mi, fails (dao.DAO.ListResourceOfMemberInfo W d ctx rt mi)).
Proof.
  intros He d fails. subst d fails. cbn [dao.New dao.DAO.Create dao.DAO.Get dao.DAO.GetByID dao.DAO.Delete
    dao.DAO.UpdateByID dao.DAO.ListDirectMember dao.DAO.ListDirectMemberOnCondition dao.DAO.ListResourceOfMemberInfo].
  unfold dao.Create, dao.Get, dao.GetByID, dao.Delete, dao.UpdateByID, dao.ListDirectMember,
    dao.ListDirectMemberOnCondition, dao.ListResourceOfMemberInfo, dao.fromContext.
  rewrite He. split_and!; intros; st_red; reflexivity.
Qed.

End DaoProofs.

(** ** Witnesses

    A table of members keyed by identity, whose [Save] fails on an empty
    role (a NOT NULL column), and a context with the database and user 9. *)
Module Demo.
Definition alice : Member.t := Member.mk 1 "applications" 4 "guest" 1 5 2.
Definition table : gmap nat Member.t := {[ 1 := alice ]}.
Definition db : gorm.t (gmap nat Member.t) :=
  {| gorm.Create := fun w m => (Ok tt, <[Member.ID m := m]> w);
     gorm.MemberSingleQuery := fun w _ _ _ _ => Ok None;
     gorm.MemberQueryByID := fun w id => Ok (w !! id);
     gorm.Save := fun w m => if String.eqb (Member.Role m) "" then (Error (ErrBackend "Column 'role' cannot be null"), w)
                             else (Ok tt, <[Member.ID m := m]> w);
     gorm.MemberSingleDelete := fun w _ id => (Ok tt, delete id w);
     gorm.MemberSelectAll := fun w _ _ => Ok [];
     gorm.MemberSelectByUserEmails := fun w _ _ _ => Ok [];
     gorm.MemberListResource := fun w _ _ => Ok [] |}.
Definition ctx : context := mk_context (Ok tt) (Ok 9) None.
End Demo.

Lemma UpdateByID_not_found_witness :
  run (dao.UpdateByID Demo.db Demo.ctx 2 "owner") Demo.table =
    (Error (ErrOp dao.op_UpdateByID (ErrHTTP 404 "" "")), mk_sys Demo.table [QQueryByID 2]).
Proof. apply (UpdateByID_not_found Demo.db Demo.ctx 2 "owner" 9 Demo.table); reflexivity. Defined.

Lemma UpdateByID_ok_witness :
  run (dao.UpdateByID Demo.db Demo.ctx 1 "owner") Demo.table =
    (Ok (Member.with_grant Demo.alice "owner" 9),
     mk_sys {[ 1 := Member.with_grant Demo.alice "owner" 9 ]}
       [QQueryByID 1; QSave (Member.with_grant Demo.alice "owner" 9)]).
Proof.
  apply (UpdateByID_ok Demo.db Demo.ctx 1 "owner" 9 Demo.table Demo.alice); reflexivity.
Defined.

Lemma UpdateByID_ignores_save_error_witness :
  run (dao.UpdateByID Demo.db Demo.ctx 1 "") Demo.table =
    (Ok (Member.with_grant Demo.alice "" 9),
     mk_sys Demo.table [QQueryByID 1; QSave (Member.with_grant Demo.alice "" 9)]).
Proof.
  apply (UpdateByID_ignores_save_error Demo.db Demo.ctx 1 "" 9 Demo.table Demo.alice
           (ErrBackend "Column 'role' cannot be null")); reflexivity.
Defined.

(** A context whose database is missing, as [orm.FromContext] reports it. *)
Lemma New_no_database_witness :
  run (dao.DAO.Delete _ (dao.New Demo.db) (mk_context (Error (ErrMsg "db is not found")) (Ok 9) None) 100 1)
      Demo.table = (Error (ErrMsg "db is not found"), mk_sys Demo.table []) /\
  run (dao.DAO.UpdateByID _ (dao.New Demo.db) (mk_context (Error (ErrMsg "db is not found")) (Ok 9) None) 1 "owner")
      Demo.table = (Error (ErrMsg "db is not found"), mk_sys Demo.table []).
Proof.
  destruct (New_no_database Demo.db (mk_context (Error (ErrMsg "db is not found")) (Ok 9) None)
              (ErrMsg "db is not found") Demo.table eq_refl) as (_ & _ & _ & Hd & Hu & _).
  split; [apply Hd|apply Hu].
Defined.
