(* ===== verification/TemplateController.v ===== *)
(** * The template controller (src/core/controller/template/controller.go)

    Three methods that delegate to a manager or to the schema getter and
    convert the result for the API ([toTemplates], [toReleases],
    [toSchemas], defined in a file of the package that is not among the
    sources: they are parameters).  The schema getter is reached through
    the Go interface [templateschema.Getter], here the record [Getter]:
    the controller's theorems are proved against the interface, and
    [schemaGetter] is the implementation of TemplateSchema.v (the
    package-level [Gtr]), so the getter's properties carry over to the
    controller.  The [Controller] interface is a record of the three
    methods; [as_Controller] is the assertion that [controller] implements
    it, and [NewController] wires the package-level managers and getter. *)

From stdpp Require Import base list strings.
From Stdlib Require Import String.
From S2P Require Import Prelude Model Collaborators TemplateSchema.

(** [templateschema.Getter] over a world [W], for schemas decoded as [J]. *)
Module Getter.
Record t (W J : Type) : Type := mk {
  GetTemplateSchema : string -> string -> ST W Call error (Schemas.t J)
}.
Arguments mk {W J} _. Arguments GetTemplateSchema {W J} _ _ _.
End Getter.

(** [Gtr]: the getter of schema.go, with the goroutine schedules of its two
    rounds. *)
Definition schemaGetter {W J} (json_nil : J) (Unmarshal : list Init.Byte.byte -> result J error)
    (g : getter (W:=W)) (sched sched2 : list nat) : Getter.t W J :=
  Getter.mk (GetTemplateSchema json_nil Unmarshal g sched sched2).

(** The methods of [controller] (lines 16-74). *)
Module template.
(** The [Controller] interface (lines 16-23). *)
Module Controller.
Record t (W Templates Releases APISchemas : Type) : Type := mk {
  ListTemplate : W -> result Templates error;
  ListTemplateRelease : W -> string -> result Releases error;
  GetTemplateSchema : string -> string -> ST W Call error APISchemas
}.
Arguments ListTemplate {W Templates Releases APISchemas} _ _.
Arguments ListTemplateRelease {W Templates Releases APISchemas} _ _ _.
Arguments GetTemplateSchema {W Templates Releases APISchemas} _ _ _.
End Controller.

Section Methods.
Context {W J Template Release Templates Releases APISchemas : Type}.
(** The conversions of the package's model file. *)
Context (toTemplates : list Template -> Templates) (toReleases : list Release -> Releases)
        (toSchemas : Schemas.t J -> APISchemas).

Record controller : Type := mk_controller {
  (** [tmanager.Manager.List] *)
  templateMgr_List : W -> result (list Template) error;
  (** [trmanager.Manager.ListByTemplateName] *)
  templateReleaseMgr_ListByTemplateName : W -> string -> result (list Release) error;
  templateSchemaGetter : Getter.t W J
}.

(** The template managers are read-only here; their calls are not in the
    trace of the getter's calls. *)
Definition ListTemplate (c : controller) (w : W) : result Templates error :=
  match templateMgr_List c w with
  | Error err => Error err
  | Ok templateModels => Ok (toTemplates templateModels)
  end.

Definition ListTemplateRelease (c : controller) (w : W) (templateName : string) : result Releases error :=
  match templateReleaseMgr_ListByTemplateName c w templateName with
  | Error err => Error err
  | Ok templateReleaseModels => Ok (toReleases templateReleaseModels)
  end.

Definition GetTemplateSchema (c : controller) (templateName releaseName : string)
    : ST W Call error APISchemas :=
  schemas ← Getter.GetTemplateSchema (templateSchemaGetter c) templateName releaseName;
  mret (toSchemas schemas).

(** The assertion [var _ Controller] of line 31: [controller]
    implements the interface with the three methods above. *)
Definition as_Controller (c : controller) : Controller.t W Templates Releases APISchemas :=
  Controller.mk _ _ _ _ (ListTemplate c) (ListTemplateRelease c) (GetTemplateSchema c).

(** [NewController] (lines 33-40), given the package-level [tmanager.Mgr],
    [trmanager.Mgr] and [templateschema.Gtr]. *)
Definition NewController (templateMgr_List : W -> result (list Template) error)
    (templateReleaseMgr_ListByTemplateName : W -> string -> result (list Release) error)
    (Gtr : Getter.t W J) : Controller.t W Templates Releases APISchemas :=
  as_Controller (mk_controller templateMgr_List templateReleaseMgr_ListByTemplateName Gtr).
End Methods.
End template.

(** ** Properties *)

Section ControllerProofs.
Context {W J Template Release Templates Releases APISchemas : Type}.
Context (toTemplates : list Template -> Templates) (toReleases : list Release -> Releases)
        (toSchemas : Schemas.t J -> APISchemas).
Implicit Types (c : template.controller (W:=W) (J:=J) (Template:=Template) (Release:=Release)) (w : W).

(** The controller runs the getter it holds and converts its schemas; the
    getter's error is returned as it is. *)
Lemma GetTemplateSchema_via_getter c t r w :
  run (template.GetTemplateSchema toSchemas c t r) w =
    match run (Getter.GetTemplateSchema (template.templateSchemaGetter c) t r) w with
    | (Ok s, st) => (Ok (toSchemas s), st)
    | (Error e, st) => (Error e, st)
    end.
Proof.
  unfold template.GetTemplateSchema, run. rewrite bind_unfold.
  destruct (Getter.GetTemplateSchema _ _ _ _) as [[s|e] st]; done.
Qed.

Context (json_nil : J) (Unmarshal : list Init.Byte.byte -> result J error).

(** C24: with the schema getter of schema.go, a release the release
    manager does not find reaches the controller's caller as the getter's
    404 [ReleaseNotFound] error, unchanged, after the single lookup. *)
Theorem TemplateController_release_not_found c g sched sched2 t r w :
  template.templateSchemaGetter c = schemaGetter json_nil Unmarshal g sched sched2 ->
  TemplateReleaseManager.GetByTemplateNameAndRelease (templateReleaseMgr g) w t r = Ok None ->
  run (template.GetTemplateSchema toSchemas c t r) w =
    (Error (ErrOp op_getTemplateSchema
              (ErrHTTP 404 _errCodeReleaseNotFound
                 ("the release " ++ r ++ " of template " ++ t ++ " is not found"))),
     mk_sys w [CGetByTemplateNameAndRelease t r]).
Proof.
  intros Hg Hrel. rewrite GetTemplateSchema_via_getter, Hg.
  unfold schemaGetter, Getter.GetTemplateSchema, TemplateSchema.GetTemplateSchema.
  st_red. rewrite Hrel. reflexivity.
Qed.
End ControllerProofs.

(** ** Witnesses

    The controller over the demo getter of TemplateSchema.v, whose
    goroutines run in the orders 3, 1, 0, 2 and 2, 0, 3, 1; no templates
    and no releases in the managers; the API schemas are the schemas. *)
Definition demo_controller (sched sched2 : list nat) :=
  template.mk_controller (W:=unit) (Template:=unit) (Release:=unit)
    (fun _ => Ok []) (fun _ _ => Ok [])
    (schemaGetter [] Demo.unmarshal_json Demo.schema_getter sched sched2).

Lemma TemplateController_release_not_found_witness :
  run (template.GetTemplateSchema (fun s => s) (demo_controller [0; 1; 2; 3] [0; 1; 2; 3])
         "javaapp" "v9") tt =
    (Error (ErrOp op_getTemplateSchema
              (ErrHTTP 404 _errCodeReleaseNotFound
                 ("the release " ++ "v9" ++ " of template " ++ "javaapp" ++ " is not found"))),
     mk_sys tt [CGetByTemplateNameAndRelease "javaapp" "v9"]).
Proof.
  apply (TemplateController_release_not_found (fun s => s) [] Demo.unmarshal_json
           (demo_controller [0; 1; 2; 3] [0; 1; 2; 3]) Demo.schema_getter [0; 1; 2; 3] [0; 1; 2; 3]);
    reflexivity.
Defined.
